(** * liveStream-backend: the room coordination engine

    A shallow embedding of the socket handlers of [src/server.js], of the
    Room model ([models/Room.js]) and of the Message model
    ([models/Message.js]), followed by the properties of the room engine.

    Conventions of the embedding.
    - A JavaScript string is a [string] whose characters are its code
      units; the embedding covers the texts whose code units are below 256.
      An absent ([undefined]) string field of a payload is the empty
      string, which the code ([x || '']) and the schema ([required]) treat
      alike.
    - A capacity is a JavaScript Number that the schema does not ask to be
      whole: a rational, a [Q].  Counts are lengths and are whole, a [Z].
    - A [Date] is a number of milliseconds, a [Z]; each handler run reads
      the clock once ([now]).
    - The document store is a finite map from room id to room document
      (the schema declares [id] unique) and a list of message documents.
      [room.save()] writes the document back under its id.
    - A handler is a function from the store and the connection's closure
      variables to the new store, the new closure variables and the list
      of events it emits, in order.
    - The fields [createdAt]/[updatedAt] that the store layer maintains for
      rooms are not part of the room record. *)

From Stdlib Require Import ZArith QArith String Ascii List.
From stdpp Require Import base decidable option list gmap strings sorting.

Local Open Scope Z_scope.

Definition Date := Z.

(** ** Documents *)

(** The identity a client sends along with its events. *)
Module User.
Record t := mk {
  uid : string;
  displayName : string;
  username : string;
  avatar : string
}.
End User.

(** An element of [RoomSchema.participants]. *)
Module Participant.
Record t := mk {
  uid : string;
  displayName : string;
  username : string;
  avatar : string;
  joinedAt : Date;
  socketId : string
}.

Definition with_socketId (sid : string) (p : t) : t :=
  mk (uid p) (displayName p) (username p) (avatar p) (joinedAt p) sid.
End Participant.

Inductive Status := live | ended | scheduled.

Definition Status_eqb (a b : Status) : bool :=
  match a, b with
  | live, live | ended, ended | scheduled, scheduled => true
  | _, _ => false
  end.

(** [RoomSchema]. *)
Module Room.
Record t := mk {
  id : string;
  title : string;
  description : string;
  admin : User.t;
  participants : list Participant.t;
  isLive : bool;
  status : Status;
  streamKey : option string;
  thumbnail : string;
  category : string;
  tags : list string;
  isPublic : bool;
  maxParticipants : Q;
  currentParticipants : Z;
  startedAt : Date;
  endedAt : option Date;
  createdBy : string;
  lastActivity : Date
}.

(** Assignments to the fields the code writes. *)
Definition with_participants (ps : list Participant.t) (r : t) : t :=
  mk (id r) (title r) (description r) (admin r) ps (isLive r) (status r)
     (streamKey r) (thumbnail r) (category r) (tags r) (isPublic r)
     (maxParticipants r) (currentParticipants r) (startedAt r) (endedAt r)
     (createdBy r) (lastActivity r).

Definition with_currentParticipants (n : Z) (r : t) : t :=
  mk (id r) (title r) (description r) (admin r) (participants r) (isLive r)
     (status r) (streamKey r) (thumbnail r) (category r) (tags r)
     (isPublic r) (maxParticipants r) n (startedAt r) (endedAt r)
     (createdBy r) (lastActivity r).

Definition with_lastActivity (d : Date) (r : t) : t :=
  mk (id r) (title r) (description r) (admin r) (participants r) (isLive r)
     (status r) (streamKey r) (thumbnail r) (category r) (tags r)
     (isPublic r) (maxParticipants r) (currentParticipants r) (startedAt r)
     (endedAt r) (createdBy r) d.

Definition with_isLive (b : bool) (r : t) : t :=
  mk (id r) (title r) (description r) (admin r) (participants r) b
     (status r) (streamKey r) (thumbnail r) (category r) (tags r)
     (isPublic r) (maxParticipants r) (currentParticipants r) (startedAt r)
     (endedAt r) (createdBy r) (lastActivity r).

Definition with_status (s : Status) (r : t) : t :=
  mk (id r) (title r) (description r) (admin r) (participants r) (isLive r)
     s (streamKey r) (thumbnail r) (category r) (tags r) (isPublic r)
     (maxParticipants r) (currentParticipants r) (startedAt r) (endedAt r)
     (createdBy r) (lastActivity r).

Definition with_endedAt (d : option Date) (r : t) : t :=
  mk (id r) (title r) (description r) (admin r) (participants r) (isLive r)
     (status r) (streamKey r) (thumbnail r) (category r) (tags r)
     (isPublic r) (maxParticipants r) (currentParticipants r) (startedAt r)
     d (createdBy r) (lastActivity r).

(** [this.participants.find(p => p.uid === uid)] *)
Definition findParticipant (uid : string) (r : t) : option Participant.t :=
  find (fun p => String.eqb (Participant.uid p) uid) (participants r).

(** [this.participants.length], as the number the code stores. *)
Definition participantCount (r : t) : Z :=
  Z.of_nat (length (participants r)).

(** [RoomSchema.methods.addParticipant] *)
Definition addParticipant (now : Date) (participant : Participant.t) (r : t) : t :=
  match findParticipant (Participant.uid participant) r with
  | Some _ => r
  | None =>
      let r1 := with_participants (participants r ++ [participant]) r in
      let r2 := with_currentParticipants (participantCount r1) r1 in
      with_lastActivity now r2
  end.

(** [RoomSchema.methods.removeParticipant] *)
Definition removeParticipant (now : Date) (uid : string) (r : t) : t :=
  let r1 :=
    with_participants
      (List.filter (fun p => negb (String.eqb (Participant.uid p) uid))
                   (participants r)) r in
  let r2 := with_currentParticipants (participantCount r1) r1 in
  with_lastActivity now r2.

(** The in-place write [participant.socketId = socketId] on the first
    element that [find] returns. *)
Fixpoint setSocketOfFirst (uid sid : string) (ps : list Participant.t)
  : list Participant.t :=
  match ps with
  | [] => []
  | p :: ps' =>
      if String.eqb (Participant.uid p) uid
      then Participant.with_socketId sid p :: ps'
      else p :: setSocketOfFirst uid sid ps'
  end.

(** [RoomSchema.methods.updateParticipantSocket] *)
Definition updateParticipantSocket (uid sid : string) (r : t) : t :=
  match findParticipant uid r with
  | Some _ => with_participants (setSocketOfFirst uid sid (participants r)) r
  | None => r
  end.
End Room.


(** ** Strings, as the code uses them *)

Module Text.
Definition chars (s : string) : list ascii := list_ascii_of_string s.

(** The white space [String.prototype.trim] removes, among the code units
    below 256: TAB, LF, VT, FF, CR, the space and the no-break space
    U+00A0. *)
Definition isSpace (c : ascii) : bool :=
  let n := N_of_ascii c in
  ((9 <=? n)%N && (n <=? 13)%N) || (n =? 32)%N || (n =? 160)%N.

Fixpoint trimStart (l : list ascii) : list ascii :=
  match l with
  | c :: l' => if isSpace c then trimStart l' else l
  | [] => []
  end.

(** [s.trim()] *)
Definition trim (s : string) : string :=
  string_of_list_ascii (rev (trimStart (rev (trimStart (chars s))))).

(** [!s] for a string: the empty string is falsy. *)
Definition falsy (s : string) : bool :=
  match s with EmptyString => true | _ => false end.

(** [a || b] on strings. *)
Definition orElse (a b : string) : string := if falsy a then b else a.

(** Case folding of the letters A-Z, as the [i] option of a regular
    expression does on ASCII text. *)
Definition lower (c : ascii) : ascii :=
  let n := N_of_ascii c in
  if ((65 <=? n)%N && (n <=? 90)%N)%bool then ascii_of_N (n + 32) else c.

Definition eqbCI (a b : ascii) : bool := Ascii.eqb (lower a) (lower b).
End Text.

(** ** Regular expressions: the fragment of the store's matcher that is
    modelled

    [searchMessages] hands the search term to the store as the pattern of a
    [$regex] with option [i].  The embedding covers patterns made of
    ordinary characters and of the dot; a pattern with any other
    metacharacter is outside it ([compile] gives [None]). *)
Module Regex.
Inductive atom :=
| Lit (c : ascii)
| AnyChar.

(** The characters with a meaning of their own in a pattern. *)
Definition metachars : list ascii :=
  Text.chars "\^$.|?*+()[]{}".

Definition isMeta (c : ascii) : bool :=
  existsb (Ascii.eqb c) metachars.

Fixpoint compile (p : list ascii) : option (list atom) :=
  match p with
  | [] => Some []
  | c :: p' =>
      if Ascii.eqb c "."%char then cons AnyChar <$> compile p'
      else if isMeta c then None
      else cons (Lit c) <$> compile p'
  end.

(** One atom against one character, without regard to case; the dot
    matches every character but the line feed. *)
Definition matchAtom (a : atom) (c : ascii) : bool :=
  match a with
  | Lit x => Text.eqbCI x c
  | AnyChar => negb (Ascii.eqb c "010"%char)
  end.

(** The atoms match a prefix of the text. *)
Fixpoint matchHere (re : list atom) (t : list ascii) : bool :=
  match re, t with
  | [], _ => true
  | _ :: _, [] => false
  | a :: re', c :: t' => matchAtom a c && matchHere re' t'
  end.

(** An unanchored pattern matches when it matches at some position. *)
Fixpoint matchAnywhere (re : list atom) (t : list ascii) : bool :=
  matchHere re t ||
  match t with
  | [] => false
  | _ :: t' => matchAnywhere re t'
  end.

(** [{ $regex: pattern, $options: 'i' }] applied to a text. *)
Definition test (pattern text : string) : option bool :=
  re ← compile (Text.chars pattern);
  Some (matchAnywhere re (Text.chars text)).
End Regex.

(** ** Messages *)

Inductive MessageType := text_msg | image_msg | file_msg | system_msg.

(** [MessageSchema], without the fields no handler of the engine writes
    ([metadata], [reactions], [replyTo], the pin and edit stamps). *)
Module Message.
Record t := mk {
  id : string;
  roomId : string;
  text : string;
  user : User.t;
  socketId : string;
  messageType : MessageType;
  isEdited : bool;
  isDeleted : bool;
  isPinned : bool;
  createdAt : Date
}.

(** [.sort({ createdAt: -1 })]: newest first. *)
Definition newerFirst (a b : t) : Prop := createdAt b ≤ createdAt a.

#[global] Instance newerFirst_dec : RelDecision newerFirst.
Proof. intros a b. unfold newerFirst. apply _. Defined.

Definition sortByCreatedDesc (l : list t) : list t :=
  merge_sort newerFirst l.

(** [.limit(n)]: the store reads a limit of 0 as no limit. *)
Definition limit (n : nat) (l : list t) : list t :=
  match n with
  | O => l
  | _ => take n l
  end.

(** The filter [{ roomId: roomId, isDeleted: false }]. *)
Definition inRoom (rid : string) (m : t) : bool :=
  String.eqb (roomId m) rid && negb (isDeleted m).

(** [MessageSchema.statics.findRecentMessages] *)
Definition findRecentMessages (all : list t) (rid : string) (n : nat) : list t :=
  limit n (sortByCreatedDesc (List.filter (inRoom rid) all)).

(** [MessageSchema.statics.searchMessages]: [None] when the search term is
    outside the modelled fragment of patterns. *)
Definition searchMessages (all : list t) (rid searchTerm : string) (n : nat)
  : option (list t) :=
  re ← Regex.compile (Text.chars searchTerm);
  Some (limit n (sortByCreatedDesc
    (List.filter
       (fun m => inRoom rid m && Regex.matchAnywhere re (Text.chars (text m)))
       all))).
End Message.

(** ** Schema validation

    What [Room.create], [Message.create] and [room.save()] check before
    they write: the [required] and [maxlength] validators of the schemas.
    Lengths are counted in characters of the [string]. *)

Definition present (s : string) : bool := negb (Text.falsy s).

Definition validParticipant (p : Participant.t) : bool :=
  present (Participant.uid p) && present (Participant.displayName p)
  && present (Participant.username p).

Definition validIdentity (u : User.t) : bool :=
  present (User.uid u) && present (User.displayName u)
  && present (User.username u).

Definition validRoom (r : Room.t) : bool :=
  present (Room.id r) && present (Room.title r)
  && (String.length (Room.title r) <=? 100)%nat
  && (String.length (Room.description r) <=? 500)%nat
  && validIdentity (Room.admin r)
  && forallb validParticipant (Room.participants r)
  && present (Room.createdBy r).

Definition validMessage (m : Message.t) : bool :=
  present (Message.id m) && present (Message.roomId m)
  && present (Message.text m)
  && (String.length (Message.text m) <=? 1000)%nat
  && validIdentity (Message.user m).

(** ** The document store *)

Record Store := mkStore {
  roomDocs : gmap string Room.t;
  messageDocs : list Message.t
}.

Definition emptyStore : Store := mkStore ∅ [].

(** [RoomSchema.statics.findByRoomId] *)
Definition findByRoomId (db : Store) (roomId : string) : option Room.t :=
  roomDocs db !! roomId.

(** [room.save()] for the document found under [roomId]. *)
Definition saveRoom (roomId : string) (r : Room.t) (db : Store) : Store :=
  mkStore (<[roomId := r]> (roomDocs db)) (messageDocs db).

(** [Message.create]: the new document is appended; a second document with
    the same [id] is refused by the unique index. *)
Definition createMessage (m : Message.t) (db : Store) : option Store :=
  if validMessage m
     && negb (existsb (fun m' => String.eqb (Message.id m') (Message.id m))
                      (messageDocs db))
  then Some (mkStore (roomDocs db) (messageDocs db ++ [m]))
  else None.

Definition moreRecentActivity (a b : Room.t) : Prop :=
  Room.lastActivity b ≤ Room.lastActivity a.

#[global] Instance moreRecentActivity_dec : RelDecision moreRecentActivity.
Proof. intros a b. unfold moreRecentActivity. apply _. Defined.

(** [RoomSchema.statics.findActiveRooms] *)
Definition findActiveRooms (db : Store) : list Room.t :=
  take 50
    (merge_sort moreRecentActivity
       (List.filter (fun r => Room.isLive r && Status_eqb (Room.status r) live)
                    (snd <$> map_to_list (roomDocs db)))).

(** ** Connections and events *)

(** The closure variables of one connection, with the identifier and the
    room set of its socket. *)
Record Session := mkSession {
  socketId : string;
  currentUser : option User.t;
  currentRoom : option string;
  rooms : list string
}.

(** A fresh connection: a socket is in the room named by its own id. *)
Definition connect (sid : string) : Session :=
  mkSession sid None None [sid].

(** [socket.join(roomId)] *)
Definition socketJoin (roomId : string) (s : Session) : Session :=
  mkSession (socketId s) (currentUser s) (currentRoom s)
    (if existsb (String.eqb roomId) (rooms s) then rooms s
     else rooms s ++ [roomId]).

(** [socket.leave(roomId)] *)
Definition socketLeave (roomId : string) (s : Session) : Session :=
  mkSession (socketId s) (currentUser s) (currentRoom s)
    (List.filter (fun r => negb (String.eqb r roomId)) (rooms s)).

Definition setCurrentUser (u : option User.t) (s : Session) : Session :=
  mkSession (socketId s) u (currentRoom s) (rooms s).

Definition setCurrentRoom (r : option string) (s : Session) : Session :=
  mkSession (socketId s) (currentUser s) r (rooms s).

(** Who receives an emitted event. *)
Inductive Target :=
| ToSocket                      (* socket.emit *)
| ToOthersIn (roomId : string)  (* socket.to(roomId).emit *)
| ToRoom (roomId : string)      (* io.to(roomId).emit *)
| ToEveryone.                   (* io.emit *)

Inductive Payload :=
| PError (message code : string)
| PRoom (room : Room.t)
| PRoomsUpdated (type : string) (room : option Room.t) (roomId : string)
| PRoomsList (rooms : list Room.t)
| PMembers (roomId : string) (participants : list Participant.t)
           (currentParticipants : Z)
| PMessages (messages : list Message.t)
| PMessage (message : Message.t)
| PUser (user : User.t)
| PUserLeft (uid displayName : string)
| PRoomDeleted (roomId reason : string)
| PTyping (user : User.t) (isTyping : bool).

Record Emit := mkEmit {
  target : Target;
  event : string;
  payload : Payload
}.

(** [socket.emit("error", { message, code })] *)
Definition emitError (message code : string) : Emit :=
  mkEmit ToSocket "error" (PError message code).

Definition isError (e : Emit) : bool := String.eqb (event e) "error".

(** What a handler run reads from outside: the clock, and the identifier
    it would generate from the clock and [Math.random]. *)
Record Env := mkEnv {
  now : Date;
  generatedId : string
}.

(** The payload of [createRoom]. *)
Module RoomData.
Record t := mk {
  id : string;
  title : string;
  description : string;
  admin : User.t;
  category : string;
  tags : list string;
  isPublic : option bool;
  maxParticipants : option Q
}.
End RoomData.

Definition Outcome : Type := Store * Session * list Emit.

Definition storeOf (o : Outcome) : Store := o.1.1.
Definition sessionOf (o : Outcome) : Session := o.1.2.
Definition emitsOf (o : Outcome) : list Emit := o.2.

(** ** The socket handlers of [server.js] *)

(** [socket.on("authenticate")] *)
Definition authenticate (s : Session) (db : Store) (userData : User.t) : Outcome :=
  (db, setCurrentUser (Some userData) s, []).

(** The document [createRoom] hands to [Room.create], with the defaults of
    the schema filled in and the [trim] setters applied. *)
Definition newRoomData (env : Env) (s : Session) (roomId : string)
    (roomData : RoomData.t) : Room.t :=
  let a := RoomData.admin roomData in
  Room.mk
    roomId
    (Text.trim (RoomData.title roomData))
    (Text.orElse (RoomData.description roomData) "")
    (User.mk (User.uid a) (User.displayName a) (User.username a)
             (Text.orElse (User.avatar a) ""))
    [Participant.mk (User.uid a) (User.displayName a) (User.username a)
                    (Text.orElse (User.avatar a) "") (now env) (socketId s)]
    true
    live
    None
    ""
    (Text.orElse (RoomData.category roomData) "general")
    (Text.trim <$> RoomData.tags roomData)
    (match RoomData.isPublic roomData with Some false => false | _ => true end)
    (match RoomData.maxParticipants roomData with
     | None => 100%Q
     | Some n => if Qeq_bool n 0 then 100%Q else n
     end)
    1
    (now env)
    None
    (socketId s)
    (now env).

(** [socket.on("createRoom")] *)
Definition createRoom (env : Env) (s : Session) (db : Store)
    (roomData : RoomData.t) : Outcome :=
  let roomId := Text.orElse (RoomData.id roomData) (generatedId env) in
  match findByRoomId db roomId with
  | Some _ => (db, s, [emitError "Room ID already exists" "ROOM_ID_EXISTS"])
  | None =>
      let newRoom := newRoomData env s roomId roomData in
      if validRoom newRoom then
        (saveRoom roomId newRoom db,
         setCurrentRoom (Some roomId) (socketJoin roomId s),
         [mkEmit ToEveryone "roomsUpdated"
                 (PRoomsUpdated "roomCreated" (Some newRoom) "");
          mkEmit ToSocket "roomCreated" (PRoom newRoom)])
      else (db, s, [emitError "Failed to create room" "ROOM_CREATE_ERROR"])
  end.

(** [count >= capacity], the count a whole number and the capacity any
    Number. *)
Definition atLeast (count : Z) (capacity : Q) : bool :=
  Qle_bool capacity (inject_Z count).

(** The branch of [joinRoom] on [existingParticipant]: the document it
    saves, a socket update for a member and an added participant
    otherwise; [None] when the store refuses the new participant. *)
Definition enrol (env : Env) (s : Session) (user : User.t) (room : Room.t)
  : option Room.t :=
  match Room.findParticipant (User.uid user) room with
  | Some _ =>
      Some (Room.updateParticipantSocket (User.uid user) (socketId s) room)
  | None =>
      let participantData :=
        Participant.mk (User.uid user) (User.displayName user)
          (User.username user) (Text.orElse (User.avatar user) "")
          (now env) (socketId s) in
      if validParticipant participantData
      then Some (Room.addParticipant (now env) participantData room)
      else None
  end.

(** [socket.on("joinRoom")] *)
Definition joinRoom (env : Env) (s : Session) (db : Store)
    (roomId : string) (user : User.t) : Outcome :=
  match findByRoomId db roomId with
  | None => (db, s, [emitError "Room not found" "ROOM_NOT_FOUND"])
  | Some room =>
      if negb (Room.isLive room) || negb (Status_eqb (Room.status room) live)
      then (db, s, [emitError "Room is not live" "ROOM_NOT_LIVE"])
      else if atLeast (Room.currentParticipants room) (Room.maxParticipants room)
      then (db, s, [emitError "Room is full" "ROOM_FULL"])
      else
        match enrol env s user room with
        | None => (db, s, [emitError "Failed to join room" "ROOM_JOIN_ERROR"])
        | Some room' =>
            let db' := saveRoom roomId room' db in
            let recentMessages :=
              Message.findRecentMessages (messageDocs db') roomId 50 in
            (db',
             setCurrentUser (Some user)
               (setCurrentRoom (Some roomId) (socketJoin roomId s)),
             [mkEmit ToSocket "roomUpdated" (PRoom room');
              mkEmit ToSocket "existingMessages" (PMessages (rev recentMessages));
              mkEmit (ToOthersIn roomId) "userJoined" (PUser user);
              mkEmit (ToOthersIn roomId) "roomUpdated"
                (PMembers roomId (Room.participants room')
                          (Room.currentParticipants room'))])
        end
  end.

(** [room.participants.some(p => p.uid === uid)] *)
Definition isParticipant (uid : string) (room : Room.t) : bool :=
  existsb (fun p => String.eqb (Participant.uid p) uid) (Room.participants room).

(** [socket.on("sendMessage")] *)
Definition sendMessage (env : Env) (s : Session) (db : Store)
    (roomId text : string) (user : User.t) : Outcome :=
  if Text.falsy text || (String.length (Text.trim text) =? 0)%nat
  then (db, s, [emitError "Message cannot be empty" "EMPTY_MESSAGE"])
  else
    match findByRoomId db roomId with
    | None => (db, s, [emitError "Room not found" "ROOM_NOT_FOUND"])
    | Some room =>
        if negb (isParticipant (User.uid user) room)
        then (db, s, [emitError "You are not in this room" "NOT_IN_ROOM"])
        else
          let messageData :=
            Message.mk (generatedId env) roomId (Text.trim text)
              (User.mk (User.uid user) (User.displayName user)
                       (User.username user) (Text.orElse (User.avatar user) ""))
              (socketId s) text_msg false false false (now env) in
          match createMessage messageData db with
          | None =>
              (db, s, [emitError "Failed to send message" "MESSAGE_SEND_ERROR"])
          | Some db1 =>
              (saveRoom roomId (Room.with_lastActivity (now env) room) db1,
               s,
               [mkEmit (ToRoom roomId) "newMessage" (PMessage messageData)])
          end
    end.

(** The two events every departure sends to the others in the room. *)
Definition membersUpdate (roomId : string) (room : Room.t) : Emit :=
  mkEmit (ToOthersIn roomId) "roomUpdated"
    (PMembers roomId (Room.participants room) (Room.currentParticipants room)).

(** [socket.on("leaveRoom")] *)
Definition leaveRoom (env : Env) (s : Session) (db : Store)
    (roomId : string) (user : User.t) : Outcome :=
  let s' := setCurrentRoom None (socketLeave roomId s) in
  match findByRoomId db roomId with
  | Some room =>
      let room' := Room.removeParticipant (now env) (User.uid user) room in
      (saveRoom roomId room' db, s',
       [mkEmit (ToOthersIn roomId) "userLeft" (PUser user);
        membersUpdate roomId room'])
  | None => (db, s', [])
  end.

(** [room.admin.uid !== currentUser?.uid] *)
Definition notAdmin (room : Room.t) (requester : option User.t) : bool :=
  match requester with
  | Some u => negb (String.eqb (User.uid (Room.admin room)) (User.uid u))
  | None => true
  end.

(** [socket.on("endStream")] *)
Definition endStream (env : Env) (s : Session) (db : Store)
    (roomId : string) : Outcome :=
  match findByRoomId db roomId with
  | None => (db, s, [emitError "Room not found" "ROOM_NOT_FOUND"])
  | Some room =>
      if notAdmin room (currentUser s)
      then (db, s, [emitError "Unauthorized" "UNAUTHORIZED"])
      else
        let room' :=
          Room.with_endedAt (Some (now env))
            (Room.with_status ended (Room.with_isLive false room)) in
        (saveRoom roomId room' db, s,
         [mkEmit (ToRoom roomId) "roomDeleted"
                 (PRoomDeleted roomId "ended_by_admin");
          mkEmit ToEveryone "roomsUpdated"
                 (PRoomsUpdated "roomDeleted" None roomId)])
  end.

(** [socket.on("getRooms")] *)
Definition getRooms (s : Session) (db : Store) : Outcome :=
  (db, s, [mkEmit ToSocket "roomsUpdated" (PRoomsList (findActiveRooms db))]).

(** One turn of the loop of [leaveAllRooms]. *)
Definition leaveOne (env : Env) (acc : Outcome) (roomId : string) : Outcome :=
  let '(db, s, out) := acc in
  if String.eqb roomId (socketId s) then acc
  else
    match findByRoomId db roomId, currentUser s with
    | Some room, Some u =>
        let room' := Room.removeParticipant (now env) (User.uid u) room in
        (saveRoom roomId room' db, socketLeave roomId s,
         out ++ [mkEmit (ToOthersIn roomId) "userLeft" (PUser u);
                 membersUpdate roomId room'])
    | _, _ => (db, socketLeave roomId s, out)
    end.

(** [socket.on("leaveAllRooms")] *)
Definition leaveAllRooms (env : Env) (s : Session) (db : Store) : Outcome :=
  let '(db', s', out) := fold_left (leaveOne env) (rooms s) (db, s, []) in
  (db', setCurrentRoom None s', out).

(** [socket.on("typing")] *)
Definition typing (s : Session) (db : Store) (roomId : string) (user : User.t)
    (isTyping : bool) : Outcome :=
  (db, s, [mkEmit (ToOthersIn roomId) "userTyping" (PTyping user isTyping)]).

(** [socket.on("disconnect")]; the socket has left its rooms by then, the
    closure variables keep their values. *)
Definition disconnect (env : Env) (s : Session) (db : Store) : Outcome :=
  let s' := mkSession (socketId s) (currentUser s) (currentRoom s) [] in
  let bye :=
    mkEmit ToEveryone "roomsUpdated"
      (PRoomsUpdated "userDisconnected" None (socketId s)) in
  match currentRoom s, currentUser s with
  | Some roomId, Some u =>
      if Text.falsy roomId then (db, s', [bye])
      else
        match findByRoomId db roomId with
        | Some room =>
            let room' := Room.removeParticipant (now env) (User.uid u) room in
            (saveRoom roomId room' db, s',
             [mkEmit (ToOthersIn roomId) "userLeft"
                (PUserLeft (User.uid u)
                   (Text.orElse (User.displayName u) "Unknown User"));
              membersUpdate roomId room'; bye])
        | None => (db, s', [bye])
        end
  | _, _ => (db, s', [bye])
  end.

(** ** The engine as a state machine *)

Inductive ClientEvent :=
| Authenticate (userData : User.t)
| CreateRoom (roomData : RoomData.t)
| JoinRoom (roomId : string) (user : User.t)
| SendMessage (roomId text : string) (user : User.t)
| LeaveRoom (roomId : string) (user : User.t)
| EndStream (roomId : string)
| GetRooms
| LeaveAllRooms
| Typing (roomId : string) (user : User.t) (isTyping : bool)
| Disconnect.

(** The handler [io.on("connection")] registers for an event. *)
Definition handle (env : Env) (s : Session) (db : Store) (ev : ClientEvent)
  : Outcome :=
  match ev with
  | Authenticate u => authenticate s db u
  | CreateRoom d => createRoom env s db d
  | JoinRoom r u => joinRoom env s db r u
  | SendMessage r t u => sendMessage env s db r t u
  | LeaveRoom r u => leaveRoom env s db r u
  | EndStream r => endStream env s db r
  | GetRooms => getRooms s db
  | LeaveAllRooms => leaveAllRooms env s db
  | Typing r u b => typing s db r u b
  | Disconnect => disconnect env s db
  end.

(** One handler run of some connection: the clock and generated id it
    reads, the connection's closure variables at that point, the event. *)
Definition Run : Type := Env * Session * ClientEvent.

(** The store after a sequence of handler runs, one after the other. *)
Definition runAll (trace : list Run) (db : Store) : Store :=
  fold_left (fun db '(env, s, ev) => storeOf (handle env s db ev)) trace db.

(** ** Notions the properties are stated with *)

(** How many membership records of a room carry a given uid. *)
Definition timesMember (uid : string) (room : Room.t) : nat :=
  length (List.filter (fun p => String.eqb (Participant.uid p) uid)
                      (Room.participants room)).

(** No uid has two membership records. *)
Definition atMostOnce (r : Room.t) : Prop :=
  ∀ uid, (timesMember uid r ≤ 1)%nat.

(** The socket recorded for a uid, if it is a member. *)
Definition socketOf (uid : string) (room : Room.t) : option string :=
  Participant.socketId <$> Room.findParticipant uid room.

(** The stored count agrees with the list. *)
Definition countInSync (room : Room.t) : Prop :=
  Room.currentParticipants room = Room.participantCount room.

(** The room accepts joins: the first check of [joinRoom] passes. *)
Definition isOpen (room : Room.t) : bool :=
  Room.isLive room && Status_eqb (Room.status room) live.

(** The room is closed for good. *)
Definition isEnded (room : Room.t) : Prop :=
  Room.status room = ended ∧ Room.isLive room = false.

(** The ways a handler rewrites a room document it found. *)
Inductive roomStep : Room.t → Room.t → Prop :=
| step_add now p r :
    Room.findParticipant (Participant.uid p) r = None →
    roomStep r (Room.addParticipant now p r)
| step_socket uid sid r :
    roomStep r (Room.updateParticipantSocket uid sid r)
| step_remove now uid r :
    roomStep r (Room.removeParticipant now uid r)
| step_touch now r :
    roomStep r (Room.with_lastActivity now r)
| step_end now r :
    roomStep r (Room.with_endedAt (Some now)
                  (Room.with_status ended (Room.with_isLive false r))).

(** The documents [createRoom] inserts. *)
Definition created (r : Room.t) : Prop :=
  ∃ env s roomId roomData, r = newRoomData env s roomId roomData.

(** How the room documents of a later store come from those of an earlier
    one: a document that was there is still there, rewritten by room steps;
    a document that was not is absent or was created and then rewritten. *)
Definition evolves (db db' : Store) : Prop :=
  ∀ id,
    match roomDocs db !! id with
    | Some r => ∃ r', roomDocs db' !! id = Some r' ∧ rtc roomStep r r'
    | None =>
        roomDocs db' !! id = None ∨
        ∃ r0 r', roomDocs db' !! id = Some r' ∧ created r0 ∧ rtc roomStep r0 r'
    end.

(** No emitted event is an error report. *)
Definition noError (o : Outcome) : Prop :=
  existsb isError (emitsOf o) = false.

(** The handler did nothing but report one error to the caller. *)
Definition rejected (code : string) (db : Store) (s : Session) (o : Outcome) : Prop :=
  storeOf o = db ∧ sessionOf o = s ∧
  ∃ message, emitsOf o = [emitError message code].

(** A "newMessage" broadcast is among the emitted events. *)
Definition broadcastsMessage (o : Outcome) : bool :=
  existsb (fun e => String.eqb (event e) "newMessage") (emitsOf o).

(** *** Search, in the words of the interface

    The text contains the query as a substring, letters compared without
    regard to case. *)
Definition containsCI (query text : string) : Prop :=
  ∃ before after : list ascii,
    Text.lower <$> Text.chars text
    = before ++ (Text.lower <$> Text.chars query) ++ after.

(** The query has no character that a pattern reads specially. *)
Definition plainQuery (query : string) : Prop :=
  Forall (fun c => Regex.isMeta c = false) (Text.chars query).

(** ** A session of the engine, event by event

    Room R1 is created by Alice with room for two; Bob joins, Carol is
    turned away, Bob writes, Alice ends the stream. *)
Module Scenario.
Definition alice : User.t := User.mk "A" "Alice" "alice" "".
Definition bob : User.t := User.mk "B" "Bob" "bob" "".
Definition carol : User.t := User.mk "C" "Carol" "carol" "".

Definition roomR1 : RoomData.t :=
  RoomData.mk "R1" "Release party" "" alice "" [] None (Some 2%Q).

Definition aliceAuthenticated : Outcome :=
  authenticate (connect "sock-A") emptyStore alice.

Definition r1Created : Outcome :=
  createRoom (mkEnv 1000 "room_1000_k3j9x0q2a")
    (sessionOf aliceAuthenticated) (storeOf aliceAuthenticated) roomR1.

Definition bobJoined : Outcome :=
  joinRoom (mkEnv 2000 "") (connect "sock-B") (storeOf r1Created) "R1" bob.

Definition carolTurnedAway : Outcome :=
  joinRoom (mkEnv 2500 "") (connect "sock-C") (storeOf bobJoined) "R1" carol.

Definition bobSaidHi : Outcome :=
  sendMessage (mkEnv 3000 "msg_3000_p0o9i8u7y")
    (sessionOf bobJoined) (storeOf carolTurnedAway) "R1" "hi" bob.

Definition streamEnded : Outcome :=
  endStream (mkEnv 4000 "") (sessionOf r1Created) (storeOf bobSaidHi) "R1".

Definition bobWritesAfterEnd : Outcome :=
  sendMessage (mkEnv 5000 "msg_5000_m1n2b3v4c")
    (sessionOf bobJoined) (storeOf streamEnded) "R1" "anyone here?" bob.

Definition bobLeavesAfterEnd : Outcome :=
  leaveRoom (mkEnv 6000 "") (sessionOf bobJoined) (storeOf streamEnded) "R1" bob.

(** Bob's browser reconnects on a new socket while the room is full. *)
Definition bobRejoinsFull : Outcome :=
  joinRoom (mkEnv 2600 "") (connect "sock-B2") (storeOf bobJoined) "R1" bob.

(** A room for three, so that Bob can rejoin it. *)
Definition roomR2 : RoomData.t :=
  RoomData.mk "R2" "Office hours" "" alice "" [] None (Some 3%Q).

Definition r2Created : Outcome :=
  createRoom (mkEnv 1000 "room_1000_z9y8x7w6v")
    (sessionOf aliceAuthenticated) (storeOf aliceAuthenticated) roomR2.

Definition bobJoinedR2 : Outcome :=
  joinRoom (mkEnv 2000 "") (connect "sock-B") (storeOf r2Created) "R2" bob.

Definition bobRejoinedR2 : Outcome :=
  joinRoom (mkEnv 9000 "") (connect "sock-B2") (storeOf bobJoinedR2) "R2" bob.

(** The same session as a trace of handler runs. *)
Definition trace : list Run :=
  [ (mkEnv 1000 "room_1000_k3j9x0q2a", sessionOf aliceAuthenticated,
     CreateRoom roomR1);
    (mkEnv 2000 "", connect "sock-B", JoinRoom "R1" bob);
    (mkEnv 2500 "", connect "sock-C", JoinRoom "R1" carol);
    (mkEnv 3000 "msg_3000_p0o9i8u7y", sessionOf bobJoined,
     SendMessage "R1" "hi" bob);
    (mkEnv 4000 "", sessionOf r1Created, EndStream "R1") ].
End Scenario.

(** ** The rest of the Message model *)

(** An element of [MessageSchema.reactions]. *)
Module Reaction.
Record t := mk {
  uid : string;
  displayName : string;
  emoji : string;
  createdAt : Date
}.
End Reaction.

(** [MessageSchema.statics.findByRoom]: the store skips before it limits,
    in whatever order the two are chained. *)
Definition findByRoom (all : list Message.t) (rid : string) (lim skip : nat)
  : list Message.t :=
  Message.limit lim
    (drop skip (Message.sortByCreatedDesc (List.filter (Message.inRoom rid) all))).

(** [Message.countDocuments({ roomId, isDeleted: false })] *)
Definition countDocuments (all : list Message.t) (rid : string) : nat :=
  length (List.filter (Message.inRoom rid) all).

(** A whole message document: the record above with the fields the
    instance methods write ([metadata] left aside). *)
Module MessageDoc.
Record t := mk {
  message : Message.t;
  editedAt : option Date;
  deletedAt : option Date;
  reactions : list Reaction.t;
  replyTo : option string;
  pinnedAt : option Date;
  pinnedBy : option (string * string)
}.

(** The document [Message.create] stores for a new message. *)
Definition fresh (m : Message.t) : t := mk m None None [] None None None.

(** The virtual [reactionCount]. *)
Definition reactionCount (d : t) : nat := length (reactions d).

(** [this.reactions.filter(r => r.user.uid !== uid)] *)
Definition reactionsOfOthers (uid : string) (d : t) : list Reaction.t :=
  List.filter (fun r => negb (String.eqb (Reaction.uid r) uid)) (reactions d).

(** [MessageSchema.methods.addReaction] *)
Definition addReaction (now : Date) (user : User.t) (emoji : string) (d : t) : t :=
  mk (message d) (editedAt d) (deletedAt d)
     (reactionsOfOthers (User.uid user) d
      ++ [Reaction.mk (User.uid user) (User.displayName user) emoji now])
     (replyTo d) (pinnedAt d) (pinnedBy d).

(** [MessageSchema.methods.removeReaction] *)
Definition removeReaction (userUid : string) (d : t) : t :=
  mk (message d) (editedAt d) (deletedAt d) (reactionsOfOthers userUid d)
     (replyTo d) (pinnedAt d) (pinnedBy d).

(** [MessageSchema.methods.editMessage]; the [trim] setter of the schema
    applies to the assigned text. *)
Definition editMessage (now : Date) (newText : string) (d : t) : t :=
  let m := message d in
  mk (Message.mk (Message.id m) (Message.roomId m) (Text.trim newText)
        (Message.user m) (Message.socketId m) (Message.messageType m)
        true (Message.isDeleted m) (Message.isPinned m) (Message.createdAt m))
     (Some now) (deletedAt d) (reactions d) (replyTo d) (pinnedAt d)
     (pinnedBy d).

(** [MessageSchema.methods.deleteMessage] *)
Definition deleteMessage (now : Date) (d : t) : t :=
  let m := message d in
  mk (Message.mk (Message.id m) (Message.roomId m) (Message.text m)
        (Message.user m) (Message.socketId m) (Message.messageType m)
        (Message.isEdited m) true (Message.isPinned m) (Message.createdAt m))
     (editedAt d) (Some now) (reactions d) (replyTo d) (pinnedAt d)
     (pinnedBy d).

(** [MessageSchema.methods.pinMessage] *)
Definition pinMessage (now : Date) (user : User.t) (d : t) : t :=
  let m := message d in
  mk (Message.mk (Message.id m) (Message.roomId m) (Message.text m)
        (Message.user m) (Message.socketId m) (Message.messageType m)
        (Message.isEdited m) (Message.isDeleted m) true (Message.createdAt m))
     (editedAt d) (deletedAt d) (reactions d) (replyTo d) (Some now)
     (Some (User.uid user, User.displayName user)).

(** [MessageSchema.methods.unpinMessage] *)
Definition unpinMessage (d : t) : t :=
  let m := message d in
  mk (Message.mk (Message.id m) (Message.roomId m) (Message.text m)
        (Message.user m) (Message.socketId m) (Message.messageType m)
        (Message.isEdited m) (Message.isDeleted m) false (Message.createdAt m))
     (editedAt d) (deletedAt d) (reactions d) (replyTo d) None None.

(** A call of one of the instance methods. *)
Inductive Call :=
| AddReaction (user : User.t) (emoji : string)
| RemoveReaction (userUid : string)
| EditMessage (newText : string)
| DeleteMessage
| PinMessage (user : User.t)
| UnpinMessage.

Definition call (now : Date) (c : Call) (d : t) : t :=
  match c with
  | AddReaction user emoji => addReaction now user emoji d
  | RemoveReaction userUid => removeReaction userUid d
  | EditMessage newText => editMessage now newText d
  | DeleteMessage => deleteMessage now d
  | PinMessage user => pinMessage now user d
  | UnpinMessage => unpinMessage d
  end.

(** Method calls one after the other, each at its own time. *)
Definition callAll (calls : list (Date * Call)) (d : t) : t :=
  fold_left (fun d '(now, c) => call now c d) calls d.

(** How many reactions of a message come from a given uid. *)
Definition reactionsBy (uid : string) (d : t) : nat :=
  length (List.filter (fun r => String.eqb (Reaction.uid r) uid) (reactions d)).
End MessageDoc.

(** ** The HTTP query surface of [roomController.js]

    The numeric query parameters are taken as parsed natural numbers,
    [None] when the request leaves them out. *)
Module RoomController.
Inductive Response (A : Type) :=
| Json (body : A)
| Failure (status : nat) (message : string).
Arguments Json {A} body.
Arguments Failure {A} status message.

(** The paginated bodies. *)
Record Page (A : Type) := mkPage {
  count : nat;
  total : nat;
  currentPage : nat;
  totalPages : option nat;
  data : list A
}.
Arguments mkPage {A} count total currentPage totalPages data.
Arguments count {A} p.
Arguments total {A} p.
Arguments currentPage {A} p.
Arguments totalPages {A} p.
Arguments data {A} p.

(** [Math.ceil(total / limit)]; the quotient by 0 is not a number of
    pages. *)
Definition pagesOf (total limit : nat) : option nat :=
  match limit with
  | O => None
  | _ => Some ((total + limit - 1) / limit)%nat
  end.

(** [.limit(n)] on any query: 0 is no limit. *)
Definition limitTo {A} (n : nat) (l : list A) : list A :=
  match n with
  | O => l
  | _ => take n l
  end.

(** [.select('-participants.socketId')] and the map of [getRoom]: the
    socket ids are left out of what is sent. *)
Definition withoutSocketIds (r : Room.t) : Room.t :=
  Room.with_participants (Participant.with_socketId "" <$> Room.participants r) r.

(** The filter [{ isLive: true, status: 'live' }] with the optional
    [category] and [$or] of two [$regex] conditions; [None] when the search
    term is outside the modelled patterns. *)
Definition roomFilter (category search : string) : option (Room.t → bool) :=
  if Text.falsy search then
    Some (fun r =>
      isOpen r
      && (Text.falsy category || String.eqb (Room.category r) category))
  else
    re ← Regex.compile (Text.chars search);
    Some (fun r =>
      isOpen r
      && (Text.falsy category || String.eqb (Room.category r) category)
      && (Regex.matchAnywhere re (Text.chars (Room.title r))
          || Regex.matchAnywhere re (Text.chars (Room.description r)))).

(** [getRooms]; a page before the first asks the store for a negative
    skip, which it refuses. *)
Definition getRooms (db : Store) (page limit : option nat)
    (category search : string) : option (Response (Page Room.t)) :=
  let page := default 1%nat page in
  let limit := default 20%nat limit in
  keep ← roomFilter category search;
  let found := List.filter keep (snd <$> map_to_list (roomDocs db)) in
  if (page =? 0)%nat && negb (limit =? 0)%nat
  then Some (Failure 500 "Server error")
  else
    let rooms :=
      withoutSocketIds
        <$> limitTo limit
              (drop ((page - 1) * limit) (merge_sort moreRecentActivity found)) in
    Some (Json (mkPage (length rooms) (length found) page
                       (pagesOf (length found) limit) rooms)).

(** [getRoom] *)
Definition getRoom (db : Store) (id : string) : Response Room.t :=
  match findByRoomId db id with
  | None => Failure 404 "Room not found"
  | Some room => Json (withoutSocketIds room)
  end.

(** [getRoomMessages] *)
Definition getRoomMessages (db : Store) (roomId : string)
    (page limit : option nat) : Response (Page Message.t) :=
  let page := default 1%nat page in
  let limit := default 50%nat limit in
  match findByRoomId db roomId with
  | None => Failure 404 "Room not found"
  | Some _ =>
      if (page =? 0)%nat && negb (limit =? 0)%nat
      then Failure 500 "Server error"
      else
        let messages :=
          findByRoom (messageDocs db) roomId limit ((page - 1) * limit) in
        let total := countDocuments (messageDocs db) roomId in
        Json (mkPage (length messages) total page (pagesOf total limit) messages)
  end.

(** The body of [searchRoomMessages]. *)
Record SearchResult := mkSearchResult {
  hitCount : nat;
  query : string;
  hits : list Message.t
}.

(** [searchRoomMessages]; [None] when the search term is outside the
    modelled patterns. *)
Definition searchRoomMessages (db : Store) (roomId q : string)
    (limit : option nat) : option (Response SearchResult) :=
  if Text.falsy q then Some (Failure 400 "Search query is required")
  else
    match findByRoomId db roomId with
    | None => Some (Failure 404 "Room not found")
    | Some _ =>
        messages ← Message.searchMessages (messageDocs db) roomId q
                     (default 20%nat limit);
        Some (Json (mkSearchResult (length messages) q messages))
    end.

(** The body of [getRoomStats]. *)
Record Stats := mkStats {
  statsRoomId : string;
  statsTitle : string;
  statsCurrentParticipants : Z;
  statsMaxParticipants : Q;
  totalMessages : nat;
  statsIsLive : bool;
  statsStatus : Status;
  statsStartedAt : Date;
  statsLastActivity : Date;
  recentMessages : nat
}.

(** [getRoomStats] *)
Definition getRoomStats (db : Store) (roomId : string) : Response Stats :=
  match findByRoomId db roomId with
  | None => Failure 404 "Room not found"
  | Some room =>
      Json (mkStats (Room.id room) (Room.title room)
              (Room.currentParticipants room) (Room.maxParticipants room)
              (countDocuments (messageDocs db) roomId)
              (Room.isLive room) (Room.status room) (Room.startedAt room)
              (Room.lastActivity room)
              (length (Message.findRecentMessages (messageDocs db) roomId 10)))
  end.

(** [getRoomCategories]: [Room.distinct('category', ...)]. *)
Definition getRoomCategories (db : Store) : Response (list string) :=
  Json (remove_dups
          (Room.category
             <$> List.filter isOpen (snd <$> map_to_list (roomDocs db)))).
End RoomController.

(** ** Notions for the properties of the whole engine *)

(** The room steps, each with the conditions under which a handler takes
    it. *)
Inductive guardedStep : Room.t → Room.t → Prop :=
| guarded_add now p r :
    Room.findParticipant (Participant.uid p) r = None →
    isOpen r = true →
    (inject_Z (Room.currentParticipants r) < Room.maxParticipants r)%Q →
    validParticipant p = true →
    guardedStep r (Room.addParticipant now p r)
| guarded_socket uid sid r :
    isOpen r = true →
    guardedStep r (Room.updateParticipantSocket uid sid r)
| guarded_remove now uid r :
    guardedStep r (Room.removeParticipant now uid r)
| guarded_touch now r :
    guardedStep r (Room.with_lastActivity now r)
| guarded_end now r :
    guardedStep r (Room.with_endedAt (Some now)
                     (Room.with_status ended (Room.with_isLive false r))).

(** The documents [createRoom] inserts under a given id: they passed the
    validation of the schema. *)
Definition bornAt (id : string) (r : Room.t) : Prop :=
  (∃ env s roomData, r = newRoomData env s id roomData) ∧ validRoom r = true.

(** The room documents of the later store come from those of the earlier
    one by guarded steps, new ones from [createRoom]. *)
Definition history (db db' : Store) : Prop :=
  ∀ id,
    match roomDocs db !! id with
    | Some r => ∃ r', roomDocs db' !! id = Some r' ∧ rtc guardedStep r r'
    | None =>
        roomDocs db' !! id = None ∨
        ∃ r0 r', roomDocs db' !! id = Some r' ∧ bornAt id r0
                 ∧ rtc guardedStep r0 r'
    end.

(** Status, [isLive] and [endedAt] tell the same story. *)
Definition statusCoherent (r : Room.t) : Prop :=
  (Room.status r = live ∧ Room.isLive r = true ∧ Room.endedAt r = None) ∨
  (Room.status r = ended ∧ Room.isLive r = false ∧ is_Some (Room.endedAt r)).

(** The stored count is the length of the list, and the last participant
    was let in below the capacity: the room holds one participant at most,
    the one it was created with, or one less than its count is below the
    capacity. *)
Definition withinCapacity (r : Room.t) : Prop :=
  countInSync r ∧
  (Room.participantCount r ≤ 1 ∨
   (inject_Z (Room.participantCount r - 1) < Room.maxParticipants r)%Q).

(** The fields no handler writes after the creation. *)
Definition sameIdentity (r r' : Room.t) : Prop :=
  Room.id r' = Room.id r ∧ Room.title r' = Room.title r ∧
  Room.description r' = Room.description r ∧ Room.admin r' = Room.admin r ∧
  Room.streamKey r' = Room.streamKey r ∧ Room.thumbnail r' = Room.thumbnail r ∧
  Room.category r' = Room.category r ∧ Room.tags r' = Room.tags r ∧
  Room.isPublic r' = Room.isPublic r ∧
  Room.maxParticipants r' = Room.maxParticipants r ∧
  Room.startedAt r' = Room.startedAt r ∧ Room.createdBy r' = Room.createdBy r.

(** Every participant record passes the schema. *)
Definition participantsValid (r : Room.t) : Prop :=
  forallb validParticipant (Room.participants r) = true.

(** What holds of the message documents the engine has stored. *)
Definition messagesSound (db : Store) : Prop :=
  NoDup (Message.id <$> messageDocs db) ∧
  ∀ m, m ∈ messageDocs db →
    validMessage m = true ∧
    Text.trim (Message.text m) = Message.text m ∧
    Message.isDeleted m = false ∧
    Message.isEdited m = false ∧
    Message.messageType m = text_msg ∧
    is_Some (findByRoomId db (Message.roomId m)).

(** A list of characters neither starts nor ends with white space. *)
Definition trimmed (l : list ascii) : Prop :=
  (∀ c, head l = Some c → Text.isSpace c = false) ∧
  (∀ c, last l = Some c → Text.isSpace c = false).

(** ** Handler runs that overlap

    A handler reads the room document at its first [await]
    ([Room.findByRoomId]) and writes it back at its [await room.save()];
    the code takes no lock, so other handlers can run in between.  The two
    definitions below are [joinRoom] and [endStream] with the store of the
    read ([seen]) told apart from the store the save goes to ([db]). *)

(** [joinRoom], its read at line 196 and its save at line 228 or 239. *)
Definition joinRoomAcross (env : Env) (s : Session) (seen db : Store)
    (roomId : string) (user : User.t) : Outcome :=
  match findByRoomId seen roomId with
  | None => (db, s, [emitError "Room not found" "ROOM_NOT_FOUND"])
  | Some room =>
      if negb (Room.isLive room) || negb (Status_eqb (Room.status room) live)
      then (db, s, [emitError "Room is not live" "ROOM_NOT_LIVE"])
      else if atLeast (Room.currentParticipants room) (Room.maxParticipants room)
      then (db, s, [emitError "Room is full" "ROOM_FULL"])
      else
        match enrol env s user room with
        | None => (db, s, [emitError "Failed to join room" "ROOM_JOIN_ERROR"])
        | Some room' =>
            let db' := saveRoom roomId room' db in
            let recentMessages :=
              Message.findRecentMessages (messageDocs db') roomId 50 in
            (db',
             setCurrentUser (Some user)
               (setCurrentRoom (Some roomId) (socketJoin roomId s)),
             [mkEmit ToSocket "roomUpdated" (PRoom room');
              mkEmit ToSocket "existingMessages" (PMessages (rev recentMessages));
              mkEmit (ToOthersIn roomId) "userJoined" (PUser user);
              mkEmit (ToOthersIn roomId) "roomUpdated"
                (PMembers roomId (Room.participants room')
                          (Room.currentParticipants room'))])
        end
  end.

(** [endStream], its read at line 394 and its save at line 409. *)
Definition endStreamAcross (env : Env) (s : Session) (seen db : Store)
    (roomId : string) : Outcome :=
  match findByRoomId seen roomId with
  | None => (db, s, [emitError "Room not found" "ROOM_NOT_FOUND"])
  | Some room =>
      if notAdmin room (currentUser s)
      then (db, s, [emitError "Unauthorized" "UNAUTHORIZED"])
      else
        let room' :=
          Room.with_endedAt (Some (now env))
            (Room.with_status ended (Room.with_isLive false room)) in
        (saveRoom roomId room' db, s,
         [mkEmit (ToRoom roomId) "roomDeleted"
                 (PRoomDeleted roomId "ended_by_admin");
          mkEmit ToEveryone "roomsUpdated"
                 (PRoomsUpdated "roomDeleted" None roomId)])
  end.

(** * Properties *)

(** ** The capacity test *)

Lemma atLeast_true count capacity :
  atLeast count capacity = true ↔ (capacity <= inject_Z count)%Q.
Proof. unfold atLeast. apply Qle_bool_iff. Qed.

Lemma atLeast_false count capacity :
  atLeast count capacity = false ↔ (inject_Z count < capacity)%Q.
Proof.
  rewrite <- not_true_iff_false, atLeast_true. split.
  - apply Qnot_le_lt.
  - apply Qlt_not_le.
Qed.

(** ** The Room methods *)

Section RoomMethods.
Implicit Types (r : Room.t) (p : Participant.t) (uid sid : string).

Lemma findParticipant_None_times uid r :
  Room.findParticipant uid r = None ↔ timesMember uid r = 0%nat.
Proof.
  unfold Room.findParticipant, timesMember.
  induction (Room.participants r) as [|q ps IH]; simpl; [done|].
  destruct (String.eqb (Participant.uid q) uid); simpl; [split; done|exact IH].
Qed.

Lemma isParticipant_times uid r :
  isParticipant uid r = true ↔ (0 < timesMember uid r)%nat.
Proof.
  unfold isParticipant, timesMember.
  induction (Room.participants r) as [|q ps IH]; simpl; [split; [done|lia]|].
  destruct (String.eqb (Participant.uid q) uid); simpl; [split; [lia|done]|exact IH].
Qed.

Lemma isParticipant_find uid r :
  isParticipant uid r = true ↔ is_Some (Room.findParticipant uid r).
Proof.
  rewrite isParticipant_times, <- not_eq_None_Some, findParticipant_None_times.
  lia.
Qed.

Lemma length_setSocketOfFirst uid sid ps :
  length (Room.setSocketOfFirst uid sid ps) = length ps.
Proof.
  induction ps as [|q ps IH]; simpl; [done|].
  destruct (String.eqb (Participant.uid q) uid); simpl; [done|by rewrite IH].
Qed.

Lemma times_setSocketOfFirst u uid sid ps :
  length (List.filter (fun p => String.eqb (Participant.uid p) u)
                      (Room.setSocketOfFirst uid sid ps))
  = length (List.filter (fun p => String.eqb (Participant.uid p) u) ps).
Proof.
  induction ps as [|q ps IH]; simpl; [done|].
  destruct (String.eqb (Participant.uid q) uid); simpl.
  - by destruct (String.eqb (Participant.uid q) u).
  - destruct (String.eqb (Participant.uid q) u); simpl; by rewrite IH.
Qed.

Lemma find_setSocketOfFirst uid sid ps q :
  find (fun p => String.eqb (Participant.uid p) uid) ps = Some q →
  find (fun p => String.eqb (Participant.uid p) uid)
       (Room.setSocketOfFirst uid sid ps)
  = Some (Participant.with_socketId sid q).
Proof.
  induction ps as [|q' ps IH]; simpl; [done|].
  destruct (String.eqb (Participant.uid q') uid) eqn:E; simpl.
  - rewrite E. by intros [= ->].
  - rewrite E. exact IH.
Qed.

Lemma times_updateParticipantSocket u uid sid r :
  timesMember u (Room.updateParticipantSocket uid sid r) = timesMember u r.
Proof.
  unfold Room.updateParticipantSocket.
  destruct (Room.findParticipant uid r); [|done].
  unfold timesMember; simpl. apply times_setSocketOfFirst.
Qed.

Lemma length_updateParticipantSocket uid sid r :
  length (Room.participants (Room.updateParticipantSocket uid sid r))
  = length (Room.participants r).
Proof.
  unfold Room.updateParticipantSocket.
  destruct (Room.findParticipant uid r); [|done].
  simpl. apply length_setSocketOfFirst.
Qed.

Lemma socketOf_updateParticipantSocket uid sid r :
  isParticipant uid r = true →
  socketOf uid (Room.updateParticipantSocket uid sid r) = Some sid.
Proof.
  intros [q Hq]%isParticipant_find.
  unfold socketOf, Room.updateParticipantSocket. rewrite Hq.
  unfold Room.findParticipant in *; simpl.
  by rewrite (find_setSocketOfFirst _ _ _ _ Hq).
Qed.

Lemma times_addParticipant u now p r :
  Room.findParticipant (Participant.uid p) r = None →
  timesMember u (Room.addParticipant now p r)
  = if String.eqb (Participant.uid p) u then 1%nat else timesMember u r.
Proof.
  intros Hnone. unfold Room.addParticipant. rewrite Hnone.
  unfold timesMember; simpl. rewrite List.filter_app, length_app; simpl.
  destruct (String.eqb (Participant.uid p) u) eqn:E; simpl; [|lia].
  apply String.eqb_eq in E as <-.
  apply findParticipant_None_times in Hnone. unfold timesMember in Hnone.
  rewrite Hnone. done.
Qed.

Lemma times_removeParticipant u now uid r :
  timesMember u (Room.removeParticipant now uid r)
  = if String.eqb u uid then 0%nat else timesMember u r.
Proof.
  unfold timesMember, Room.removeParticipant; simpl.
  induction (Room.participants r) as [|q ps IH]; simpl.
  - by destruct (String.eqb u uid).
  - destruct (String.eqb (Participant.uid q) uid) eqn:E1; simpl.
    + rewrite IH. destruct (String.eqb u uid) eqn:E2; [done|].
      destruct (String.eqb (Participant.uid q) u) eqn:E3; [|done].
      apply String.eqb_eq in E1, E3. apply String.eqb_neq in E2. congruence.
    + destruct (String.eqb (Participant.uid q) u) eqn:E3; simpl; rewrite IH.
      * apply String.eqb_eq in E3 as <-.
        rewrite E1. done.
      * done.
Qed.

(** Removing somebody who is not there leaves the list as it is. *)
Lemma filter_absent uid ps :
  existsb (fun p => String.eqb (Participant.uid p) uid) ps = false →
  List.filter (fun p => negb (String.eqb (Participant.uid p) uid)) ps = ps.
Proof.
  induction ps as [|q ps IH]; simpl; [done|].
  destruct (String.eqb (Participant.uid q) uid); simpl; [done|].
  intros H. by rewrite IH.
Qed.

(** After a removal the uid is not there. *)
Lemma removed_absent uid ps :
  existsb (fun p => String.eqb (Participant.uid p) uid)
          (List.filter (fun p => negb (String.eqb (Participant.uid p) uid)) ps)
  = false.
Proof.
  induction ps as [|q ps IH]; simpl; [done|].
  destruct (String.eqb (Participant.uid q) uid) eqn:E; simpl; [done|].
  by rewrite E.
Qed.
End RoomMethods.

(** ** What a room step preserves *)

Lemma roomStep_atMostOnce r r' :
  roomStep r r' → atMostOnce r → atMostOnce r'.
Proof.
  intros Hstep Hr u. specialize (Hr u).
  destruct Hstep as [now p r Hnone|uid sid r|now uid r|now r|now r].
  - rewrite times_addParticipant by done.
    by destruct (String.eqb (Participant.uid p) u).
  - by rewrite times_updateParticipantSocket.
  - rewrite times_removeParticipant. destruct (String.eqb u uid); lia.
  - done.
  - done.
Qed.

Lemma roomStep_countInSync r r' :
  roomStep r r' → countInSync r → countInSync r'.
Proof.
  unfold countInSync, Room.participantCount.
  intros Hstep Hr.
  destruct Hstep as [now p r Hnone|uid sid r|now uid r|now r|now r]; simpl; try done.
  - unfold Room.addParticipant. by rewrite Hnone.
  - rewrite length_updateParticipantSocket.
    unfold Room.updateParticipantSocket.
    by destruct (Room.findParticipant uid r).
Qed.

Lemma roomStep_isEnded r r' :
  roomStep r r' → isEnded r → isEnded r'.
Proof.
  unfold isEnded.
  intros Hstep Hr.
  destruct Hstep as [now p r Hnone|uid sid r|now uid r|now r|now r]; simpl; try done.
  - unfold Room.addParticipant. by rewrite Hnone.
  - unfold Room.updateParticipantSocket.
    by destruct (Room.findParticipant uid r).
Qed.

Lemma rtc_roomStep_preserves (P : Room.t → Prop) :
  (∀ r r', roomStep r r' → P r → P r') →
  ∀ r r', rtc roomStep r r' → P r → P r'.
Proof. intros Hone r r' Hrtc. induction Hrtc; eauto. Qed.

Lemma created_atMostOnce r : created r → atMostOnce r.
Proof.
  intros (env & s & roomId & roomData & ->) u.
  unfold timesMember; simpl. destruct (String.eqb _ u); simpl; lia.
Qed.

Lemma created_countInSync r : created r → countInSync r.
Proof. by intros (env & s & roomId & roomData & ->). Qed.

(** ** Every handler rewrites room documents by room steps only *)

Lemma evolves_refl db : evolves db db.
Proof. intros id. destruct (roomDocs db !! id) eqn:E; eauto using rtc_refl. Qed.

Lemma evolves_trans db1 db2 db3 :
  evolves db1 db2 → evolves db2 db3 → evolves db1 db3.
Proof.
  intros H12 H23 id. specialize (H12 id). specialize (H23 id).
  destruct (roomDocs db1 !! id) as [r|].
  - destruct H12 as (r2 & E2 & S12). rewrite E2 in H23.
    destruct H23 as (r3 & E3 & S23). eauto using rtc_trans.
  - destruct H12 as [E2|(r0 & r2 & E2 & C & S02)]; rewrite E2 in H23.
    + done.
    + destruct H23 as (r3 & E3 & S23). right.
      exists r0, r3. eauto using rtc_trans.
Qed.

Lemma evolves_save db roomId r r' :
  findByRoomId db roomId = Some r → rtc roomStep r r' →
  evolves db (saveRoom roomId r' db).
Proof.
  unfold findByRoomId. intros Hfind Hsteps id. simpl.
  destruct (decide (id = roomId)) as [->|Hne].
  - rewrite Hfind, lookup_insert_eq. eauto.
  - rewrite lookup_insert_ne by done.
    destruct (roomDocs db !! id); eauto using rtc_refl.
Qed.

Lemma evolves_create db roomId r' :
  findByRoomId db roomId = None → created r' →
  evolves db (saveRoom roomId r' db).
Proof.
  unfold findByRoomId. intros Hfind Hc id. simpl.
  destruct (decide (id = roomId)) as [->|Hne].
  - rewrite Hfind, lookup_insert_eq. right. eauto using rtc_refl.
  - rewrite lookup_insert_ne by done.
    destruct (roomDocs db !! id); eauto using rtc_refl.
Qed.

Lemma createMessage_rooms m db db1 :
  createMessage m db = Some db1 → roomDocs db1 = roomDocs db.
Proof. unfold createMessage. case_match; [|done]. by intros [= <-]. Qed.

Lemma evolves_same_rooms db db1 db2 :
  roomDocs db1 = roomDocs db → evolves db1 db2 → evolves db db2.
Proof. intros E H id. specialize (H id). by rewrite E in H. Qed.

Lemma enrol_step env s user room room' :
  enrol env s user room = Some room' → roomStep room room'.
Proof.
  unfold enrol. destruct (Room.findParticipant (User.uid user) room) eqn:E.
  - intros [= <-]. constructor.
  - case_match; [|done]. intros [= <-]. by constructor.
Qed.

Lemma createRoom_evolves env s db d : evolves db (storeOf (createRoom env s db d)).
Proof.
  unfold createRoom.
  destruct (findByRoomId db _) eqn:E; [apply evolves_refl|].
  case_match; [|apply evolves_refl].
  apply evolves_create; [done|]. unfold created. eauto.
Qed.

Lemma joinRoom_evolves env s db roomId u :
  evolves db (storeOf (joinRoom env s db roomId u)).
Proof.
  unfold joinRoom.
  destruct (findByRoomId db roomId) eqn:E; [|apply evolves_refl].
  repeat (case_match; [apply evolves_refl|]).
  destruct (enrol env s u t) eqn:A; [|apply evolves_refl].
  eapply evolves_save; eauto using rtc_once, enrol_step.
Qed.

Lemma sendMessage_evolves env s db roomId txt u :
  evolves db (storeOf (sendMessage env s db roomId txt u)).
Proof.
  unfold sendMessage.
  case_match; [apply evolves_refl|].
  destruct (findByRoomId db roomId) eqn:E; [|apply evolves_refl].
  case_match; [apply evolves_refl|].
  destruct (createMessage _ db) as [db1|] eqn:C; [|apply evolves_refl].
  apply createMessage_rooms in C.
  eapply evolves_same_rooms; [exact C|].
  eapply evolves_save.
  - unfold findByRoomId in *. by rewrite C.
  - apply rtc_once. constructor.
Qed.

Lemma leaveRoom_evolves env s db roomId u :
  evolves db (storeOf (leaveRoom env s db roomId u)).
Proof.
  unfold leaveRoom.
  destruct (findByRoomId db roomId) eqn:E; [|apply evolves_refl].
  eapply evolves_save; [done|]. apply rtc_once. constructor.
Qed.

Lemma endStream_evolves env s db roomId :
  evolves db (storeOf (endStream env s db roomId)).
Proof.
  unfold endStream.
  destruct (findByRoomId db roomId) eqn:E; [|apply evolves_refl].
  case_match; [apply evolves_refl|].
  eapply evolves_save; [done|]. apply rtc_once. constructor.
Qed.

Lemma leaveOne_evolves env acc roomId :
  evolves (storeOf acc) (storeOf (leaveOne env acc roomId)).
Proof.
  destruct acc as [[db s] out]. unfold leaveOne.
  case_match; [apply evolves_refl|].
  destruct (findByRoomId db roomId) eqn:E; [|apply evolves_refl].
  destruct (currentUser s); [|apply evolves_refl].
  eapply evolves_save; [done|]. apply rtc_once. constructor.
Qed.

Lemma leaveAllRooms_evolves env s db :
  evolves db (storeOf (leaveAllRooms env s db)).
Proof.
  unfold leaveAllRooms.
  assert (∀ l acc, evolves (storeOf acc) (storeOf (fold_left (leaveOne env) l acc)))
    as Hfold.
  { induction l as [|x l IH]; intros acc; simpl; [apply evolves_refl|].
    eapply evolves_trans; [apply leaveOne_evolves|apply IH]. }
  specialize (Hfold (rooms s) (db, s, [])).
  by destruct (fold_left _ _ _) as [[db' s'] out].
Qed.

Lemma disconnect_evolves env s db :
  evolves db (storeOf (disconnect env s db)).
Proof.
  unfold disconnect.
  destruct (currentRoom s) as [roomId|]; [|apply evolves_refl].
  destruct (currentUser s); [|apply evolves_refl].
  case_match; [apply evolves_refl|].
  destruct (findByRoomId db roomId) eqn:E; [|apply evolves_refl].
  eapply evolves_save; [done|]. apply rtc_once. constructor.
Qed.

Lemma handle_evolves env s db ev : evolves db (storeOf (handle env s db ev)).
Proof.
  destruct ev; simpl;
    auto using createRoom_evolves, joinRoom_evolves, sendMessage_evolves,
      leaveRoom_evolves, endStream_evolves, leaveAllRooms_evolves,
      disconnect_evolves, evolves_refl.
Qed.

Lemma runAll_evolves trace db : evolves db (runAll trace db).
Proof.
  unfold runAll. revert db.
  induction trace as [|[[env s] ev] trace IH]; intros db; simpl.
  - apply evolves_refl.
  - eapply evolves_trans; [apply handle_evolves|apply IH].
Qed.

(** A document of a store reached from the empty one was created by
    [createRoom] and rewritten by room steps since. *)
Lemma runAll_origin trace id room :
  roomDocs (runAll trace emptyStore) !! id = Some room →
  ∃ r0, created r0 ∧ rtc roomStep r0 room.
Proof.
  intros Hroom. pose proof (runAll_evolves trace emptyStore id) as H.
  simpl in H. rewrite lookup_empty in H.
  destruct H as [H|(r0 & r' & E & C & S)]; [congruence|].
  rewrite Hroom in E. injection E as <-. eauto.
Qed.

(** ** The stored count and the membership list *)

(** C5. In every store that a sequence of handler runs (room creation,
    join, rejoin, leave, end of stream, message send, disconnect, and the
    rest) reaches from the empty store, the [currentParticipants] field of
    every room equals the length of its [participants] list. *)
Theorem currentParticipants_is_length trace id room :
  roomDocs (runAll trace emptyStore) !! id = Some room →
  Room.currentParticipants room = Z.of_nat (length (Room.participants room)).
Proof.
  intros (r0 & Hc & Hsteps)%runAll_origin.
  apply (rtc_roomStep_preserves countInSync roomStep_countInSync r0 room Hsteps).
  by apply created_countInSync.
Qed.

Lemma currentParticipants_is_length_witness :
  ∃ room,
    roomDocs (runAll Scenario.trace emptyStore) !! "R1" = Some room ∧
    Room.currentParticipants room = Z.of_nat (length (Room.participants room)).
Proof.
  eexists. split.
  - vm_compute. reflexivity.
  - apply (currentParticipants_is_length Scenario.trace "R1").
    vm_compute. reflexivity.
Defined.

Lemma reached_atMostOnce trace id room :
  roomDocs (runAll trace emptyStore) !! id = Some room → atMostOnce room.
Proof.
  intros (r0 & Hc & Hsteps)%runAll_origin.
  apply (rtc_roomStep_preserves atMostOnce roomStep_atMostOnce r0 room Hsteps).
  by apply created_atMostOnce.
Qed.

(** C3 (as the code has it). Whatever sequence of joins, leaves and other
    events the engine has run, a room lists a uid zero times or once.  A
    join for a uid that is a member is turned away with the store untouched
    when the room is not live ([ROOM_NOT_LIVE]) or its count has reached
    the capacity ([ROOM_FULL]); in a live room below its capacity it goes
    through and replaces that member's socket: the list keeps its length,
    the stored count its value, and the uid stays listed once. *)
Theorem member_zero_or_once trace id room uid :
  roomDocs (runAll trace emptyStore) !! id = Some room →
  (timesMember uid room = 0%nat ∨ timesMember uid room = 1%nat) ∧
  ∀ env s user,
    User.uid user = uid →
    isParticipant uid room = true →
    let db := runAll trace emptyStore in
    let o := joinRoom env s db id user in
    (isOpen room = false → rejected "ROOM_NOT_LIVE" db s o) ∧
    (isOpen room = true →
     (Room.maxParticipants room <= inject_Z (Room.currentParticipants room))%Q →
     rejected "ROOM_FULL" db s o) ∧
    (isOpen room = true →
     (inject_Z (Room.currentParticipants room) < Room.maxParticipants room)%Q →
     noError o ∧
     ∃ room',
       roomDocs (storeOf o) !! id = Some room' ∧
       room' = Room.updateParticipantSocket uid (socketId s) room ∧
       socketOf uid room' = Some (socketId s) ∧
       length (Room.participants room') = length (Room.participants room) ∧
       Room.currentParticipants room' = Room.currentParticipants room ∧
       timesMember uid room' = 1%nat).
Proof.
  intros Hroom. pose proof (reached_atMostOnce _ _ _ Hroom uid) as Hle.
  split; [lia|].
  intros env s user <- Hmem db o. subst db o. unfold joinRoom.
  change (findByRoomId (runAll trace emptyStore) id)
    with (roomDocs (runAll trace emptyStore) !! id).
  rewrite Hroom. unfold isOpen. split; [|split].
  - intros Hclosed. apply andb_false_iff in Hclosed as [->| ->]; simpl.
    + repeat split. eauto.
    + rewrite orb_true_r. repeat split. eauto.
  - intros [-> ->]%andb_true_iff Hfull%atLeast_true. simpl. rewrite Hfull.
    repeat split. eauto.
  - intros [-> ->]%andb_true_iff Hspace%atLeast_false. simpl. rewrite Hspace.
    pose proof Hmem as [q Hq]%isParticipant_find.
    unfold enrol. rewrite Hq. split; [done|].
    eexists. split; [simpl; apply lookup_insert_eq|].
    split; [done|].
    split; [by apply socketOf_updateParticipantSocket|].
    split; [apply length_updateParticipantSocket|].
    split.
    + unfold Room.updateParticipantSocket. by rewrite Hq.
    + rewrite times_updateParticipantSocket.
      apply isParticipant_times in Hmem. lia.
Qed.

Lemma member_zero_or_once_witness :
  ∃ room',
    roomDocs
      (storeOf
         (joinRoom (mkEnv 9000 "") (connect "sock-B2")
            (runAll
               [ (mkEnv 1000 "room_1000_z9y8x7w6v",
                  sessionOf Scenario.aliceAuthenticated,
                  CreateRoom Scenario.roomR2);
                 (mkEnv 2000 "", connect "sock-B", JoinRoom "R2" Scenario.bob) ]
               emptyStore)
            "R2" Scenario.bob))
    !! "R2" = Some room' ∧
    socketOf "B" room' = Some "sock-B2" ∧
    timesMember "B" room' = 1%nat.
Proof.
  destruct (member_zero_or_once
              [ (mkEnv 1000 "room_1000_z9y8x7w6v",
                 sessionOf Scenario.aliceAuthenticated,
                 CreateRoom Scenario.roomR2);
                (mkEnv 2000 "", connect "sock-B", JoinRoom "R2" Scenario.bob) ]
              "R2"
              (Room.addParticipant 2000
                 (Participant.mk "B" "Bob" "bob" "" 2000 "sock-B")
                 (newRoomData (mkEnv 1000 "room_1000_z9y8x7w6v")
                    (sessionOf Scenario.aliceAuthenticated) "R2"
                    Scenario.roomR2))
              "B") as [_ Hrejoin].
  - vm_compute. reflexivity.
  - destruct (Hrejoin (mkEnv 9000 "") (connect "sock-B2") Scenario.bob)
      as (_ & _ & Hthrough).
    + reflexivity.
    + vm_compute. reflexivity.
    + destruct Hthrough as (_ & room' & Hfind & _ & Hsocket & _ & _ & Honce).
      * vm_compute. reflexivity.
      * vm_compute. reflexivity.
      * exists room'. split; [exact Hfind|]. split; [exact Hsocket|exact Honce].
Defined.

(** C3, as stated, fails: R1 has room for two and holds Alice and Bob.
    Alice, a member, joins again from a new socket; the join is turned
    away with [ROOM_FULL] and her recorded socket is not replaced. *)
Lemma member_join_at_capacity_keeps_old_socket :
  ∃ room,
    roomDocs (runAll (take 2 Scenario.trace) emptyStore) !! "R1" = Some room ∧
    isParticipant "A" room = true ∧
    socketOf "A" room = Some "sock-A" ∧
    emitsOf (joinRoom (mkEnv 2700 "") (connect "sock-A2")
               (runAll (take 2 Scenario.trace) emptyStore) "R1" Scenario.alice)
    = [emitError "Room is full" "ROOM_FULL"] ∧
    ∃ room',
      roomDocs
        (storeOf (joinRoom (mkEnv 2700 "") (connect "sock-A2")
                    (runAll (take 2 Scenario.trace) emptyStore) "R1"
                    Scenario.alice))
      !! "R1" = Some room' ∧
      socketOf "A" room' = Some "sock-A" ∧
      socketOf "A" room' ≠ Some "sock-A2".
Proof.
  eexists. split; [vm_compute; reflexivity|].
  split; [vm_compute; reflexivity|].
  split; [vm_compute; reflexivity|].
  split; [vm_compute; reflexivity|].
  eexists. split; [vm_compute; reflexivity|].
  split; [vm_compute; reflexivity|].
  vm_compute. discriminate.
Qed.

(** ** Ending a stream *)

(** C9. When [endStream] goes through, the room document it writes back
    differs from the one it found in [isLive], [status] and [endedAt]
    only: the participants, the admin, the capacity and every other field
    are the same.  No other room document changes, no message document
    changes, and the connection's closure variables stay as they were. *)
Theorem endStream_frame env s db roomId room :
  findByRoomId db roomId = Some room →
  notAdmin room (currentUser s) = false →
  let o := endStream env s db roomId in
  ∃ room',
    findByRoomId (storeOf o) roomId = Some room' ∧
    Room.participants room' = Room.participants room ∧
    Room.admin room' = Room.admin room ∧
    Room.maxParticipants room' = Room.maxParticipants room ∧
    Room.currentParticipants room' = Room.currentParticipants room ∧
    Room.id room' = Room.id room ∧
    Room.title room' = Room.title room ∧
    Room.description room' = Room.description room ∧
    Room.streamKey room' = Room.streamKey room ∧
    Room.thumbnail room' = Room.thumbnail room ∧
    Room.category room' = Room.category room ∧
    Room.tags room' = Room.tags room ∧
    Room.isPublic room' = Room.isPublic room ∧
    Room.startedAt room' = Room.startedAt room ∧
    Room.createdBy room' = Room.createdBy room ∧
    Room.lastActivity room' = Room.lastActivity room ∧
    (∀ other, other ≠ roomId →
       findByRoomId (storeOf o) other = findByRoomId db other) ∧
    messageDocs (storeOf o) = messageDocs db ∧
    sessionOf o = s.
Proof.
  intros Hfind Hadmin. simpl. unfold endStream. rewrite Hfind, Hadmin.
  eexists. split.
  { unfold findByRoomId; simpl. apply lookup_insert_eq. }
  simpl. repeat split.
  intros other Hne. unfold findByRoomId; simpl.
  by apply lookup_insert_ne.
Qed.

Lemma endStream_frame_witness :
  ∃ room',
    findByRoomId (storeOf Scenario.streamEnded) "R1" = Some room' ∧
    (Participant.uid <$> Room.participants room') = ["A"; "B"].
Proof.
  destruct (endStream_frame (mkEnv 4000 "") (sessionOf Scenario.r1Created)
              (storeOf Scenario.bobSaidHi) "R1"
              (Room.with_lastActivity 3000
                 (Room.addParticipant 2000
                    (Participant.mk "B" "Bob" "bob" "" 2000 "sock-B")
                    (newRoomData (mkEnv 1000 "room_1000_k3j9x0q2a")
                       (sessionOf Scenario.aliceAuthenticated) "R1"
                       Scenario.roomR1))))
    as (room' & Hfind & Hps & _).
  - vm_compute. reflexivity.
  - vm_compute. reflexivity.
  - exists room'. split; [exact Hfind|]. rewrite Hps. reflexivity.
Defined.

(** ** Leaving *)

Lemma leaveRoom_lookup env s db roomId user id :
  findByRoomId (storeOf (leaveRoom env s db roomId user)) id
  = if decide (id = roomId)
    then Room.removeParticipant (now env) (User.uid user)
           <$> findByRoomId db roomId
    else findByRoomId db id.
Proof.
  unfold leaveRoom.
  destruct (findByRoomId db roomId) as [room|] eqn:E; unfold findByRoomId in *;
    simpl; case_decide; subst; simplify_map_eq; done.
Qed.

Lemma disconnect_session env s db :
  currentRoom (sessionOf (disconnect env s db)) = currentRoom s ∧
  currentUser (sessionOf (disconnect env s db)) = currentUser s.
Proof. unfold disconnect. repeat (case_match; try done). Qed.

Lemma disconnect_lookup env s db id :
  findByRoomId (storeOf (disconnect env s db)) id
  = match currentRoom s, currentUser s with
    | Some roomId, Some u =>
        if negb (Text.falsy roomId) && bool_decide (id = roomId)
        then Room.removeParticipant (now env) (User.uid u)
               <$> findByRoomId db roomId
        else findByRoomId db id
    | _, _ => findByRoomId db id
    end.
Proof.
  unfold disconnect.
  destruct (currentRoom s) as [roomId|]; [|done].
  destruct (currentUser s) as [u|]; [|done].
  destruct (Text.falsy roomId); [done|]. simpl.
  destruct (findByRoomId db roomId) as [room|] eqn:E; unfold findByRoomId in *;
    simpl; case_bool_decide; subst; simplify_map_eq; done.
Qed.

Lemma removeParticipant_twice now1 now2 uid r :
  let r1 := Room.removeParticipant now1 uid r in
  let r2 := Room.removeParticipant now2 uid r1 in
  Room.participants r2 = Room.participants r1 ∧
  Room.currentParticipants r2 = Room.currentParticipants r1.
Proof.
  simpl. unfold Room.participantCount; simpl.
  by rewrite filter_absent by apply removed_absent.
Qed.

(** C6. [leaveRoom] never reports an error.  For a uid that is not a
    member of the room it leaves the participants list as it is, and, in a
    room whose stored count agrees with the list, the count too.  A second
    leave for the same uid, and likewise a second run of the disconnect
    cleanup for the same connection, leaves the participants list and the
    count of every room exactly as the first left them. *)
Theorem leave_twice_is_leave_once env1 env2 s1 s2 db roomId user :
  let o1 := leaveRoom env1 s1 db roomId user in
  let o2 := leaveRoom env2 s2 (storeOf o1) roomId user in
  let d1 := disconnect env1 s1 db in
  let d2 := disconnect env2 (sessionOf d1) (storeOf d1) in
  noError o1 ∧ noError o2 ∧ noError d1 ∧ noError d2 ∧
  (∀ room,
     findByRoomId db roomId = Some room →
     isParticipant (User.uid user) room = false →
     ∃ room1,
       findByRoomId (storeOf o1) roomId = Some room1 ∧
       Room.participants room1 = Room.participants room ∧
       (countInSync room →
        Room.currentParticipants room1 = Room.currentParticipants room)) ∧
  (findByRoomId db roomId = None → storeOf o1 = db) ∧
  (∀ id room1,
     findByRoomId (storeOf o1) id = Some room1 →
     ∃ room2,
       findByRoomId (storeOf o2) id = Some room2 ∧
       Room.participants room2 = Room.participants room1 ∧
       Room.currentParticipants room2 = Room.currentParticipants room1) ∧
  (∀ id room1,
     findByRoomId (storeOf d1) id = Some room1 →
     ∃ room2,
       findByRoomId (storeOf d2) id = Some room2 ∧
       Room.participants room2 = Room.participants room1 ∧
       Room.currentParticipants room2 = Room.currentParticipants room1).
Proof.
  simpl. repeat split.
  - unfold leaveRoom, noError. by destruct (findByRoomId db roomId).
  - unfold leaveRoom at 1, noError. by destruct (findByRoomId _ roomId).
  - unfold disconnect, noError.
    repeat (case_match; try done).
  - unfold disconnect at 1, noError.
    repeat (case_match; try done).
  - intros room Hfind Hnot. rewrite leaveRoom_lookup, Hfind.
    rewrite decide_True by done. simpl.
    eexists. split; [done|].
    simpl. split; [by apply filter_absent|].
    unfold countInSync, Room.participantCount. intros ->.
    by rewrite filter_absent.
  - intros Hnone. unfold leaveRoom. by rewrite Hnone.
  - intros id room1. rewrite !leaveRoom_lookup.
    destruct (decide (id = roomId)) as [->|Hne].
    + destruct (findByRoomId db roomId) as [r|]; simpl; [|done].
      intros [= <-]. rewrite decide_True by done. simpl.
      eexists. split; [done|].
      apply removeParticipant_twice.
    + eauto.
  - intros id room1. rewrite (disconnect_lookup env2).
    destruct (disconnect_session env1 s1 db) as [-> ->].
    rewrite !disconnect_lookup.
    destruct (currentRoom s1) as [rid|] eqn:Ecr; [|eauto].
    destruct (currentUser s1) as [u|] eqn:Ecu; [|eauto].
    destruct (Text.falsy rid) eqn:Ef; simpl; [eauto|].
    case_bool_decide as Hid; [subst id|eauto].
    rewrite disconnect_lookup, Ecr, Ecu, Ef. simpl.
    rewrite bool_decide_eq_true_2 by done.
    destruct (findByRoomId db rid) as [r|]; simpl; [|done].
    intros [= <-]. eexists. split; [done|].
    apply removeParticipant_twice.
Qed.

Lemma leave_twice_is_leave_once_witness :
  ∃ room1,
    findByRoomId
      (storeOf (leaveRoom (mkEnv 7000 "") (connect "sock-C")
                  (storeOf Scenario.r1Created) "R1" Scenario.carol)) "R1"
    = Some room1 ∧
    (Participant.uid <$> Room.participants room1) = ["A"] ∧
    Room.currentParticipants room1 = 1.
Proof.
  destruct (leave_twice_is_leave_once (mkEnv 7000 "") (mkEnv 8000 "")
              (connect "sock-C") (connect "sock-C")
              (storeOf Scenario.r1Created) "R1" Scenario.carol)
    as (_ & _ & _ & _ & Habsent & _).
  destruct (Habsent
              (newRoomData (mkEnv 1000 "room_1000_k3j9x0q2a")
                 (sessionOf Scenario.aliceAuthenticated) "R1" Scenario.roomR1))
    as (room1 & Hfind & Hps & Hcount).
  - vm_compute. reflexivity.
  - vm_compute. reflexivity.
  - exists room1. split; [exact Hfind|]. split.
    + rewrite Hps. reflexivity.
    + rewrite Hcount; reflexivity.
Defined.

(** ** Joining *)

(** A join that reports no error went through the three checks. *)
Lemma joinRoom_noError env s db roomId user :
  noError (joinRoom env s db roomId user) →
  ∃ room room',
    findByRoomId db roomId = Some room ∧
    isOpen room = true ∧
    (inject_Z (Room.currentParticipants room) < Room.maxParticipants room)%Q ∧
    enrol env s user room = Some room' ∧
    storeOf (joinRoom env s db roomId user) = saveRoom roomId room' db.
Proof.
  unfold noError, joinRoom, isOpen.
  destruct (findByRoomId db roomId) as [room|]; [|done].
  destruct (Room.isLive room) eqn:E1; [|done].
  destruct (Status_eqb (Room.status room) live) eqn:E2; [|done]. simpl.
  destruct (atLeast (Room.currentParticipants room) (Room.maxParticipants room))
    eqn:Hcap; [done|].
  apply atLeast_false in Hcap.
  destruct (enrol env s user room) as [room'|] eqn:E; [|done].
  intros _. exists room, room'. rewrite E1, E2. by repeat split.
Qed.

(** C7 (as the code has it). A join that goes through for a uid that is
    not yet a member appends the member and sets [lastActivity] to the time
    of the join.  A join that goes through for a uid that is a member
    replaces that member's socket and leaves [lastActivity], like every
    other field of the room, as it was. *)
Theorem join_lastActivity env s db roomId user room :
  findByRoomId db roomId = Some room →
  noError (joinRoom env s db roomId user) →
  ∃ room',
    findByRoomId (storeOf (joinRoom env s db roomId user)) roomId = Some room' ∧
    if isParticipant (User.uid user) room
    then room' = Room.updateParticipantSocket (User.uid user) (socketId s) room
         ∧ socketOf (User.uid user) room' = Some (socketId s)
         ∧ Room.lastActivity room' = Room.lastActivity room
    else Room.lastActivity room' = now env
         ∧ isParticipant (User.uid user) room' = true
         ∧ length (Room.participants room') = S (length (Room.participants room)).
Proof.
  intros Hfind (room0 & room' & Hfind0 & Hopen & Hspace & Henrol & ->)%joinRoom_noError.
  rewrite Hfind in Hfind0. injection Hfind0 as <-.
  exists room'. split.
  { unfold findByRoomId; simpl. apply lookup_insert_eq. }
  unfold enrol in Henrol.
  destruct (isParticipant (User.uid user) room) eqn:Hmem.
  - pose proof Hmem as [q Hq]%isParticipant_find. rewrite Hq in Henrol.
    injection Henrol as <-. split; [done|]. split.
    + by apply socketOf_updateParticipantSocket.
    + unfold Room.updateParticipantSocket. by rewrite Hq.
  - destruct (Room.findParticipant (User.uid user) room) eqn:Hq.
    { assert (isParticipant (User.uid user) room = true) as Hyes
        by (apply isParticipant_find; eauto).
      congruence. }
    destruct (validParticipant _); [|done].
    injection Henrol as <-.
    unfold Room.addParticipant; simpl. rewrite Hq. simpl.
    split; [done|]. split.
    + unfold isParticipant; simpl. rewrite existsb_app; simpl.
      rewrite String.eqb_refl. by rewrite orb_true_r.
    + rewrite length_app; simpl. lia.
Qed.

Lemma join_lastActivity_witness :
  ∃ room',
    findByRoomId (storeOf Scenario.bobJoined) "R1" = Some room' ∧
    Room.lastActivity room' = 2000.
Proof.
  destruct (join_lastActivity (mkEnv 2000 "") (connect "sock-B")
              (storeOf Scenario.r1Created) "R1" Scenario.bob
              (newRoomData (mkEnv 1000 "room_1000_k3j9x0q2a")
                 (sessionOf Scenario.aliceAuthenticated) "R1" Scenario.roomR1))
    as (room' & Hfind & Hrest).
  - vm_compute. reflexivity.
  - vm_compute. reflexivity.
  - exists room'. split; [exact Hfind|].
    apply Hrest.
Defined.

(** C7, as stated, fails: Bob, a member of R2 since time 2000, joins again
    at time 9000 from a new socket.  The join goes through, his socket is
    replaced, and [lastActivity] still reads 2000. *)
Lemma rejoin_does_not_bump_lastActivity :
  noError Scenario.bobRejoinedR2 ∧
  ∃ before after,
    findByRoomId (storeOf Scenario.bobJoinedR2) "R2" = Some before ∧
    findByRoomId (storeOf Scenario.bobRejoinedR2) "R2" = Some after ∧
    socketOf "B" before = Some "sock-B" ∧
    socketOf "B" after = Some "sock-B2" ∧
    Room.lastActivity before = 2000 ∧
    Room.lastActivity after = 2000 ∧
    Room.lastActivity after ≠ 9000.
Proof.
  split; [vm_compute; reflexivity|].
  eexists _, _.
  split; [vm_compute; reflexivity|].
  split; [vm_compute; reflexivity|].
  repeat split; try (vm_compute; reflexivity).
  vm_compute. discriminate.
Qed.

(** C2 (as the code has it). In a live room whose stored participant count
    equals [maxParticipants], a join by any uid, member or not, is turned
    away with [ROOM_FULL]; store and connection stay as they were, so the
    participants, their sockets and the count are unchanged. *)
Theorem join_at_capacity env s db roomId user room :
  findByRoomId db roomId = Some room →
  isOpen room = true →
  (inject_Z (Room.currentParticipants room) == Room.maxParticipants room)%Q →
  rejected "ROOM_FULL" db s (joinRoom env s db roomId user).
Proof.
  unfold isOpen, joinRoom. intros -> Hopen Hfull.
  apply andb_true_iff in Hopen as [-> ->]. simpl.
  assert (atLeast (Room.currentParticipants room) (Room.maxParticipants room)
          = true) as ->.
  { apply atLeast_true. rewrite Hfull. apply Qle_refl. }
  repeat split. eauto.
Qed.

Lemma join_at_capacity_witness :
  rejected "ROOM_FULL" (storeOf Scenario.bobJoined) (connect "sock-C")
    Scenario.carolTurnedAway.
Proof.
  apply (join_at_capacity (mkEnv 2500 "") (connect "sock-C")
           (storeOf Scenario.bobJoined) "R1" Scenario.carol
           (Room.addParticipant 2000
              (Participant.mk "B" "Bob" "bob" "" 2000 "sock-B")
              (newRoomData (mkEnv 1000 "room_1000_k3j9x0q2a")
                 (sessionOf Scenario.aliceAuthenticated) "R1" Scenario.roomR1))).
  - vm_compute. reflexivity.
  - vm_compute. reflexivity.
  - vm_compute. reflexivity.
Defined.

(** C2, as stated, fails: R1 holds Alice and Bob and has room for two.
    Bob, a member, joins again from a new socket; the join is turned away
    with [ROOM_FULL] and his recorded socket is still the old one. *)
Lemma rejoin_at_capacity_is_refused :
  ∃ room,
    findByRoomId (storeOf Scenario.bobJoined) "R1" = Some room ∧
    (inject_Z (Room.currentParticipants room) == Room.maxParticipants room)%Q ∧
    (inject_Z (Room.participantCount room) == Room.maxParticipants room)%Q ∧
    isParticipant "B" room = true ∧
    emitsOf Scenario.bobRejoinsFull = [emitError "Room is full" "ROOM_FULL"] ∧
    ¬ noError Scenario.bobRejoinsFull ∧
    ∃ room',
      findByRoomId (storeOf Scenario.bobRejoinsFull) "R1" = Some room' ∧
      socketOf "B" room' = Some "sock-B" ∧
      socketOf "B" room' ≠ Some "sock-B2".
Proof.
  eexists. split; [vm_compute; reflexivity|].
  repeat split; try (vm_compute; reflexivity).
  - vm_compute. discriminate.
  - eexists. split; [vm_compute; reflexivity|].
    split; [vm_compute; reflexivity|].
    vm_compute. discriminate.
Qed.

(** ** The end of a stream is final for the status and for joins *)

Lemma joinRoom_ended env s db roomId user room :
  findByRoomId db roomId = Some room →
  isEnded room →
  rejected "ROOM_NOT_LIVE" db s (joinRoom env s db roomId user).
Proof.
  intros Hfind [Hst Hlive]. unfold joinRoom. rewrite Hfind, Hlive. simpl.
  repeat split. eauto.
Qed.

Lemma runAll_keeps_ended trace db roomId room :
  findByRoomId db roomId = Some room →
  isEnded room →
  ∃ room', findByRoomId (runAll trace db) roomId = Some room' ∧ isEnded room'.
Proof.
  intros Hfind Hended. pose proof (runAll_evolves trace db roomId) as H.
  unfold findByRoomId in *. rewrite Hfind in H.
  destruct H as (room' & E & Hsteps). exists room'. split; [done|].
  by apply (rtc_roomStep_preserves isEnded roomStep_isEnded room room' Hsteps).
Qed.

(** C4 (as the code has it). [endStream] from a connection whose current
    user is not the room's admin is turned away with [UNAUTHORIZED] and
    changes nothing, so a live room stays live.  From the admin it sets the
    status to [ended], clears [isLive] and records the time in [endedAt].
    From then on, whatever events follow, the room stays ended and every
    join on it is turned away with [ROOM_NOT_LIVE]; a leave is still
    carried out and removes the member. *)
Theorem endStream_contract env s db roomId room :
  findByRoomId db roomId = Some room →
  let o := endStream env s db roomId in
  (notAdmin room (currentUser s) = true → rejected "UNAUTHORIZED" db s o) ∧
  (notAdmin room (currentUser s) = false →
   noError o ∧
   ∃ room',
     findByRoomId (storeOf o) roomId = Some room' ∧
     Room.status room' = ended ∧
     Room.isLive room' = false ∧
     Room.endedAt room' = Some (now env) ∧
     ∀ trace,
       let later := runAll trace (storeOf o) in
       ∃ room'',
         findByRoomId later roomId = Some room'' ∧
         isEnded room'' ∧
         (∀ env' s' user,
            rejected "ROOM_NOT_LIVE" later s' (joinRoom env' s' later roomId user)) ∧
         (∀ env' s' user,
            let l := leaveRoom env' s' later roomId user in
            noError l ∧
            ∃ left,
              findByRoomId (storeOf l) roomId = Some left ∧
              isParticipant (User.uid user) left = false ∧
              isEnded left)).
Proof.
  intros Hfind. simpl. split; intros Hadmin.
  - unfold endStream. rewrite Hfind, Hadmin. repeat split. eauto.
  - unfold endStream. rewrite Hfind, Hadmin. split; [done|].
    set (room' := Room.with_endedAt (Some (now env))
                    (Room.with_status ended (Room.with_isLive false room))).
    assert (findByRoomId (saveRoom roomId room' db) roomId = Some room')
      as Hsaved by (unfold findByRoomId; simpl; apply lookup_insert_eq).
    exists room'. unfold storeOf at 1 2; simpl fst.
    split; [exact Hsaved|]. repeat split.
    intros trace.
    destruct (runAll_keeps_ended trace _ roomId room' Hsaved)
      as (room'' & Hlater & Hended); [by split|].
    exists room''. split; [exact Hlater|]. split; [exact Hended|]. split.
    + intros env' s' user. by eapply joinRoom_ended.
    + intros env' s' user. change (storeOf (saveRoom roomId room' db, s, _))
        with (saveRoom roomId room' db). split.
      * unfold leaveRoom, noError. by rewrite Hlater.
      * rewrite leaveRoom_lookup, decide_True, Hlater by done. simpl.
        eexists. split; [done|]. split.
        -- unfold isParticipant; simpl. apply removed_absent.
        -- exact Hended.
Qed.

Lemma endStream_contract_witness :
  noError Scenario.streamEnded ∧
  ∃ room',
    findByRoomId (storeOf Scenario.streamEnded) "R1" = Some room' ∧
    Room.status room' = ended.
Proof.
  destruct (endStream_contract (mkEnv 4000 "") (sessionOf Scenario.r1Created)
              (storeOf Scenario.bobSaidHi) "R1"
              (Room.with_lastActivity 3000
                 (Room.addParticipant 2000
                    (Participant.mk "B" "Bob" "bob" "" 2000 "sock-B")
                    (newRoomData (mkEnv 1000 "room_1000_k3j9x0q2a")
                       (sessionOf Scenario.aliceAuthenticated) "R1"
                       Scenario.roomR1))))
    as [_ Hadmin].
  - vm_compute. reflexivity.
  - destruct Hadmin as (Hok & room' & Hfind & Hst & _).
    + vm_compute. reflexivity.
    + split; [exact Hok|]. exists room'. split; [exact Hfind|exact Hst].
Defined.

(** C4, as stated, fails: after Alice, the admin, has ended R1, Bob's
    [leaveRoom] is carried out without an error, and the participants of
    the ended room go from Alice and Bob to Alice alone. *)
Lemma leave_after_endStream_succeeds :
  ∃ before after,
    findByRoomId (storeOf Scenario.streamEnded) "R1" = Some before ∧
    Room.status before = ended ∧
    (Participant.uid <$> Room.participants before) = ["A"; "B"] ∧
    noError Scenario.bobLeavesAfterEnd ∧
    findByRoomId (storeOf Scenario.bobLeavesAfterEnd) "R1" = Some after ∧
    (Participant.uid <$> Room.participants after) = ["A"] ∧
    Room.currentParticipants after = 1.
Proof.
  eexists _, _.
  split; [vm_compute; reflexivity|].
  split; [vm_compute; reflexivity|].
  split; [vm_compute; reflexivity|].
  split; [vm_compute; reflexivity|].
  split; [vm_compute; reflexivity|].
  split; vm_compute; reflexivity.
Qed.

(** ** Messages to a room that is not live *)

(** [sendMessage] does not read the status of the room: whatever [status]
    and [isLive] say, it emits the same events and stores the same
    messages. *)
Lemma sendMessage_blind_to_status env s db roomId txt user room st b :
  findByRoomId db roomId = Some room →
  let db' :=
    saveRoom roomId (Room.with_status st (Room.with_isLive b room)) db in
  emitsOf (sendMessage env s db' roomId txt user)
  = emitsOf (sendMessage env s db roomId txt user) ∧
  messageDocs (storeOf (sendMessage env s db' roomId txt user))
  = messageDocs (storeOf (sendMessage env s db roomId txt user)).
Proof.
  intros Hfind. simpl. unfold sendMessage.
  destruct (Text.falsy txt || _); [done|].
  rewrite Hfind. unfold findByRoomId. simpl. rewrite lookup_insert_eq.
  change (isParticipant (User.uid user)
            (Room.with_status st (Room.with_isLive b room)))
    with (isParticipant (User.uid user) room).
  destruct (isParticipant (User.uid user) room); simpl; [|done].
  unfold createMessage. simpl.
  destruct (validMessage _ && _); done.
Qed.

(** C1, on the code: R1 has been ended by its admin (status [ended],
    [isLive] false) and Bob is still listed as a participant.  His
    [sendMessage] then reports no error, stores a second message document
    for R1 and broadcasts it to the room as "newMessage". *)
Theorem sendMessage_to_ended_room_goes_through :
  ∃ room,
    findByRoomId (storeOf Scenario.streamEnded) "R1" = Some room ∧
    Room.status room = ended ∧
    Room.isLive room = false ∧
    isParticipant "B" room = true ∧
    noError Scenario.bobWritesAfterEnd ∧
    broadcastsMessage Scenario.bobWritesAfterEnd = true ∧
    (Message.text <$> messageDocs (storeOf Scenario.streamEnded)) = ["hi"] ∧
    (Message.text <$> messageDocs (storeOf Scenario.bobWritesAfterEnd))
    = ["hi"; "anyone here?"] ∧
    (Message.roomId <$> messageDocs (storeOf Scenario.bobWritesAfterEnd))
    = ["R1"; "R1"].
Proof.
  eexists. split; [vm_compute; reflexivity|].
  repeat split; vm_compute; reflexivity.
Qed.

(** ** Searching messages *)

#[global] Instance newerFirst_total : Total Message.newerFirst.
Proof. intros a b. unfold Message.newerFirst. lia. Qed.

#[global] Instance newerFirst_trans : Transitive Message.newerFirst.
Proof. intros a b c. unfold Message.newerFirst. lia. Qed.

Lemma eqbCI_lower x c : Text.eqbCI x c = true ↔ Text.lower x = Text.lower c.
Proof. unfold Text.eqbCI. apply Ascii.eqb_eq. Qed.

(** A query without metacharacters compiles to its own characters. *)
Lemma compile_plain (q : list ascii) :
  Forall (fun c => Regex.isMeta c = false) q →
  Regex.compile q = Some (Regex.Lit <$> q).
Proof.
  induction 1 as [|c q Hc Hq IH]; simpl; [done|].
  destruct (Ascii.eqb c ".") eqn:Edot.
  - apply Ascii.eqb_eq in Edot. subst c. discriminate Hc.
  - rewrite Hc, IH. done.
Qed.

Lemma matchHere_literal (q t : list ascii) :
  Regex.matchHere (Regex.Lit <$> q) t = true ↔
  ∃ after, Text.lower <$> t = (Text.lower <$> q) ++ after.
Proof.
  revert t. induction q as [|x q IH]; intros t; simpl.
  - split; eauto.
  - destruct t as [|c t]; simpl.
    + split; [done|]. by intros [after H].
    + rewrite andb_true_iff, eqbCI_lower, IH. split.
      * intros [Hx [after H]]. exists after. f_equal; [done|exact H].
      * intros [after H]. injection H as Hx H. split; [done|].
        exists after. exact H.
Qed.

Lemma matchAnywhere_literal (q t : list ascii) :
  Regex.matchAnywhere (Regex.Lit <$> q) t = true ↔
  ∃ before after, Text.lower <$> t = before ++ (Text.lower <$> q) ++ after.
Proof.
  induction t as [|c t IH]; simpl; rewrite orb_true_iff, matchHere_literal.
  - split.
    + intros [[after H]|]; [|done]. by exists [], after.
    + intros (before & after & H). left.
      destruct before; [eauto|done].
  - rewrite IH. split.
    + intros [[after H]|(before & after & H)].
      * by exists [], after.
      * exists (Text.lower c :: before), after. simpl. f_equal. exact H.
    + intros (before & after & H). destruct before as [|b before].
      * left. exists after. exact H.
      * right. injection H as _ H. exists before, after. exact H.
Qed.

(** On a query without metacharacters the matcher decides containment. *)
Lemma test_plain query text :
  plainQuery query →
  ∃ b, Regex.test query text = Some b ∧ (b = true ↔ containsCI query text).
Proof.
  intros Hplain. unfold Regex.test. rewrite (compile_plain _ Hplain). simpl.
  eexists. split; [done|]. apply matchAnywhere_literal.
Qed.

(** C8 (as the code has it). For a search term without regular-expression
    metacharacters and a positive limit, [searchMessages] returns the first
    [limit] elements of a list that holds exactly the non-deleted messages
    of the room whose text contains the term, letters compared without
    regard to case, and that is ordered by creation time, newest first. *)
Theorem searchMessages_plain all rid query n :
  plainQuery query →
  (0 < n)%nat →
  ∃ (hit : Message.t → bool) (hits : list Message.t),
    (∀ m, hit m = true ↔
          Message.roomId m = rid ∧ Message.isDeleted m = false ∧
          containsCI query (Message.text m)) ∧
    hits ≡ₚ List.filter hit all ∧
    StronglySorted Message.newerFirst hits ∧
    Message.searchMessages all rid query n = Some (take n hits).
Proof.
  intros Hplain Hn. unfold Message.searchMessages.
  rewrite (compile_plain _ Hplain). cbn [mbind option_bind].
  set (hit := fun m =>
    Message.inRoom rid m &&
    Regex.matchAnywhere (Regex.Lit <$> Text.chars query)
                        (Text.chars (Message.text m))).
  exists hit, (Message.sortByCreatedDesc (List.filter hit all)).
  split; [|split; [|split]].
  - intros m. unfold hit, Message.inRoom.
    rewrite !andb_true_iff, negb_true_iff, String.eqb_eq, matchAnywhere_literal.
    unfold containsCI. tauto.
  - apply merge_sort_Permutation.
  - apply StronglySorted_merge_sort; apply _.
  - unfold Message.limit. destruct n; [lia|done].
Qed.

Lemma searchMessages_plain_witness :
  ∃ hits,
    Message.searchMessages (messageDocs (storeOf Scenario.bobWritesAfterEnd))
      "R1" "HI" 20 = Some (take 20 hits) ∧
    StronglySorted Message.newerFirst hits.
Proof.
  destruct (searchMessages_plain
              (messageDocs (storeOf Scenario.bobWritesAfterEnd)) "R1" "HI" 20)
    as (hit & hits & _ & _ & Hsorted & Hres).
  - unfold plainQuery. simpl. repeat constructor.
  - lia.
  - exists hits. split; [exact Hres|exact Hsorted].
Defined.

(** The message "hi" that Bob sent to R1 is found under the term "HI". *)
Lemma search_HI_finds_hi :
  (List.map Message.text
     <$> Message.searchMessages
           (messageDocs (storeOf Scenario.bobWritesAfterEnd)) "R1" "HI" 20)
  = Some ["hi"].
Proof. vm_compute. reflexivity. Qed.

(** C8, as stated, fails: the search term is read as a pattern.  Under the
    term "h." the message "hi" is returned, and "hi" does not contain
    "h." as a substring. *)
Lemma search_term_is_a_pattern :
  (List.map Message.text
     <$> Message.searchMessages
           (messageDocs (storeOf Scenario.bobSaidHi)) "R1" "h." 20)
  = Some ["hi"] ∧
  ¬ containsCI "h." "hi".
Proof.
  split; [vm_compute; reflexivity|].
  intros (before & after & H). simpl in H.
  destruct before as [|b1 [|b2 [|b3 before]]]; vm_compute in H; discriminate H.
Qed.

(** ** Runs on one room, one after the other and overlapping *)

Lemma enrol_member env s user room room' :
  enrol env s user room = Some room' →
  isParticipant (User.uid user) room' = true.
Proof.
  unfold enrol.
  destruct (Room.findParticipant (User.uid user) room) as [q|] eqn:Hq.
  - intros [= <-]. apply isParticipant_times.
    rewrite times_updateParticipantSocket. apply isParticipant_times.
    apply isParticipant_find. eauto.
  - destruct (validParticipant _); [|done]. intros [= <-].
    unfold Room.addParticipant. simpl. rewrite Hq.
    unfold isParticipant. simpl. rewrite existsb_app. simpl.
    rewrite String.eqb_refl. by rewrite orb_true_r.
Qed.

Lemma enrol_valid env s user room :
  validIdentity user = true → is_Some (enrol env s user room).
Proof.
  intros Hvalid. unfold enrol.
  destruct (Room.findParticipant (User.uid user) room); [eauto|].
  unfold validParticipant. simpl. unfold validIdentity in Hvalid.
  rewrite Hvalid. eauto.
Qed.

(** C10 (as the code has it). The handlers take no room-scoped lock: each
    reads the room, decides on its copy and saves.  A run whose read and
    save are not separated by another run is the handler itself.  Runs
    that follow one another never list a uid twice, and after an
    [endStream] has gone through every later join, whatever happens in
    between, is turned away with [ROOM_NOT_LIVE].  A join that read the
    live room before the admin's [endStream] and saves after it is not
    turned away: the [endStream] and the join both report success, and the
    room lists the joiner. *)
Theorem joins_and_ends_take_no_lock :
  (∀ env s db roomId user,
     joinRoomAcross env s db db roomId user = joinRoom env s db roomId user) ∧
  (∀ env s db roomId,
     endStreamAcross env s db db roomId = endStream env s db roomId) ∧
  (∀ trace id room uid,
     findByRoomId (runAll trace emptyStore) id = Some room →
     (timesMember uid room ≤ 1)%nat) ∧
  (∀ envE sE db roomId room,
     findByRoomId db roomId = Some room →
     notAdmin room (currentUser sE) = false →
     ∀ trace envJ sJ user,
       let later := runAll trace (storeOf (endStream envE sE db roomId)) in
       rejected "ROOM_NOT_LIVE" later sJ (joinRoom envJ sJ later roomId user)) ∧
  (∀ envE sE envJ sJ db roomId room user,
     findByRoomId db roomId = Some room →
     isOpen room = true →
     (inject_Z (Room.currentParticipants room) < Room.maxParticipants room)%Q →
     notAdmin room (currentUser sE) = false →
     validIdentity user = true →
     let e := endStream envE sE db roomId in
     let j := joinRoomAcross envJ sJ db (storeOf e) roomId user in
     noError e ∧ noError j ∧
     ¬ rejected "ROOM_NOT_LIVE" (storeOf e) sJ j ∧
     ∃ room',
       findByRoomId (storeOf j) roomId = Some room' ∧
       isParticipant (User.uid user) room' = true).
Proof.
  split; [done|]. split; [done|]. split; [|split].
  - intros trace id room uid Hroom. by apply (reached_atMostOnce trace id room).
  - intros envE sE db roomId room Hfind Hadmin trace envJ sJ user. simpl.
    edestruct (runAll_keeps_ended trace (storeOf (endStream envE sE db roomId)))
      as (room'' & Hlater & Hended).
    { unfold endStream. rewrite Hfind, Hadmin.
      unfold findByRoomId, storeOf. simpl. apply lookup_insert_eq. }
    { by split. }
    by eapply joinRoom_ended.
  - intros envE sE envJ sJ db roomId room user Hfind Hopen Hspace Hadmin Hvalid.
    simpl. unfold joinRoomAcross, endStream. rewrite Hfind, Hadmin.
    unfold isOpen in Hopen. apply andb_true_iff in Hopen as [-> ->]. simpl.
    apply atLeast_false in Hspace. rewrite Hspace.
    destruct (enrol_valid envJ sJ user room Hvalid) as [room' Henrol].
    rewrite Henrol. split; [done|]. split; [done|]. split.
    + intros (_ & _ & message & Hemits). discriminate Hemits.
    + exists room'. split.
      * unfold findByRoomId, storeOf. simpl. apply lookup_insert_eq.
      * by eapply enrol_member.
Qed.

Lemma joins_and_ends_take_no_lock_witness :
  noError
    (joinRoomAcross (mkEnv 4001 "") (connect "sock-B")
       (storeOf Scenario.r1Created)
       (storeOf (endStream (mkEnv 4000 "") (sessionOf Scenario.r1Created)
                   (storeOf Scenario.r1Created) "R1"))
       "R1" Scenario.bob).
Proof.
  destruct joins_and_ends_take_no_lock as (_ & _ & _ & _ & Hoverlap).
  destruct (Hoverlap (mkEnv 4000 "") (sessionOf Scenario.r1Created)
              (mkEnv 4001 "") (connect "sock-B") (storeOf Scenario.r1Created)
              "R1"
              (newRoomData (mkEnv 1000 "room_1000_k3j9x0q2a")
                 (sessionOf Scenario.aliceAuthenticated) "R1" Scenario.roomR1)
              Scenario.bob) as (_ & Hjoin & _).
  - vm_compute. reflexivity.
  - vm_compute. reflexivity.
  - vm_compute. reflexivity.
  - vm_compute. reflexivity.
  - vm_compute. reflexivity.
  - exact Hjoin.
Defined.

(** C10, as stated, fails: Bob's join reads R1 while it is live; Alice, the
    admin, ends the stream, and the end is saved and announced to the room;
    then Bob's join saves.  Neither run reports an error: the room is told
    "roomDeleted", Bob is told "roomUpdated" and is listed in the room. *)
Lemma join_overlapping_endStream_both_succeed :
  let db := storeOf Scenario.r1Created in
  let e := endStream (mkEnv 4000 "") (sessionOf Scenario.r1Created) db "R1" in
  let j := joinRoomAcross (mkEnv 4001 "") (connect "sock-B") db (storeOf e) "R1"
             Scenario.bob in
  (∃ seen, findByRoomId db "R1" = Some seen ∧ isOpen seen = true) ∧
  (∃ saved, findByRoomId (storeOf e) "R1" = Some saved ∧ Room.status saved = ended) ∧
  noError e ∧
  (event <$> emitsOf e) = ["roomDeleted"; "roomsUpdated"] ∧
  noError j ∧
  (event <$> emitsOf j)
  = ["roomUpdated"; "existingMessages"; "userJoined"; "roomUpdated"] ∧
  ∃ final,
    findByRoomId (storeOf j) "R1" = Some final ∧
    isParticipant "B" final = true.
Proof.
  simpl. split.
  { eexists. split; vm_compute; reflexivity. }
  split.
  { eexists. split; vm_compute; reflexivity. }
  split; [vm_compute; reflexivity|].
  split; [vm_compute; reflexivity|].
  split; [vm_compute; reflexivity|].
  split; [vm_compute; reflexivity|].
  eexists. split; vm_compute; reflexivity.
Qed.

(** * Further properties of the code *)

(** ** [trim] *)

Lemma trimStart_split (l : list ascii) :
  ∃ pre, l = pre ++ Text.trimStart l ∧
         Forall (fun c => Text.isSpace c = true) pre ∧
         ∀ c, head (Text.trimStart l) = Some c → Text.isSpace c = false.
Proof.
  induction l as [|c l (pre & Hl & Hpre & Hhead)]; simpl.
  - exists []. repeat split; [constructor|done].
  - destruct (Text.isSpace c) eqn:E.
    + exists (c :: pre). simpl. rewrite <- Hl. repeat split; [|done].
      by constructor.
    + exists []. repeat split; [constructor|]. simpl. by intros ? [= <-].
Qed.

Lemma trimStart_fixed (l : list ascii) :
  (∀ c, head l = Some c → Text.isSpace c = false) → Text.trimStart l = l.
Proof. destruct l as [|c l]; simpl; [done|]. intros H. by rewrite (H c). Qed.

Lemma head_rev_last (l : list ascii) c : head (rev l) = Some c → last l = Some c.
Proof.
  intros H. rewrite <- (rev_involutive l).
  destruct (rev l); simpl in *; [done|]. injection H as ->. apply last_snoc.
Qed.

Lemma chars_trim s :
  Text.chars (Text.trim s)
  = rev (Text.trimStart (rev (Text.trimStart (Text.chars s)))).
Proof. unfold Text.trim, Text.chars. apply list_ascii_of_string_of_list_ascii. Qed.

Lemma trim_split s :
  ∃ pre post,
    Text.chars s = pre ++ Text.chars (Text.trim s) ++ post ∧
    Forall (fun c => Text.isSpace c = true) pre ∧
    Forall (fun c => Text.isSpace c = true) post ∧
    trimmed (Text.chars (Text.trim s)).
Proof.
  rewrite chars_trim.
  destruct (trimStart_split (Text.chars s)) as (pre & Hl & Hpre & Hhead).
  set (m := Text.trimStart (Text.chars s)) in *.
  destruct (trimStart_split (rev m)) as (erp & Hm & Herp & Hlast).
  set (t := Text.trimStart (rev m)) in *.
  assert (m = rev t ++ rev erp) as Hm'.
  { rewrite <- (rev_involutive m), Hm. apply rev_app_distr. }
  exists pre, (rev erp). split; [by rewrite <- Hm'|].
  split; [done|]. split.
  { apply Forall_forall. intros c Hc. apply list_elem_of_In, in_rev in Hc.
    rewrite Forall_forall in Herp. apply Herp. by apply list_elem_of_In. }
  split.
  - intros c Hc. apply Hhead. rewrite Hm'.
    destruct (rev t); [done|]. exact Hc.
  - intros c Hc. apply Hlast. clearbody t.
    destruct t as [|a t']; simpl in Hc; [done|].
    by rewrite last_snoc in Hc.
Qed.

(** Trimming twice is trimming once. *)
Lemma trim_idempotent s : Text.trim (Text.trim s) = Text.trim s.
Proof.
  destruct (trim_split s) as (_ & _ & _ & _ & _ & Hhead & Hlast).
  unfold Text.trim at 1.
  rewrite (trimStart_fixed _ Hhead).
  rewrite (trimStart_fixed (rev _)).
  - rewrite rev_involutive. apply string_of_list_ascii_of_string.
  - intros c Hc. apply Hlast. by apply head_rev_last.
Qed.

(** [trim] takes away white space at both ends and nothing else: what is
    cut off in front and behind is white space only, and what is left
    neither starts nor ends with white space. *)
Theorem trim_cuts_exactly_the_ends s :
  ∃ pre post,
    Text.chars s = pre ++ Text.chars (Text.trim s) ++ post ∧
    Forall (fun c => Text.isSpace c = true) pre ∧
    Forall (fun c => Text.isSpace c = true) post ∧
    trimmed (Text.chars (Text.trim s)).
Proof. exact (trim_split s). Qed.

(** A text of white space only trims to the empty string, so [sendMessage]
    refuses it. *)
Lemma trim_blank s :
  Forall (fun c => Text.isSpace c = true) (Text.chars s) → Text.trim s = "".
Proof.
  intros Hall. unfold Text.trim.
  assert (Text.trimStart (Text.chars s) = []) as ->; [|done].
  induction Hall as [|c l Hc Hl IH]; simpl; [done|]. by rewrite Hc.
Qed.

(** ** The history of the room documents *)

Lemma history_refl db : history db db.
Proof. intros id. destruct (roomDocs db !! id) eqn:E; eauto using rtc_refl. Qed.

Lemma history_trans db1 db2 db3 :
  history db1 db2 → history db2 db3 → history db1 db3.
Proof.
  intros H12 H23 id. specialize (H12 id). specialize (H23 id).
  destruct (roomDocs db1 !! id) as [r|].
  - destruct H12 as (r2 & E2 & S12). rewrite E2 in H23.
    destruct H23 as (r3 & E3 & S23). eauto using rtc_trans.
  - destruct H12 as [E2|(r0 & r2 & E2 & C & S02)]; rewrite E2 in H23.
    + done.
    + destruct H23 as (r3 & E3 & S23). right.
      exists r0, r3. eauto using rtc_trans.
Qed.

Lemma history_save db roomId r r' :
  findByRoomId db roomId = Some r → guardedStep r r' →
  history db (saveRoom roomId r' db).
Proof.
  unfold findByRoomId. intros Hfind Hstep id. simpl.
  destruct (decide (id = roomId)) as [->|Hne].
  - rewrite Hfind, lookup_insert_eq. eauto using rtc_once.
  - rewrite lookup_insert_ne by done.
    destruct (roomDocs db !! id); eauto using rtc_refl.
Qed.

Lemma history_same_rooms db db1 db2 :
  roomDocs db1 = roomDocs db → history db1 db2 → history db db2.
Proof. intros E H id. specialize (H id). by rewrite E in H. Qed.

Lemma createRoom_history env s db d : history db (storeOf (createRoom env s db d)).
Proof.
  unfold createRoom.
  set (roomId := Text.orElse (RoomData.id d) (generatedId env)).
  destruct (findByRoomId db roomId) eqn:E; [apply history_refl|].
  destruct (validRoom _) eqn:V; [|apply history_refl].
  intros id. simpl. unfold findByRoomId in E.
  destruct (decide (id = roomId)) as [->|Hne].
  - rewrite E, lookup_insert_eq. right. eexists _, _.
    split; [done|]. split; [|apply rtc_refl]. split; [eauto|done].
  - rewrite lookup_insert_ne by done.
    destruct (roomDocs db !! id); eauto using rtc_refl.
Qed.

Lemma enrol_guarded env s user room room' :
  isOpen room = true →
  (inject_Z (Room.currentParticipants room) < Room.maxParticipants room)%Q →
  enrol env s user room = Some room' → guardedStep room room'.
Proof.
  intros Hopen Hspace. unfold enrol.
  destruct (Room.findParticipant (User.uid user) room) eqn:E.
  - intros [= <-]. by constructor.
  - destruct (validParticipant _) eqn:V; [|done]. intros [= <-].
    by constructor.
Qed.

Lemma joinRoom_history env s db roomId u :
  history db (storeOf (joinRoom env s db roomId u)).
Proof.
  unfold joinRoom.
  destruct (findByRoomId db roomId) as [room|] eqn:E; [|apply history_refl].
  destruct (Room.isLive room) eqn:E1; [|apply history_refl].
  destruct (Status_eqb (Room.status room) live) eqn:E2; [|apply history_refl].
  simpl.
  destruct (atLeast (Room.currentParticipants room) (Room.maxParticipants room))
    eqn:Hcap; [apply history_refl|].
  apply atLeast_false in Hcap.
  destruct (enrol env s u room) eqn:A; [|apply history_refl].
  eapply history_save; [done|].
  eapply enrol_guarded; [|done|done]. unfold isOpen. by rewrite E1, E2.
Qed.

Lemma sendMessage_history env s db roomId txt u :
  history db (storeOf (sendMessage env s db roomId txt u)).
Proof.
  unfold sendMessage.
  case_match; [apply history_refl|].
  destruct (findByRoomId db roomId) eqn:E; [|apply history_refl].
  case_match; [apply history_refl|].
  destruct (createMessage _ db) as [db1|] eqn:C; [|apply history_refl].
  apply createMessage_rooms in C.
  eapply history_same_rooms; [exact C|].
  eapply history_save; [|constructor].
  unfold findByRoomId in *. by rewrite C.
Qed.

Lemma leaveRoom_history env s db roomId u :
  history db (storeOf (leaveRoom env s db roomId u)).
Proof.
  unfold leaveRoom.
  destruct (findByRoomId db roomId) eqn:E; [|apply history_refl].
  eapply history_save; [done|constructor].
Qed.

Lemma endStream_history env s db roomId :
  history db (storeOf (endStream env s db roomId)).
Proof.
  unfold endStream.
  destruct (findByRoomId db roomId) eqn:E; [|apply history_refl].
  case_match; [apply history_refl|].
  eapply history_save; [done|constructor].
Qed.

Lemma leaveOne_history env acc roomId :
  history (storeOf acc) (storeOf (leaveOne env acc roomId)).
Proof.
  destruct acc as [[db s] out]. unfold leaveOne.
  case_match; [apply history_refl|].
  destruct (findByRoomId db roomId) eqn:E; [|apply history_refl].
  destruct (currentUser s); [|apply history_refl].
  eapply history_save; [done|constructor].
Qed.

Lemma leaveAllRooms_history env s db :
  history db (storeOf (leaveAllRooms env s db)).
Proof.
  unfold leaveAllRooms.
  assert (∀ l acc, history (storeOf acc) (storeOf (fold_left (leaveOne env) l acc)))
    as Hfold.
  { induction l as [|x l IH]; intros acc; simpl; [apply history_refl|].
    eapply history_trans; [apply leaveOne_history|apply IH]. }
  specialize (Hfold (rooms s) (db, s, [])).
  by destruct (fold_left _ _ _) as [[db' s'] out].
Qed.

Lemma disconnect_history env s db :
  history db (storeOf (disconnect env s db)).
Proof.
  unfold disconnect.
  destruct (currentRoom s) as [roomId|]; [|apply history_refl].
  destruct (currentUser s); [|apply history_refl].
  case_match; [apply history_refl|].
  destruct (findByRoomId db roomId) eqn:E; [|apply history_refl].
  eapply history_save; [done|constructor].
Qed.

Lemma handle_history env s db ev : history db (storeOf (handle env s db ev)).
Proof.
  destruct ev; simpl;
    auto using createRoom_history, joinRoom_history, sendMessage_history,
      leaveRoom_history, endStream_history, leaveAllRooms_history,
      disconnect_history, history_refl.
Qed.

Lemma runAll_history trace db : history db (runAll trace db).
Proof.
  unfold runAll. revert db.
  induction trace as [|[[env s] ev] trace IH]; intros db; simpl.
  - apply history_refl.
  - eapply history_trans; [apply handle_history|apply IH].
Qed.

Lemma runAll_birth trace id room :
  roomDocs (runAll trace emptyStore) !! id = Some room →
  ∃ r0, bornAt id r0 ∧ rtc guardedStep r0 room.
Proof.
  intros Hroom. pose proof (runAll_history trace emptyStore id) as H.
  simpl in H. rewrite lookup_empty in H.
  destruct H as [H|(r0 & r' & E & C & S)]; [congruence|].
  rewrite Hroom in E. injection E as <-. eauto.
Qed.

Lemma rtc_guardedStep_preserves (P : Room.t → Prop) :
  (∀ r r', guardedStep r r' → P r → P r') →
  ∀ r r', rtc guardedStep r r' → P r → P r'.
Proof. intros Hone r r' Hrtc. induction Hrtc; eauto. Qed.

(** ** What a guarded step keeps *)

Lemma guardedStep_sameIdentity r r' : guardedStep r r' → sameIdentity r r'.
Proof.
  unfold sameIdentity.
  destruct 1 as [now p r Hnone ? ? ?|uid sid r ?|now uid r|now r|now r];
    simpl; try done.
  - unfold Room.addParticipant. by rewrite Hnone.
  - unfold Room.updateParticipantSocket.
    by destruct (Room.findParticipant uid r).
Qed.

Lemma sameIdentity_refl r : sameIdentity r r.
Proof. by unfold sameIdentity. Qed.

Lemma sameIdentity_trans r1 r2 r3 :
  sameIdentity r1 r2 → sameIdentity r2 r3 → sameIdentity r1 r3.
Proof. unfold sameIdentity. intuition congruence. Qed.

Lemma rtc_guardedStep_sameIdentity r r' :
  rtc guardedStep r r' → sameIdentity r r'.
Proof.
  induction 1 as [|r1 r2 r3 Hstep _ IH]; [apply sameIdentity_refl|].
  eapply sameIdentity_trans; [by apply guardedStep_sameIdentity|done].
Qed.

Lemma guardedStep_statusCoherent r r' :
  guardedStep r r' → statusCoherent r → statusCoherent r'.
Proof.
  unfold statusCoherent.
  destruct 1 as [now p r Hnone ? ? ?|uid sid r ?|now uid r|now r|now r];
    simpl; try done.
  - unfold Room.addParticipant. by rewrite Hnone.
  - unfold Room.updateParticipantSocket.
    by destruct (Room.findParticipant uid r).
  - intros _. right. eauto.
Qed.

Lemma length_filter_le {A} (f : A → bool) (l : list A) :
  (length (List.filter f l) ≤ length l)%nat.
Proof.
  induction l as [|x l IH]; simpl; [done|].
  destruct (f x); simpl; lia.
Qed.

Lemma guardedStep_withinCapacity r r' :
  guardedStep r r' → withinCapacity r → withinCapacity r'.
Proof.
  unfold withinCapacity, countInSync, Room.participantCount.
  destruct 1 as [now p r Hnone ? Hspace ?|uid sid r ?|now uid r|now r|now r];
    simpl; try done.
  - unfold Room.addParticipant. rewrite Hnone. simpl.
    intros [Hsync Hcap]. split; [done|]. right.
    rewrite length_app. simpl.
    replace (Z.of_nat (length (Room.participants r) + 1) - 1)
      with (Room.currentParticipants r) by lia.
    exact Hspace.
  - rewrite length_updateParticipantSocket.
    unfold Room.updateParticipantSocket.
    by destruct (Room.findParticipant uid r).
  - intros [Hsync Hcap]. split; [done|].
    pose proof (length_filter_le
      (fun p => negb (String.eqb (Participant.uid p) uid)) (Room.participants r))
      as Hle.
    set (kept := List.filter _ _) in *.
    destruct (decide (Z.of_nat (length kept) ≤ 1)) as [|Hmore]; [by left|].
    right. destruct Hcap as [Hcap|Hcap]; [lia|].
    eapply Qle_lt_trans; [|exact Hcap].
    rewrite <- Zle_Qle. lia.
Qed.

Lemma forallb_setSocketOfFirst uid sid ps :
  forallb validParticipant ps = true →
  forallb validParticipant (Room.setSocketOfFirst uid sid ps) = true.
Proof.
  induction ps as [|q ps IH]; simpl; [done|].
  intros [Hq Hps]%andb_true_iff.
  destruct (String.eqb (Participant.uid q) uid); simpl.
  - by rewrite Hps, andb_true_r.
  - by rewrite Hq, IH.
Qed.

Lemma guardedStep_participantsValid r r' :
  guardedStep r r' → participantsValid r → participantsValid r'.
Proof.
  unfold participantsValid.
  destruct 1 as [now p r Hnone ? ? Hvalid|uid sid r ?|now uid r|now r|now r];
    simpl; try done.
  - unfold Room.addParticipant. rewrite Hnone. simpl.
    intros Hps. rewrite forallb_app, Hps. simpl. by rewrite Hvalid.
  - unfold Room.updateParticipantSocket.
    destruct (Room.findParticipant uid r); [|done]. simpl.
    apply forallb_setSocketOfFirst.
  - intros Hps. apply forallb_forall. intros q [Hq _]%filter_In.
    by eapply forallb_forall in Hps.
Qed.

(** ** Invariants of the room documents *)

Lemma bornAt_facts id r :
  bornAt id r →
  Room.id r = id ∧ statusCoherent r ∧ withinCapacity r ∧ participantsValid r.
Proof.
  intros [(env & s & d & ->) Hvalid]. split; [done|]. split.
  { left. done. }
  split.
  { split; [done|]. left. unfold Room.participantCount. simpl. lia. }
  unfold participantsValid. unfold validRoom in Hvalid.
  repeat (apply andb_true_iff in Hvalid as [Hvalid ?]). done.
Qed.

(** In every store the engine reaches, a room document sits under its own
    [id]: looking a room up by id returns the room with that id. *)
Theorem room_stored_under_its_id trace id room :
  findByRoomId (runAll trace emptyStore) id = Some room → Room.id room = id.
Proof.
  intros (r0 & Hborn & Hsteps)%runAll_birth.
  apply bornAt_facts in Hborn as (Hid & _).
  apply rtc_guardedStep_sameIdentity in Hsteps as (Hsame & _). congruence.
Qed.

Lemma room_stored_under_its_id_witness :
  ∃ room,
    findByRoomId (runAll Scenario.trace emptyStore) "R1" = Some room ∧
    Room.id room = "R1".
Proof.
  eexists. split.
  - vm_compute. reflexivity.
  - apply (room_stored_under_its_id Scenario.trace "R1").
    vm_compute. reflexivity.
Defined.

(** In every store the engine reaches, a room is either live ([status]
    live, [isLive] set, no [endedAt]) or ended ([status] ended, [isLive]
    cleared, [endedAt] recorded); the status [scheduled] never occurs. *)
Theorem room_is_live_or_ended trace id room :
  findByRoomId (runAll trace emptyStore) id = Some room →
  statusCoherent room ∧ Room.status room ≠ scheduled.
Proof.
  intros (r0 & Hborn & Hsteps)%runAll_birth.
  apply bornAt_facts in Hborn as (_ & Hst & _).
  assert (statusCoherent room) as H
    by exact (rtc_guardedStep_preserves _ guardedStep_statusCoherent _ _ Hsteps Hst).
  split; [done|]. destruct H as [(-> & _)|(-> & _)]; done.
Qed.

Lemma room_is_live_or_ended_witness :
  ∃ room,
    findByRoomId (runAll Scenario.trace emptyStore) "R1" = Some room ∧
    statusCoherent room.
Proof.
  eexists. split.
  - vm_compute. reflexivity.
  - apply (room_is_live_or_ended Scenario.trace "R1").
    vm_compute. reflexivity.
Defined.

(** In every store the engine reaches, a participant beyond the first was
    let in while the count was below [maxParticipants]: a room holds one
    participant at most, or one less than its number of participants is
    below [maxParticipants].  When [maxParticipants] is a whole number,
    the room holds no more participants than that, or the one admin of a
    room created with a capacity below one. *)
Theorem room_never_over_capacity trace id room :
  findByRoomId (runAll trace emptyStore) id = Some room →
  let n := Z.of_nat (length (Room.participants room)) in
  (n ≤ 1 ∨ (inject_Z (n - 1) < Room.maxParticipants room)%Q) ∧
  ∀ k : Z, (Room.maxParticipants room == inject_Z k)%Q → n ≤ Z.max 1 k.
Proof.
  intros (r0 & Hborn & Hsteps)%runAll_birth.
  apply bornAt_facts in Hborn as (_ & _ & Hcap & _).
  destruct (rtc_guardedStep_preserves _ guardedStep_withinCapacity _ _ Hsteps Hcap)
    as [_ Hroom].
  unfold Room.participantCount in Hroom. simpl. split; [exact Hroom|].
  intros k Hk. destruct Hroom as [Hone|Hbelow]; [lia|].
  rewrite Hk, <- Zlt_Qlt in Hbelow. lia.
Qed.

Lemma room_never_over_capacity_witness :
  ∃ room,
    findByRoomId (runAll Scenario.trace emptyStore) "R1" = Some room ∧
    Z.of_nat (length (Room.participants room)) ≤ Z.max 1 2.
Proof.
  eexists. split.
  - vm_compute. reflexivity.
  - apply (room_never_over_capacity Scenario.trace "R1").
    + vm_compute. reflexivity.
    + vm_compute. reflexivity.
Defined.

(** In every store the engine reaches, every room document passes the
    validators of the schema: id, title, admin and every participant's
    uid, display name and username are present, title and description are
    within their lengths. *)
Theorem room_passes_the_schema trace id room :
  findByRoomId (runAll trace emptyStore) id = Some room →
  validRoom room = true.
Proof.
  intros (r0 & Hborn & Hsteps)%runAll_birth.
  pose proof (bornAt_facts _ _ Hborn) as (_ & _ & _ & Hps).
  assert (participantsValid room) as Hps'
    by exact (rtc_guardedStep_preserves _ guardedStep_participantsValid _ _ Hsteps Hps).
  destruct Hborn as [_ Hvalid].
  apply rtc_guardedStep_sameIdentity in Hsteps
    as (Hid & Hti & Hde & Had & _ & _ & _ & _ & _ & _ & _ & Hcb).
  unfold validRoom in *. rewrite Hid, Hti, Hde, Had, Hcb.
  unfold participantsValid in Hps, Hps'. rewrite Hps'.
  by rewrite Hps in Hvalid.
Qed.

Lemma room_passes_the_schema_witness :
  ∃ room,
    findByRoomId (runAll Scenario.trace emptyStore) "R1" = Some room ∧
    validRoom room = true.
Proof.
  eexists. split.
  - vm_compute. reflexivity.
  - apply (room_passes_the_schema Scenario.trace "R1").
    vm_compute. reflexivity.
Defined.

Lemma runAll_keeps_room trace db id room :
  findByRoomId db id = Some room →
  ∃ room', findByRoomId (runAll trace db) id = Some room' ∧ sameIdentity room room'.
Proof.
  intros Hfind. pose proof (runAll_history trace db id) as H.
  unfold findByRoomId in *. rewrite Hfind in H.
  destruct H as (room' & E & Hsteps). exists room'. split; [done|].
  by apply rtc_guardedStep_sameIdentity.
Qed.

(** No handler removes a room document or rewrites what identifies it:
    whatever events follow, a room that is in the store stays in the store
    with the same id, title, description, admin, category, tags,
    visibility, capacity, start time and creator. *)
Theorem room_identity_is_kept trace db id room :
  findByRoomId db id = Some room →
  ∃ room', findByRoomId (runAll trace db) id = Some room' ∧ sameIdentity room room'.
Proof. apply runAll_keeps_room. Qed.

Lemma room_identity_is_kept_witness :
  ∃ room',
    findByRoomId (runAll Scenario.trace (storeOf Scenario.r1Created)) "R1"
    = Some room' ∧
    Room.admin room' = Scenario.alice.
Proof.
  destruct (room_identity_is_kept Scenario.trace (storeOf Scenario.r1Created)
              "R1"
              (newRoomData (mkEnv 1000 "room_1000_k3j9x0q2a")
                 (sessionOf Scenario.aliceAuthenticated) "R1" Scenario.roomR1))
    as (room' & Hfind & Hsame).
  - vm_compute. reflexivity.
  - exists room'. split; [exact Hfind|].
    destruct Hsame as (_ & _ & _ & Hadmin & _). rewrite Hadmin. reflexivity.
Defined.

(** ** The message documents *)

Lemma existsb_id_false (all : list Message.t) (i : string) :
  existsb (fun m' => String.eqb (Message.id m') i) all = false →
  i ∉ (Message.id <$> all).
Proof.
  induction all as [|m all IH]; simpl.
  - intros _. apply not_elem_of_nil.
  - intros [Hm Hall]%orb_false_iff. apply not_elem_of_cons. split; [|auto].
    apply String.eqb_neq in Hm. congruence.
Qed.

(** What a handler run does to the message documents: nothing, or it
    appends the one message of a [sendMessage] that went through. *)
Lemma handle_messages env s db ev :
  let o := handle env s db ev in
  messageDocs (storeOf o) = messageDocs db ∨
  ∃ roomId txt user m,
    ev = SendMessage roomId txt user ∧
    noError o ∧
    messageDocs (storeOf o) = messageDocs db ++ [m] ∧
    m = Message.mk (generatedId env) roomId (Text.trim txt)
          (User.mk (User.uid user) (User.displayName user) (User.username user)
                   (Text.orElse (User.avatar user) ""))
          (socketId s) text_msg false false false (now env) ∧
    validMessage m = true ∧
    (Message.id m ∉ (Message.id <$> messageDocs db)) ∧
    (∃ room, findByRoomId db roomId = Some room
             ∧ isParticipant (User.uid user) room = true).
Proof.
  destruct ev; simpl; try (by left).
  - left. unfold createRoom. repeat (case_match; try done).
  - left. unfold joinRoom. repeat (case_match; try done).
  - unfold sendMessage.
    destruct (Text.falsy text || _); [by left|].
    destruct (findByRoomId db roomId) as [room|] eqn:E; [|by left].
    destruct (isParticipant (User.uid user) room) eqn:Hmem; [|by left]. simpl.
    unfold createMessage.
    destruct (validMessage _) eqn:V; [|by left]. simpl.
    destruct (existsb _ (messageDocs db)) eqn:X; [by left|]. simpl.
    right. eexists roomId, text, user, _.
    split; [done|]. split; [done|]. split; [done|]. split; [done|].
    split; [done|]. split; [by apply existsb_id_false|]. eauto.
  - left. unfold leaveRoom. by destruct (findByRoomId db roomId).
  - left. unfold endStream. repeat (case_match; try done).
  - left. unfold leaveAllRooms.
    assert (∀ l acc,
              messageDocs (storeOf (fold_left (leaveOne env) l acc))
              = messageDocs (storeOf acc)) as Hfold.
    { induction l as [|x l IH]; intros acc; simpl; [done|].
      rewrite IH. destruct acc as [[db0 s0] out]. unfold leaveOne.
      repeat (case_match; try done). }
    specialize (Hfold (rooms s) (db, s, [])).
    by destruct (fold_left _ _ _) as [[db' s'] out].
  - left. unfold disconnect. repeat (case_match; try done).
Qed.

Lemma history_keeps_rooms db db' id :
  history db db' → is_Some (findByRoomId db id) → is_Some (findByRoomId db' id).
Proof.
  intros H [r Hr]. specialize (H id). unfold findByRoomId in *.
  rewrite Hr in H. destruct H as (r' & -> & _). eauto.
Qed.

Lemma handle_messagesSound env s db ev :
  messagesSound db → messagesSound (storeOf (handle env s db ev)).
Proof.
  intros [Hnodup Hall].
  pose proof (handle_history env s db ev) as Hhist.
  destruct (handle_messages env s db ev)
    as [Hsame|(roomId & txt & user & m & _ & _ & Happ & Hm & Hvalid & Hfresh
               & room & Hroom & _)].
  - split; rewrite Hsame; [done|].
    intros m Hm. destruct (Hall m Hm) as (? & ? & ? & ? & ? & ?).
    repeat split; try done. by eapply history_keeps_rooms.
  - split; rewrite Happ.
    + rewrite fmap_app. apply NoDup_app. split; [done|]. split.
      * intros i Hi [->|[]%elem_of_nil]%elem_of_cons. done.
      * apply NoDup_singleton.
    + intros m' [Hm'|[->|[]%elem_of_nil]%elem_of_cons]%elem_of_app.
      * destruct (Hall m' Hm') as (? & ? & ? & ? & ? & ?).
        repeat split; try done. by eapply history_keeps_rooms.
      * split; [done|]. rewrite Hm. simpl.
        split; [apply trim_idempotent|].
        repeat split. eapply history_keeps_rooms; [done|].
        rewrite Hroom. eauto.
Qed.

(** In every store the engine reaches, the message documents have distinct
    ids, and each of them has a text that is not empty, is trimmed and is
    at most 1000 characters long, names its author, is a plain text
    message that was neither edited nor deleted, and belongs to a room
    that is in the store. *)
Theorem stored_messages_are_sound trace :
  messagesSound (runAll trace emptyStore).
Proof.
  assert (∀ trace db, messagesSound db → messagesSound (runAll trace db)) as H.
  { clear trace. unfold runAll.
    induction trace as [|[[env s] ev] trace IH]; intros db Hdb; simpl; [done|].
    apply IH. by apply handle_messagesSound. }
  apply H. split; [constructor|]. intros m []%elem_of_nil.
Qed.

(** The message documents only grow: whatever events follow, the messages
    that are stored stay stored, unchanged and in their order, and new
    ones come after them. *)
Theorem messages_are_append_only trace db :
  messageDocs db `prefix_of` messageDocs (runAll trace db).
Proof.
  unfold runAll. revert db.
  induction trace as [|[[env s] ev] trace IH]; intros db; simpl; [done|].
  etransitivity; [|apply IH].
  destruct (handle_messages env s db ev)
    as [->|(? & ? & ? & m & _ & _ & -> & _)]; [done|].
  by apply prefix_app_r.
Qed.

(** ** Sending: what is refused and what a message changes *)

Lemma blank_test txt :
  Text.trim txt = "" →
  Text.falsy txt || (String.length (Text.trim txt) =? 0)%nat = true.
Proof. intros ->. simpl. apply orb_true_r. Qed.

(** A text that is empty or white space only is refused with
    [EMPTY_MESSAGE] before the room is even looked up: nothing is stored
    and nothing is broadcast, whatever the room and the sender. *)
Theorem blank_message_is_refused env s db roomId txt user :
  Forall (fun c => Text.isSpace c = true) (Text.chars txt) →
  rejected "EMPTY_MESSAGE" db s (sendMessage env s db roomId txt user).
Proof.
  intros Hblank%trim_blank. unfold sendMessage.
  rewrite (blank_test _ Hblank). repeat split. eauto.
Qed.

Lemma blank_message_is_refused_witness :
  rejected "EMPTY_MESSAGE" emptyStore (connect "sock-B")
    (sendMessage (mkEnv 1 "msg_1_a") (connect "sock-B") emptyStore "nowhere"
       "   " Scenario.bob).
Proof.
  apply blank_message_is_refused. simpl.
  repeat constructor.
Defined.

(** Somebody who is not listed in the room's participants cannot write to
    it: the send reports an error, stores no message, changes no room and
    broadcasts nothing. *)
Theorem stranger_cannot_send env s db roomId txt user room :
  findByRoomId db roomId = Some room →
  isParticipant (User.uid user) room = false →
  let o := sendMessage env s db roomId txt user in
  storeOf o = db ∧ broadcastsMessage o = false ∧
  (rejected "EMPTY_MESSAGE" db s o ∨ rejected "NOT_IN_ROOM" db s o).
Proof.
  intros Hfind Hmem. simpl. unfold sendMessage.
  destruct (Text.falsy txt || _).
  - split; [done|]. split; [done|]. left. repeat split. eauto.
  - rewrite Hfind, Hmem. simpl.
    split; [done|]. split; [done|]. right. repeat split. eauto.
Qed.

Lemma stranger_cannot_send_witness :
  storeOf (sendMessage (mkEnv 2700 "msg_2700_q") (connect "sock-C")
             (storeOf Scenario.bobJoined) "R1" "let me in" Scenario.carol)
  = storeOf Scenario.bobJoined.
Proof.
  apply (stranger_cannot_send (mkEnv 2700 "msg_2700_q") (connect "sock-C")
           (storeOf Scenario.bobJoined) "R1" "let me in" Scenario.carol
           (Room.addParticipant 2000
              (Participant.mk "B" "Bob" "bob" "" 2000 "sock-B")
              (newRoomData (mkEnv 1000 "room_1000_k3j9x0q2a")
                 (sessionOf Scenario.aliceAuthenticated) "R1" Scenario.roomR1))).
  - vm_compute. reflexivity.
  - vm_compute. reflexivity.
Defined.

(** A send that goes through stores exactly one new message, with the
    trimmed text, the sender's identity and the time of the send; it sets
    the room's [lastActivity] and changes nothing else in that room, no
    other room and not the connection; and its one event is the
    "newMessage" broadcast of that message to that room. *)
Theorem sendMessage_effect env s db roomId txt user :
  let o := sendMessage env s db roomId txt user in
  noError o →
  ∃ room m,
    findByRoomId db roomId = Some room ∧
    isParticipant (User.uid user) room = true ∧
    messageDocs (storeOf o) = messageDocs db ++ [m] ∧
    Message.text m = Text.trim txt ∧ Message.text m ≠ "" ∧
    Message.roomId m = roomId ∧
    User.uid (Message.user m) = User.uid user ∧
    Message.createdAt m = now env ∧
    findByRoomId (storeOf o) roomId
    = Some (Room.with_lastActivity (now env) room) ∧
    (∀ other, other ≠ roomId →
       findByRoomId (storeOf o) other = findByRoomId db other) ∧
    sessionOf o = s ∧
    emitsOf o = [mkEmit (ToRoom roomId) "newMessage" (PMessage m)].
Proof.
  simpl. unfold sendMessage, noError.
  destruct (Text.falsy txt || _) eqn:Hblank; [done|].
  destruct (findByRoomId db roomId) as [room|] eqn:E; [|done].
  destruct (isParticipant (User.uid user) room) eqn:Hmem; [|done]. simpl.
  unfold createMessage.
  destruct (validMessage _) eqn:V; [|done]. simpl.
  destruct (existsb _ (messageDocs db)) eqn:X; [done|]. simpl.
  intros _. eexists room, _.
  split; [done|]. split; [done|]. split; [done|]. simpl.
  split; [done|]. split.
  { intros Hempty. by rewrite (blank_test _ Hempty) in Hblank. }
  repeat split.
  - unfold findByRoomId. simpl. apply lookup_insert_eq.
  - intros other Hne. unfold findByRoomId. simpl. by apply lookup_insert_ne.
Qed.

Lemma sendMessage_effect_witness :
  ∃ m,
    messageDocs (storeOf Scenario.bobSaidHi)
    = messageDocs (storeOf Scenario.carolTurnedAway) ++ [m] ∧
    Message.text m = "hi".
Proof.
  destruct (sendMessage_effect (mkEnv 3000 "msg_3000_p0o9i8u7y")
              (sessionOf Scenario.bobJoined) (storeOf Scenario.carolTurnedAway)
              "R1" "hi" Scenario.bob)
    as (room & m & _ & _ & Hdocs & Htext & _).
  - vm_compute. reflexivity.
  - exists m. split; [exact Hdocs|]. rewrite Htext. reflexivity.
Defined.

(** ** Joining and leaving again *)

Lemma filter_others_snoc uid ps (p : Participant.t) :
  Participant.uid p = uid →
  existsb (fun q => String.eqb (Participant.uid q) uid) ps = false →
  List.filter (fun q => negb (String.eqb (Participant.uid q) uid)) (ps ++ [p])
  = ps.
Proof.
  intros Hp Habsent. rewrite List.filter_app, (filter_absent _ _ Habsent).
  simpl. rewrite Hp, String.eqb_refl. simpl. apply app_nil_r.
Qed.

Lemma joinRoom_session env s db roomId user :
  noError (joinRoom env s db roomId user) →
  currentRoom (sessionOf (joinRoom env s db roomId user)) = Some roomId ∧
  currentUser (sessionOf (joinRoom env s db roomId user)) = Some user ∧
  socketId (sessionOf (joinRoom env s db roomId user)) = socketId s.
Proof.
  unfold noError, joinRoom. repeat (case_match; try done).
Qed.

(** A user who was not a member joins, and then leaves or loses the
    connection: the participants list and the count of the room are again
    what they were before the join. *)
Theorem join_then_leave_restores env1 env2 s s2 db roomId user room :
  findByRoomId db roomId = Some room →
  isParticipant (User.uid user) room = false →
  countInSync room →
  let j := joinRoom env1 s db roomId user in
  noError j →
  (∃ room',
     findByRoomId (storeOf (leaveRoom env2 s2 (storeOf j) roomId user)) roomId
     = Some room' ∧
     Room.participants room' = Room.participants room ∧
     Room.currentParticipants room' = Room.currentParticipants room) ∧
  (roomId ≠ "" →
   ∃ room',
     findByRoomId (storeOf (disconnect env2 (sessionOf j) (storeOf j))) roomId
     = Some room' ∧
     Room.participants room' = Room.participants room ∧
     Room.currentParticipants room' = Room.currentParticipants room).
Proof.
  intros Hfind Hmem Hsync. simpl. intros Hok.
  destruct (joinRoom_session _ _ _ _ _ Hok) as (Hcr & Hcu & _).
  apply joinRoom_noError in Hok
    as (room0 & room1 & Hfind0 & Hopen & Hspace & Henrol & Hstore).
  rewrite Hfind in Hfind0. injection Hfind0 as <-.
  assert (Room.findParticipant (User.uid user) room = None) as Hnone.
  { destruct (Room.findParticipant (User.uid user) room) eqn:E; [|done].
    assert (isParticipant (User.uid user) room = true)
      by (apply isParticipant_find; eauto). congruence. }
  unfold enrol in Henrol. rewrite Hnone in Henrol.
  destruct (validParticipant _); [|done]. injection Henrol as <-.
  set (p := Participant.mk _ _ _ _ _ _) in *.
  assert (∀ t,
    Room.participants
      (Room.removeParticipant t (User.uid user)
         (Room.addParticipant (now env1) p room))
    = Room.participants room) as Hback.
  { intros t. unfold Room.addParticipant. simpl. rewrite Hnone. simpl.
    by apply filter_others_snoc. }
  assert (∀ t,
    Room.currentParticipants
      (Room.removeParticipant t (User.uid user)
         (Room.addParticipant (now env1) p room))
    = Room.currentParticipants room) as Hcount.
  { intros t. rewrite Hsync.
    change (Room.currentParticipants (Room.removeParticipant t ?u ?r))
      with (Z.of_nat (length (Room.participants (Room.removeParticipant t u r)))).
    by rewrite Hback. }
  split.
  - rewrite leaveRoom_lookup, decide_True, Hstore by done.
    unfold findByRoomId at 1. simpl. rewrite lookup_insert_eq. simpl.
    eexists. split; [done|]. split; [apply Hback|apply Hcount].
  - intros Hne. rewrite disconnect_lookup, Hcr, Hcu.
    assert (Text.falsy roomId = false) as -> by (by destruct roomId).
    simpl. rewrite bool_decide_eq_true_2 by done. rewrite Hstore.
    unfold findByRoomId at 1. simpl. rewrite lookup_insert_eq. simpl.
    eexists. split; [done|]. split; [apply Hback|apply Hcount].
Qed.

Lemma join_then_leave_restores_witness :
  ∃ room',
    findByRoomId
      (storeOf (leaveRoom (mkEnv 2100 "") (sessionOf Scenario.bobJoined)
                  (storeOf Scenario.bobJoined) "R1" Scenario.bob)) "R1"
    = Some room' ∧
    (Participant.uid <$> Room.participants room') = ["A"].
Proof.
  destruct (join_then_leave_restores (mkEnv 2000 "") (mkEnv 2100 "")
              (connect "sock-B") (sessionOf Scenario.bobJoined)
              (storeOf Scenario.r1Created) "R1" Scenario.bob
              (newRoomData (mkEnv 1000 "room_1000_k3j9x0q2a")
                 (sessionOf Scenario.aliceAuthenticated) "R1" Scenario.roomR1))
    as [(room' & Hfind & Hps & _) _].
  - vm_compute. reflexivity.
  - vm_compute. reflexivity.
  - vm_compute. reflexivity.
  - vm_compute. reflexivity.
  - exists room'. split; [exact Hfind|]. rewrite Hps. reflexivity.
Defined.

(** A user whose identity lacks the uid, the display name or the username
    cannot be added to a room: in a live room with space, the join of such
    a user who is not yet a member fails with [ROOM_JOIN_ERROR] and leaves
    the store as it was. *)
Theorem join_without_identity_fails env s db roomId user room :
  findByRoomId db roomId = Some room →
  isOpen room = true →
  (inject_Z (Room.currentParticipants room) < Room.maxParticipants room)%Q →
  isParticipant (User.uid user) room = false →
  validIdentity user = false →
  rejected "ROOM_JOIN_ERROR" db s (joinRoom env s db roomId user).
Proof.
  unfold isOpen, joinRoom. intros -> Hopen Hspace Hmem Hbad.
  apply andb_true_iff in Hopen as [-> ->]. simpl.
  apply atLeast_false in Hspace. rewrite Hspace.
  unfold enrol.
  destruct (Room.findParticipant (User.uid user) room) eqn:E.
  { assert (isParticipant (User.uid user) room = true)
      by (apply isParticipant_find; eauto). congruence. }
  unfold validParticipant. simpl. unfold validIdentity in Hbad. rewrite Hbad.
  repeat split. eauto.
Qed.

Lemma join_without_identity_fails_witness :
  rejected "ROOM_JOIN_ERROR" (storeOf Scenario.r1Created) (connect "sock-D")
    (joinRoom (mkEnv 2000 "") (connect "sock-D") (storeOf Scenario.r1Created)
       "R1" (User.mk "D" "" "dora" "")).
Proof.
  apply (join_without_identity_fails (mkEnv 2000 "") (connect "sock-D")
           (storeOf Scenario.r1Created) "R1" (User.mk "D" "" "dora" "")
           (newRoomData (mkEnv 1000 "room_1000_k3j9x0q2a")
              (sessionOf Scenario.aliceAuthenticated) "R1" Scenario.roomR1)).
  - vm_compute. reflexivity.
  - vm_compute. reflexivity.
  - vm_compute. reflexivity.
  - vm_compute. reflexivity.
  - vm_compute. reflexivity.
Defined.

(** ** Creating rooms *)

(** A room id is used once: as soon as a room is stored under an id, and
    whatever events follow, every [createRoom] that asks for that id, or
    whose generated id happens to be that id, is refused with
    [ROOM_ID_EXISTS] and changes nothing. *)
Theorem room_id_is_never_reused trace db roomId room env s d :
  findByRoomId db roomId = Some room →
  Text.orElse (RoomData.id d) (generatedId env) = roomId →
  let later := runAll trace db in
  rejected "ROOM_ID_EXISTS" later s (createRoom env s later d).
Proof.
  intros Hfind Hid. simpl.
  destruct (runAll_keeps_room trace db roomId room Hfind) as (room' & Hlater & _).
  unfold createRoom. rewrite Hid, Hlater. repeat split. eauto.
Qed.

Lemma room_id_is_never_reused_witness :
  rejected "ROOM_ID_EXISTS" (runAll Scenario.trace (storeOf Scenario.r1Created))
    (connect "sock-C")
    (createRoom (mkEnv 9000 "room_9000_zzz") (connect "sock-C")
       (runAll Scenario.trace (storeOf Scenario.r1Created))
       (RoomData.mk "R1" "Another party" "" Scenario.carol "" [] None None)).
Proof.
  apply (room_id_is_never_reused Scenario.trace (storeOf Scenario.r1Created)
           "R1"
           (newRoomData (mkEnv 1000 "room_1000_k3j9x0q2a")
              (sessionOf Scenario.aliceAuthenticated) "R1" Scenario.roomR1)).
  - vm_compute. reflexivity.
  - vm_compute. reflexivity.
Defined.

Lemma createRoom_noError env s db d :
  noError (createRoom env s db d) →
  let roomId := Text.orElse (RoomData.id d) (generatedId env) in
  findByRoomId db roomId = None ∧
  storeOf (createRoom env s db d)
  = saveRoom roomId (newRoomData env s roomId d) db ∧
  sessionOf (createRoom env s db d)
  = setCurrentRoom (Some roomId) (socketJoin roomId s).
Proof.
  unfold noError, createRoom. simpl.
  destruct (findByRoomId db _); [done|].
  destruct (validRoom _); done.
Qed.

(** ** Who may end a stream *)

(** [createRoom] does not record who the connection is: a creator whose
    connection has neither authenticated nor joined a room is refused with
    [UNAUTHORIZED] when ending the stream of the room just created. *)
Theorem creator_must_identify_first env env' s db d :
  currentUser s = None →
  let c := createRoom env s db d in
  noError c →
  let roomId := Text.orElse (RoomData.id d) (generatedId env) in
  rejected "UNAUTHORIZED" (storeOf c) (sessionOf c)
    (endStream env' (sessionOf c) (storeOf c) roomId).
Proof.
  intros Hnobody. simpl. intros (Hfresh & Hstore & Hsession)%createRoom_noError.
  simpl in *. rewrite Hstore, Hsession. unfold endStream, findByRoomId. simpl.
  rewrite lookup_insert_eq, Hnobody. simpl. repeat split. eauto.
Qed.

Lemma creator_must_identify_first_witness :
  ∃ message,
    emitsOf
      (endStream (mkEnv 1100 "")
         (sessionOf (createRoom (mkEnv 1000 "room_1000_k3j9x0q2a")
                       (connect "sock-A") emptyStore Scenario.roomR1))
         (storeOf (createRoom (mkEnv 1000 "room_1000_k3j9x0q2a")
                     (connect "sock-A") emptyStore Scenario.roomR1))
         "R1")
    = [emitError message "UNAUTHORIZED"].
Proof.
  destruct (creator_must_identify_first (mkEnv 1000 "room_1000_k3j9x0q2a")
              (mkEnv 1100 "") (connect "sock-A") emptyStore Scenario.roomR1)
    as (_ & _ & Hemit).
  - reflexivity.
  - vm_compute. reflexivity.
  - exact Hemit.
Defined.

(** The right to end a stream rests on the uid a connection states: any
    connection that authenticates with the uid of the room's admin ends
    the stream, whoever created the room. *)
Theorem stating_the_admin_uid_suffices env s db roomId room userData :
  findByRoomId db roomId = Some room →
  User.uid userData = User.uid (Room.admin room) →
  let a := authenticate s db userData in
  let o := endStream env (sessionOf a) (storeOf a) roomId in
  noError o ∧
  ∃ room', findByRoomId (storeOf o) roomId = Some room' ∧ isEnded room'.
Proof.
  intros Hfind Huid. simpl. unfold endStream.
  change (storeOf (authenticate s db userData)) with db.
  change (currentUser (sessionOf (authenticate s db userData)))
    with (Some userData).
  rewrite Hfind. unfold notAdmin. rewrite Huid, String.eqb_refl. simpl.
  split; [done|]. eexists. split.
  - unfold findByRoomId. simpl. apply lookup_insert_eq.
  - by split.
Qed.

Lemma stating_the_admin_uid_suffices_witness :
  ∃ room',
    findByRoomId
      (storeOf (endStream (mkEnv 2200 "")
                  (sessionOf (authenticate (connect "sock-M")
                                (storeOf Scenario.bobJoined)
                                (User.mk "A" "Mallory" "mallory" "")))
                  (storeOf Scenario.bobJoined) "R1")) "R1"
    = Some room' ∧ isEnded room'.
Proof.
  destruct (stating_the_admin_uid_suffices (mkEnv 2200 "") (connect "sock-M")
              (storeOf Scenario.bobJoined) "R1"
              (Room.addParticipant 2000
                 (Participant.mk "B" "Bob" "bob" "" 2000 "sock-B")
                 (newRoomData (mkEnv 1000 "room_1000_k3j9x0q2a")
                    (sessionOf Scenario.aliceAuthenticated) "R1" Scenario.roomR1))
              (User.mk "A" "Mallory" "mallory" ""))
    as (_ & room' & Hfind & Hended).
  - vm_compute. reflexivity.
  - vm_compute. reflexivity.
  - exists room'. split; [exact Hfind|exact Hended].
Defined.

(** Ending a stream is not guarded by the status: the admin's [endStream]
    on a room that is already ended goes through again and overwrites
    [endedAt] with the new time. *)
Theorem endStream_again_restamps env s db roomId room :
  findByRoomId db roomId = Some room →
  isEnded room →
  notAdmin room (currentUser s) = false →
  let o := endStream env s db roomId in
  noError o ∧
  ∃ room',
    findByRoomId (storeOf o) roomId = Some room' ∧
    isEnded room' ∧ Room.endedAt room' = Some (now env).
Proof.
  intros Hfind _ Hadmin. simpl. unfold endStream. rewrite Hfind, Hadmin.
  split; [done|]. eexists. split.
  - unfold findByRoomId. simpl. apply lookup_insert_eq.
  - by repeat split.
Qed.

Lemma endStream_again_restamps_witness :
  ∃ room',
    findByRoomId
      (storeOf (endStream (mkEnv 7777 "") (sessionOf Scenario.r1Created)
                  (storeOf Scenario.streamEnded) "R1")) "R1"
    = Some room' ∧ Room.endedAt room' = Some 7777.
Proof.
  destruct (endStream_again_restamps (mkEnv 7777 "")
              (sessionOf Scenario.r1Created) (storeOf Scenario.streamEnded) "R1"
              (Room.with_endedAt (Some 4000)
                 (Room.with_status ended
                    (Room.with_isLive false
                       (Room.with_lastActivity 3000
                          (Room.addParticipant 2000
                             (Participant.mk "B" "Bob" "bob" "" 2000 "sock-B")
                             (newRoomData (mkEnv 1000 "room_1000_k3j9x0q2a")
                                (sessionOf Scenario.aliceAuthenticated) "R1"
                                Scenario.roomR1)))))))
    as (_ & room' & Hfind & _ & Hstamp).
  - vm_compute. reflexivity.
  - split; vm_compute; reflexivity.
  - vm_compute. reflexivity.
  - exists room'. split; [exact Hfind|exact Hstamp].
Defined.

(** ** Leaving all rooms *)

Lemma leaveOne_session env acc x :
  socketId (sessionOf (leaveOne env acc x)) = socketId (sessionOf acc) ∧
  currentUser (sessionOf (leaveOne env acc x)) = currentUser (sessionOf acc) ∧
  (∀ r, r ∈ rooms (sessionOf (leaveOne env acc x)) →
        r ∈ rooms (sessionOf acc) ∧ (r = x → r = socketId (sessionOf acc))).
Proof.
  destruct acc as [[db s] out]. unfold leaveOne.
  destruct (String.eqb x (socketId s)) eqn:Ex.
  - apply String.eqb_eq in Ex. simpl. split; [done|]. split; [done|].
    intros r Hr. split; [done|]. intros ->. exact Ex.
  - assert (∀ r, r ∈ rooms (socketLeave x s) → r ∈ rooms s ∧ (r = x → r = socketId s))
      as Hleft.
    { intros r Hr. simpl in Hr. apply list_elem_of_In, filter_In in Hr as [Hr Hne].
      apply negb_true_iff, String.eqb_neq in Hne.
      split; [by apply list_elem_of_In|done]. }
    destruct (findByRoomId db x), (currentUser s); simpl; repeat split;
      try done; apply Hleft; done.
Qed.

Lemma leaveOne_absent env acc x uid roomId :
  currentUser (sessionOf acc) = Some uid →
  (∀ room, findByRoomId (storeOf acc) roomId = Some room →
           isParticipant (User.uid uid) room = false) →
  ∀ room, findByRoomId (storeOf (leaveOne env acc x)) roomId = Some room →
          isParticipant (User.uid uid) room = false.
Proof.
  destruct acc as [[db s] out]. unfold leaveOne. intros Hu Hold.
  change (currentUser s = Some uid) in Hu.
  change (storeOf (db, s, out)) with db in Hold.
  destruct (String.eqb x (socketId s)); [done|]. rewrite Hu.
  destruct (findByRoomId db x) as [rx|] eqn:Ex; [|done]. simpl.
  intros room. unfold findByRoomId. simpl.
  destruct (decide (roomId = x)) as [->|Hne].
  - rewrite lookup_insert_eq. intros [= <-]. apply removed_absent.
  - rewrite lookup_insert_ne by done. apply Hold.
Qed.

Lemma leaveOne_leaves env acc x uid :
  currentUser (sessionOf acc) = Some uid →
  x ≠ socketId (sessionOf acc) →
  ∀ room, findByRoomId (storeOf (leaveOne env acc x)) x = Some room →
          isParticipant (User.uid uid) room = false.
Proof.
  destruct acc as [[db s] out]. unfold leaveOne. intros Hu Hne.
  change (currentUser s = Some uid) in Hu.
  change (x ≠ socketId s) in Hne.
  apply String.eqb_neq in Hne. rewrite Hne, Hu.
  destruct (findByRoomId db x) as [rx|] eqn:Ex; simpl.
  - intros room. unfold findByRoomId. simpl. rewrite lookup_insert_eq.
    intros [= <-]. apply removed_absent.
  - intros room. change (storeOf (db, socketLeave x s, out)) with db.
    congruence.
Qed.

Lemma leaveAll_fold env uid l :
  ∀ acc,
    currentUser (sessionOf acc) = Some uid →
    let final := fold_left (leaveOne env) l acc in
    socketId (sessionOf final) = socketId (sessionOf acc) ∧
    (∀ r, r ∈ rooms (sessionOf final) →
          r ∈ rooms (sessionOf acc) ∧ (r ∈ l → r = socketId (sessionOf acc))) ∧
    (∀ roomId room,
       findByRoomId (storeOf final) roomId = Some room →
       (roomId ∈ l ∧ roomId ≠ socketId (sessionOf acc)) ∨
       (∀ room0, findByRoomId (storeOf acc) roomId = Some room0 →
                 isParticipant (User.uid uid) room0 = false) →
       isParticipant (User.uid uid) room = false).
Proof.
  induction l as [|x l IH]; intros acc Hu; simpl.
  - split; [done|]. split.
    + intros r Hr. split; [done|]. by intros []%elem_of_nil.
    + intros roomId room Hroom [[[]%elem_of_nil _]|Hold]. by apply Hold.
  - destruct (leaveOne_session env acc x) as (Hsid & Hcu & Hrooms).
    destruct (IH (leaveOne env acc x)) as (Hsid' & Hrooms' & Hgone).
    { by rewrite Hcu. }
    simpl in *. split; [congruence|]. split.
    + intros r Hr. destruct (Hrooms' r Hr) as [Hr1 Hl].
      destruct (Hrooms r Hr1) as [Hr0 Hx]. split; [done|].
      intros [->|Hin]%elem_of_cons; [by apply Hx|].
      rewrite <- Hsid. by apply Hl.
    + intros roomId room Hroom Hcase. apply (Hgone roomId room Hroom).
      rewrite Hsid.
      destruct Hcase as [[[->|Hin]%elem_of_cons Hne]|Hold].
      * right. by apply leaveOne_leaves.
      * left. done.
      * right. by apply leaveOne_absent.
Qed.

(** [leaveAllRooms] takes the current user out of every room the socket
    had joined: afterwards the user is a participant of none of them, the
    socket is in no room but its own, the connection has no current room,
    and no error is reported. *)
Theorem leaveAllRooms_leaves_them_all env s db u :
  currentUser s = Some u →
  let o := leaveAllRooms env s db in
  noError o ∧
  currentRoom (sessionOf o) = None ∧
  (∀ r, r ∈ rooms (sessionOf o) → r = socketId s) ∧
  (∀ roomId room,
     roomId ∈ rooms s → roomId ≠ socketId s →
     findByRoomId (storeOf o) roomId = Some room →
     isParticipant (User.uid u) room = false).
Proof.
  intros Hu. simpl. unfold leaveAllRooms.
  pose proof (leaveAll_fold env u (rooms s) (db, s, []) Hu) as (Hsid & Hrooms & Hgone).
  assert (existsb isError (emitsOf (fold_left (leaveOne env) (rooms s) (db, s, [])))
          = false) as Hquiet.
  { assert (∀ l acc, existsb isError (emitsOf acc) = false →
              existsb isError (emitsOf (fold_left (leaveOne env) l acc)) = false)
      as Hfold.
    { induction l as [|x l IH]; intros acc Hacc; simpl; [done|].
      apply IH. destruct acc as [[db0 s0] out]. unfold leaveOne.
      repeat (case_match; try done).
      unfold emitsOf in *. simpl in *. rewrite existsb_app, Hacc. done. }
    by apply Hfold. }
  destruct (fold_left _ _ _) as [[db' s'] out]. simpl in *.
  split; [exact Hquiet|]. split; [done|]. split.
  - intros r Hr. destruct (Hrooms r Hr) as [Hin Hsame]. by apply Hsame.
  - intros roomId room Hin Hne Hroom. apply (Hgone roomId room Hroom). by left.
Qed.

Lemma leaveAllRooms_leaves_them_all_witness :
  Forall (fun r => r = "sock-B")
    (rooms (sessionOf (leaveAllRooms (mkEnv 2300 "")
                         (sessionOf Scenario.bobJoined)
                         (storeOf Scenario.bobJoined)))).
Proof.
  apply Forall_forall.
  destruct (leaveAllRooms_leaves_them_all (mkEnv 2300 "")
              (sessionOf Scenario.bobJoined) (storeOf Scenario.bobJoined)
              Scenario.bob)
    as (_ & _ & Hrooms & _).
  - vm_compute. reflexivity.
  - exact Hrooms.
Defined.

(** ** Sorted listings *)

#[global] Instance moreRecentActivity_total : Total moreRecentActivity.
Proof. intros a b. unfold moreRecentActivity. lia. Qed.

#[global] Instance moreRecentActivity_trans : Transitive moreRecentActivity.
Proof. intros a b c. unfold moreRecentActivity. lia. Qed.

(** An element of a sorted list is among the first [n], or the first [n]
    are [n] elements that all come before it. *)
Lemma top_of_sorted {A} (R : relation A) (l : list A) n x :
  StronglySorted R l → x ∈ l →
  x ∈ take n l ∨ (length (take n l) = n ∧ ∀ y, y ∈ take n l → R y x).
Proof.
  intros Hsorted Hx. rewrite <- (take_drop n l) in Hsorted, Hx.
  apply elem_of_app in Hx as [Hx|Hx]; [by left|]. right. split.
  - rewrite length_take. destruct (decide (n ≤ length l)%nat); [lia|].
    rewrite drop_ge in Hx by lia. by apply elem_of_nil in Hx.
  - intros y Hy. by eapply StronglySorted_app_1_elem_of.
Qed.

Lemma StronglySorted_rev {A} (R : relation A) (l : list A) :
  StronglySorted R l → StronglySorted (flip R) (rev l).
Proof.
  induction 1 as [|x l Hl IH Hx]; simpl; [constructor|].
  apply StronglySorted_app_2; [|done|repeat constructor].
  intros y z Hy [->|[]%elem_of_nil]%elem_of_cons. unfold flip.
  rewrite Forall_forall in Hx. apply Hx.
  by apply list_elem_of_In, in_rev, list_elem_of_In.
Qed.

Lemma elem_of_filter_bool {A} (f : A → bool) (l : list A) x :
  x ∈ List.filter f l ↔ x ∈ l ∧ f x = true.
Proof. rewrite !list_elem_of_In. apply filter_In. Qed.

Lemma elem_of_take_elem {A} (l : list A) n x : x ∈ take n l → x ∈ l.
Proof. apply subseteq_take. Qed.

Lemma findActiveRooms_spec db :
  let l := findActiveRooms db in
  (length l ≤ 50)%nat ∧
  StronglySorted moreRecentActivity l ∧
  (∀ r, r ∈ l → isOpen r = true ∧ ∃ id, findByRoomId db id = Some r) ∧
  (∀ id r,
     findByRoomId db id = Some r → isOpen r = true →
     r ∈ l ∨
     (length l = 50%nat ∧
      ∀ r', r' ∈ l → Room.lastActivity r ≤ Room.lastActivity r')).
Proof.
  simpl. unfold findActiveRooms.
  set (live := List.filter _ _).
  assert (∀ r, r ∈ live ↔ isOpen r = true ∧ ∃ id, findByRoomId db id = Some r)
    as Hlive.
  { intros r. unfold live. rewrite elem_of_filter_bool, list_elem_of_fmap.
    unfold isOpen, findByRoomId. split.
    - intros [([id r'] & -> & Hin%elem_of_map_to_list) Hopen]. eauto.
    - intros [Hopen [id Hid]]. split; [|done].
      exists (id, r). split; [done|]. by apply elem_of_map_to_list. }
  assert (StronglySorted moreRecentActivity (merge_sort moreRecentActivity live))
    as Hsorted by (apply StronglySorted_merge_sort; apply _).
  split; [rewrite length_take; lia|]. split.
  { rewrite <- (take_drop 50 (merge_sort _ live)) in Hsorted.
    by apply StronglySorted_app_1_l in Hsorted. }
  split.
  - intros r Hr%elem_of_take_elem. rewrite merge_sort_Permutation in Hr.
    by apply Hlive.
  - intros id r Hid Hopen.
    apply (top_of_sorted moreRecentActivity _ 50 r Hsorted).
    rewrite merge_sort_Permutation. apply Hlive. eauto.
Qed.

(** [findActiveRooms] lists at most 50 rooms, the most recently active
    first; every listed room is a stored room that is live, and a live
    room is left out only when 50 rooms with at least as recent an
    activity are listed. *)
Theorem findActiveRooms_lists_the_latest_live db :
  let l := findActiveRooms db in
  (length l ≤ 50)%nat ∧
  StronglySorted moreRecentActivity l ∧
  (∀ r, r ∈ l → isOpen r = true ∧ ∃ id, findByRoomId db id = Some r) ∧
  (∀ id r,
     findByRoomId db id = Some r → isOpen r = true →
     r ∈ l ∨
     (length l = 50%nat ∧
      ∀ r', r' ∈ l → Room.lastActivity r ≤ Room.lastActivity r')).
Proof. exact (findActiveRooms_spec db). Qed.

Lemma findActiveRooms_lists_the_latest_live_witness :
  Forall (fun r => isOpen r = true)
    (findActiveRooms (storeOf Scenario.bobJoined)).
Proof.
  apply Forall_forall. intros r Hr.
  destruct (findActiveRooms_lists_the_latest_live (storeOf Scenario.bobJoined))
    as (_ & _ & Hopen & _).
  by apply Hopen.
Defined.

Lemma reached_room_id trace id room :
  findByRoomId (runAll trace emptyStore) id = Some room →
  Room.id room = id ∧ statusCoherent room.
Proof.
  intros (r0 & Hborn & Hsteps)%runAll_birth.
  apply bornAt_facts in Hborn as (Hid & Hst & _). split.
  - apply rtc_guardedStep_sameIdentity in Hsteps as (Hsame & _). congruence.
  - exact (rtc_guardedStep_preserves _ guardedStep_statusCoherent _ _ Hsteps Hst).
Qed.

Lemma runAll_app t1 t2 db : runAll (t1 ++ t2) db = runAll t2 (runAll t1 db).
Proof. unfold runAll. apply fold_left_app. Qed.

(** Once a room is ended, no later list of active rooms names it,
    whatever events follow. *)
Theorem ended_room_is_never_listed_again before after roomId room :
  findByRoomId (runAll before emptyStore) roomId = Some room →
  isEnded room →
  ∀ r, r ∈ findActiveRooms (runAll (before ++ after) emptyStore) →
       Room.id r ≠ roomId.
Proof.
  intros Hfind Hended r Hr Hid.
  destruct (findActiveRooms_spec
              (runAll (before ++ after) emptyStore)) as (_ & _ & Hlisted & _).
  destruct (Hlisted r Hr) as [Hopen [id Hstored]].
  apply reached_room_id in Hstored as Hkey. destruct Hkey as [Hkey _].
  assert (id = roomId) as -> by congruence.
  rewrite runAll_app in Hstored.
  destruct (runAll_keeps_ended after _ roomId room Hfind Hended)
    as (room' & Hlater & _ & Hdead).
  rewrite Hlater in Hstored. injection Hstored as ->.
  unfold isOpen in Hopen. rewrite Hdead in Hopen. done.
Qed.

Lemma ended_room_is_never_listed_again_witness :
  Forall (fun r => Room.id r ≠ "R1")
    (findActiveRooms
       (runAll (Scenario.trace
                ++ [(mkEnv 8000 "", connect "sock-C",
                     JoinRoom "R1" Scenario.carol)]) emptyStore)).
Proof.
  apply Forall_forall.
  eapply (ended_room_is_never_listed_again Scenario.trace).
  - vm_compute. reflexivity.
  - split; vm_compute; reflexivity.
Defined.

(** ** Message queries *)

Lemma sortByCreatedDesc_sorted l :
  StronglySorted Message.newerFirst (Message.sortByCreatedDesc l).
Proof. apply StronglySorted_merge_sort; apply _. Qed.

Lemma sortByCreatedDesc_elem l m : m ∈ Message.sortByCreatedDesc l ↔ m ∈ l.
Proof. unfold Message.sortByCreatedDesc. by rewrite merge_sort_Permutation. Qed.

Lemma sortByCreatedDesc_length l :
  length (Message.sortByCreatedDesc l) = length l.
Proof.
  unfold Message.sortByCreatedDesc. by rewrite merge_sort_Permutation.
Qed.

Lemma inRoom_spec rid m :
  Message.inRoom rid m = true ↔ Message.roomId m = rid ∧ Message.isDeleted m = false.
Proof.
  unfold Message.inRoom.
  by rewrite andb_true_iff, negb_true_iff, String.eqb_eq.
Qed.

Lemma limit_sorted n l :
  StronglySorted Message.newerFirst l →
  StronglySorted Message.newerFirst (Message.limit n l).
Proof.
  intros H. destruct n; [done|]. simpl Message.limit.
  rewrite <- (take_drop (S n) l) in H. by apply StronglySorted_app_1_l in H.
Qed.

Lemma limit_elem n l m : m ∈ Message.limit n l → m ∈ l.
Proof. destruct n; [done|]. apply subseteq_take. Qed.

Lemma findRecentMessages_spec all rid n :
  (0 < n)%nat →
  let l := Message.findRecentMessages all rid n in
  length l = (n `min` countDocuments all rid)%nat ∧
  StronglySorted Message.newerFirst l ∧
  (∀ m, m ∈ l →
        m ∈ all ∧ Message.roomId m = rid ∧ Message.isDeleted m = false) ∧
  (∀ m, m ∈ all → Message.roomId m = rid → Message.isDeleted m = false →
        m ∈ l ∨
        (length l = n ∧
         ∀ m', m' ∈ l → Message.createdAt m ≤ Message.createdAt m')).
Proof.
  intros Hn. simpl. unfold Message.findRecentMessages, countDocuments.
  destruct n as [|n]; [lia|]. simpl Message.limit.
  split; [by rewrite length_take, sortByCreatedDesc_length|].
  split; [apply (limit_sorted (S n)), sortByCreatedDesc_sorted|]. split.
  - intros m Hm%elem_of_take_elem.
    apply sortByCreatedDesc_elem, elem_of_filter_bool in Hm as [Hin Hroom].
    apply inRoom_spec in Hroom. tauto.
  - intros m Hin Hrid Hdel.
    apply (top_of_sorted Message.newerFirst _ (S n) m (sortByCreatedDesc_sorted _)).
    apply sortByCreatedDesc_elem, elem_of_filter_bool. split; [done|].
    by apply inRoom_spec.
Qed.

(** For a positive limit [n], [findRecentMessages] returns the [n] newest
    messages of the room that are not deleted, newest first: as many as
    there are if fewer than [n], never a deleted message or one of another
    room, and a message is left out only when [n] messages at least as new
    are returned. *)
Theorem findRecentMessages_returns_the_newest all rid n :
  (0 < n)%nat →
  let l := Message.findRecentMessages all rid n in
  length l = (n `min` countDocuments all rid)%nat ∧
  StronglySorted Message.newerFirst l ∧
  (∀ m, m ∈ l →
        m ∈ all ∧ Message.roomId m = rid ∧ Message.isDeleted m = false) ∧
  (∀ m, m ∈ all → Message.roomId m = rid → Message.isDeleted m = false →
        m ∈ l ∨
        (length l = n ∧
         ∀ m', m' ∈ l → Message.createdAt m ≤ Message.createdAt m')).
Proof. apply findRecentMessages_spec. Qed.

Lemma findRecentMessages_returns_the_newest_witness :
  length (Message.findRecentMessages
            (messageDocs (storeOf Scenario.bobWritesAfterEnd)) "R1" 1)
  = 1%nat.
Proof.
  destruct (findRecentMessages_returns_the_newest
              (messageDocs (storeOf Scenario.bobWritesAfterEnd)) "R1" 1)
    as (Hlen & _).
  - lia.
  - rewrite Hlen. vm_compute. reflexivity.
Defined.

(** A user who joins is sent the room's history as one "existingMessages"
    event: at most 50 messages, all of that room and none deleted, the
    oldest first. *)
Theorem join_sends_recent_history_oldest_first env s db roomId user :
  let j := joinRoom env s db roomId user in
  noError j →
  ∃ history,
    mkEmit ToSocket "existingMessages" (PMessages history) ∈ emitsOf j ∧
    (length history ≤ 50)%nat ∧
    StronglySorted (flip Message.newerFirst) history ∧
    ∀ m, m ∈ history →
         m ∈ messageDocs db ∧ Message.roomId m = roomId ∧
         Message.isDeleted m = false.
Proof.
  simpl. intros Hok.
  assert (∃ room',
    emitsOf (joinRoom env s db roomId user)
    = [mkEmit ToSocket "roomUpdated" (PRoom room');
       mkEmit ToSocket "existingMessages"
         (PMessages (rev (Message.findRecentMessages (messageDocs db) roomId 50)));
       mkEmit (ToOthersIn roomId) "userJoined" (PUser user);
       mkEmit (ToOthersIn roomId) "roomUpdated"
         (PMembers roomId (Room.participants room')
                   (Room.currentParticipants room'))]) as [room' Hemits].
  { revert Hok. unfold noError, joinRoom.
    repeat (case_match; try done). intros _. eauto. }
  destruct (findRecentMessages_spec (messageDocs db) roomId 50)
    as (Hlen & Hsorted & Hmem & _); [lia|].
  eexists. split.
  { rewrite Hemits. apply elem_of_cons. right. apply elem_of_cons. by left. }
  split; [rewrite length_rev, Hlen; lia|].
  split; [by apply StronglySorted_rev|].
  intros m Hm. apply Hmem. by apply list_elem_of_In, in_rev, list_elem_of_In.
Qed.

Lemma join_sends_recent_history_oldest_first_witness :
  ∃ history,
    mkEmit ToSocket "existingMessages" (PMessages history)
    ∈ emitsOf Scenario.bobJoined ∧
    (length history ≤ 50)%nat.
Proof.
  destruct (join_sends_recent_history_oldest_first (mkEnv 2000 "")
              (connect "sock-B") (storeOf Scenario.r1Created) "R1" Scenario.bob)
    as (history & Hin & Hlen & _).
  - vm_compute. reflexivity.
  - exists history. split; [exact Hin|exact Hlen].
Defined.

(** Whatever the search term, [searchMessages] returns only messages of
    the room asked for that are stored, not deleted and matched by the
    term, newest first. *)
Theorem search_returns_matching_room_messages all rid term n found :
  Message.searchMessages all rid term n = Some found →
  StronglySorted Message.newerFirst found ∧
  ∀ m, m ∈ found →
       m ∈ all ∧ Message.roomId m = rid ∧ Message.isDeleted m = false ∧
       Regex.test term (Message.text m) = Some true.
Proof.
  unfold Message.searchMessages, Regex.test.
  destruct (Regex.compile (Text.chars term)) as [re|]; [|done]. simpl.
  intros [= <-]. split; [apply limit_sorted, sortByCreatedDesc_sorted|].
  intros m Hm%limit_elem.
  apply sortByCreatedDesc_elem, elem_of_filter_bool in Hm as [Hin Hhit].
  apply andb_true_iff in Hhit as [Hroom%inRoom_spec ->]. tauto.
Qed.

Lemma search_returns_matching_room_messages_witness :
  Forall (fun m => Message.roomId m = "R1")
    (default [] (Message.searchMessages
                   (messageDocs (storeOf Scenario.bobWritesAfterEnd))
                   "R1" "h." 20)).
Proof.
  apply Forall_forall. intros m Hm.
  destruct (search_returns_matching_room_messages
              (messageDocs (storeOf Scenario.bobWritesAfterEnd)) "R1" "h." 20
              (default [] (Message.searchMessages
                             (messageDocs (storeOf Scenario.bobWritesAfterEnd))
                             "R1" "h." 20)))
    as [_ Hall].
  - vm_compute. reflexivity.
  - by destruct (Hall m Hm) as (_ & Hroom & _).
Defined.

(** ** The matcher *)

Lemma matchHere_longer re t post :
  Regex.matchHere re t = true → Regex.matchHere re (t ++ post) = true.
Proof.
  revert t. induction re as [|a re IH]; intros t; simpl; [by destruct t|].
  destruct t as [|c t]; simpl; [done|].
  intros [-> H]%andb_true_iff. by rewrite IH.
Qed.

Lemma matchAnywhere_longer re t post :
  Regex.matchAnywhere re t = true → Regex.matchAnywhere re (t ++ post) = true.
Proof.
  induction t as [|c t IH]; simpl.
  - rewrite orb_false_r. intros H.
    destruct re; [by destruct post|done].
  - intros [H|H]%orb_true_iff.
    + apply orb_true_iff. left.
      exact (matchHere_longer re (c :: t) post H).
    + rewrite IH by done. apply orb_true_r.
Qed.

Lemma matchAnywhere_later re pre t :
  Regex.matchAnywhere re t = true → Regex.matchAnywhere re (pre ++ t) = true.
Proof.
  induction pre as [|c pre IH]; simpl; [done|].
  intros H. rewrite IH by done. apply orb_true_r.
Qed.

Lemma chars_append a b : Text.chars (a +:+ b) = Text.chars a ++ Text.chars b.
Proof. unfold Text.chars. induction a; simpl; [done|]. by rewrite IHa. Qed.

(** A search term is not anchored: if it matches a text, it matches every
    text that contains that text. *)
Theorem pattern_matches_every_longer_text term txt before after :
  Regex.test term txt = Some true →
  Regex.test term (before +:+ txt +:+ after) = Some true.
Proof.
  unfold Regex.test.
  destruct (Regex.compile (Text.chars term)) as [re|]; [|done]. simpl.
  intros [= H]. rewrite !chars_append.
  by rewrite matchAnywhere_later by (by apply matchAnywhere_longer).
Qed.

Lemma pattern_matches_every_longer_text_witness :
  Regex.test "h." ("oh, " +:+ "hi" +:+ " there") = Some true.
Proof.
  apply pattern_matches_every_longer_text. vm_compute. reflexivity.
Defined.

(** ** Pages of the message history *)

Lemma findByRoom_all all rid :
  findByRoom all rid 0 0
  = Message.sortByCreatedDesc (List.filter (Message.inRoom rid) all).
Proof. done. Qed.

(** The pages of a room's messages fit together: read one after the other
    with a positive page size, the first [pages] pages are the first
    [pages * size] messages of the whole history, newest first, and they
    are the whole history as soon as [pages * size] reaches the number of
    messages. *)
Theorem pages_make_up_the_history all rid size pages :
  (0 < size)%nat →
  let whole := findByRoom all rid 0 0 in
  let read :=
    concat ((fun k => findByRoom all rid size (k * size)) <$> seq 0 pages) in
  read = take (pages * size) whole ∧
  ((countDocuments all rid ≤ pages * size)%nat → read = whole).
Proof.
  intros Hsize. cbv zeta. rewrite findByRoom_all.
  set (whole := Message.sortByCreatedDesc _).
  assert (concat ((fun k => findByRoom all rid size (k * size)) <$> seq 0 pages)
          = take (pages * size) whole) as Hread.
  { induction pages as [|p IH]; [done|].
    rewrite seq_S, fmap_app, concat_app, IH. simpl. rewrite app_nil_r.
    unfold findByRoom. fold whole.
    destruct size as [|size]; [lia|]. simpl Message.limit.
    rewrite take_take_drop. f_equal. lia. }
  split; [done|]. intros Hall. rewrite Hread. apply take_ge.
  unfold whole. rewrite sortByCreatedDesc_length. exact Hall.
Qed.

Lemma pages_make_up_the_history_witness :
  concat ((fun k => findByRoom (messageDocs (storeOf Scenario.bobWritesAfterEnd))
                      "R1" 1 (k * 1)) <$> seq 0 2)
  = findByRoom (messageDocs (storeOf Scenario.bobWritesAfterEnd)) "R1" 0 0.
Proof.
  destruct (pages_make_up_the_history
              (messageDocs (storeOf Scenario.bobWritesAfterEnd)) "R1" 1 2)
    as [_ Hwhole].
  - lia.
  - apply Hwhole. vm_compute. lia.
Defined.

(** ** The HTTP endpoints *)

Import RoomController.




(** For an id that no room has, the room endpoints answer 404; the search
    endpoint checks the query first and answers 400 when it is empty,
    whether the room exists or not. *)
Theorem unknown_room_and_empty_query db roomId page limit q :
  (∀ lim, searchRoomMessages db roomId "" lim
          = Some (Failure 400 "Search query is required")) ∧
  (findByRoomId db roomId = None →
   getRoom db roomId = Failure 404 "Room not found" ∧
   getRoomMessages db roomId page limit = Failure 404 "Room not found" ∧
   getRoomStats db roomId = Failure 404 "Room not found" ∧
   (q ≠ "" →
    searchRoomMessages db roomId q limit = Some (Failure 404 "Room not found"))).
Proof.
  split; [done|]. intros Hnone.
  unfold getRoom, getRoomMessages, getRoomStats, searchRoomMessages.
  rewrite Hnone. repeat split. intros Hq. by destruct q.
Qed.

Lemma unknown_room_and_empty_query_witness :
  getRoomStats emptyStore "R9" = Failure 404 "Room not found".
Proof.
  destruct (unknown_room_and_empty_query emptyStore "R9" None None "hi")
    as [_ Hmissing].
  destruct Hmissing as (_ & _ & Hstats & _).
  - reflexivity.
  - exact Hstats.
Defined.

(** The end of a stream does not touch the history: the message and search
    endpoints answer for every room after an [endStream] what they
    answered before, and the statistics report the same number of
    messages. *)
Theorem history_outlives_the_stream env s db ended roomId page limit q :
  let db' := storeOf (endStream env s db ended) in
  getRoomMessages db' roomId page limit = getRoomMessages db roomId page limit ∧
  searchRoomMessages db' roomId q limit = searchRoomMessages db roomId q limit ∧
  countDocuments (messageDocs db') roomId = countDocuments (messageDocs db) roomId.
Proof.
  simpl.
  assert (messageDocs (storeOf (endStream env s db ended)) = messageDocs db)
    as Hdocs.
  { unfold endStream. repeat (case_match; try done). }
  assert (is_Some (findByRoomId (storeOf (endStream env s db ended)) roomId)
          ↔ is_Some (findByRoomId db roomId)) as Hthere.
  { unfold endStream. destruct (findByRoomId db ended) as [r|] eqn:E; [|done].
    destruct (notAdmin r (currentUser s)); [done|].
    unfold findByRoomId in *. simpl.
    destruct (decide (roomId = ended)) as [->|Hne].
    - rewrite lookup_insert_eq, E. split; eauto.
    - by rewrite lookup_insert_ne. }
  unfold getRoomMessages, searchRoomMessages. rewrite Hdocs.
  destruct (findByRoomId (storeOf _) roomId) as [r'|] eqn:E',
           (findByRoomId db roomId) as [r|] eqn:E; try done.
  - destruct Hthere as [Hthere _]. destruct Hthere as [? ?]; [eauto|done].
  - destruct Hthere as [_ Hthere]. destruct Hthere as [? ?]; [eauto|done].
Qed.

(** [getRoomCategories] lists each category once, and lists exactly the
    categories of the live rooms. *)
Theorem categories_of_the_live_rooms db cats :
  getRoomCategories db = Json cats →
  NoDup cats ∧
  ∀ c, c ∈ cats ↔
       ∃ id r, findByRoomId db id = Some r ∧ isOpen r = true
               ∧ Room.category r = c.
Proof.
  unfold getRoomCategories. intros [= <-].
  split; [apply NoDup_remove_dups|].
  intros c. rewrite elem_of_remove_dups, list_elem_of_fmap. split.
  - intros (r & -> & [Hin Hopen]%elem_of_filter_bool).
    apply list_elem_of_fmap in Hin as ([id r'] & -> & Hin%elem_of_map_to_list).
    eauto.
  - intros (id & r & Hid & Hopen & <-). exists r. split; [done|].
    apply elem_of_filter_bool. split; [|done].
    apply list_elem_of_fmap. exists (id, r). split; [done|].
    by apply elem_of_map_to_list.
Qed.

Lemma categories_of_the_live_rooms_witness :
  ∃ cats,
    getRoomCategories (storeOf Scenario.bobJoined) = Json cats ∧ NoDup cats.
Proof.
  exists ["general"]. split; [vm_compute; reflexivity|].
  apply (categories_of_the_live_rooms (storeOf Scenario.bobJoined)).
  vm_compute. reflexivity.
Defined.

Lemma roomFilter_spec category search keep r :
  roomFilter category search = Some keep →
  keep r = true →
  isOpen r = true ∧ (category ≠ "" → Room.category r = category).
Proof.
  unfold roomFilter.
  assert (∀ b, isOpen r
               && (Text.falsy category || String.eqb (Room.category r) category)
               && b = true →
               isOpen r = true ∧ (category ≠ "" → Room.category r = category))
    as Hboth.
  { intros b [[Hopen Hcat]%andb_true_iff _]%andb_true_iff. split; [done|].
    intros Hne. apply orb_true_iff in Hcat as [Hcat|Hcat].
    - by destruct category.
    - by apply String.eqb_eq. }
  destruct (Text.falsy search).
  - intros [= <-] Hkeep. apply (Hboth true). by rewrite andb_true_r.
  - destruct (Regex.compile (Text.chars search)) as [re|]; [|done]. simpl.
    intros [= <-]. apply Hboth.
Qed.

Lemma limitTo_elem {A} n (l : list A) x : x ∈ limitTo n l → x ∈ l.
Proof. destruct n; [done|]. apply subseteq_take. Qed.

Lemma limitTo_sorted {A} (R : relation A) n (l : list A) :
  StronglySorted R l → StronglySorted R (limitTo n l).
Proof.
  intros H. destruct n; [done|]. simpl limitTo.
  rewrite <- (take_drop (S n) l) in H. by apply StronglySorted_app_1_l in H.
Qed.

Lemma limitTo_length {A} n (l : list A) :
  (0 < n)%nat → (length (limitTo n l) ≤ n)%nat.
Proof. destruct n; [lia|]. intros _. simpl limitTo. rewrite length_take. lia. Qed.

Lemma drop_sorted {A} (R : relation A) n (l : list A) :
  StronglySorted R l → StronglySorted R (drop n l).
Proof.
  intros H. rewrite <- (take_drop n l) in H.
  by apply StronglySorted_app_1_r in H.
Qed.

(** The room list of the HTTP surface names live rooms only, of the
    category asked for when one is given, the most recently active first,
    and no more of them than the page size; [count] is the length of the
    list. *)
Theorem getRooms_lists_live_rooms db page limit category search body :
  getRooms db page limit category search = Some (Json body) →
  count body = length (data body) ∧
  ((0 < default 20%nat limit)%nat → (count body ≤ default 20%nat limit)%nat) ∧
  StronglySorted moreRecentActivity (data body) ∧
  ∀ r, r ∈ data body →
       isOpen r = true ∧
       (category ≠ "" → Room.category r = category) ∧
       ∃ id stored, findByRoomId db id = Some stored ∧
                    r = withoutSocketIds stored.
Proof.
  unfold getRooms.
  destruct (roomFilter category search) as [keep|] eqn:Hkeep; [|done]. simpl.
  destruct (_ && _); [done|]. intros [= <-]. simpl.
  split; [done|]. split.
  { intros Hpos. rewrite length_fmap. by apply limitTo_length. }
  split.
  { apply (StronglySorted_fmap withoutSocketIds moreRecentActivity); [done|].
    apply limitTo_sorted, drop_sorted, StronglySorted_merge_sort; apply _. }
  intros r (stored & -> & Hin)%list_elem_of_fmap.
  apply limitTo_elem, subseteq_drop in Hin.
  rewrite merge_sort_Permutation in Hin.
  apply elem_of_filter_bool in Hin as [Hin Hk].
  apply list_elem_of_fmap in Hin as ([id r'] & -> & Hin%elem_of_map_to_list).
  destruct (roomFilter_spec _ _ _ _ Hkeep Hk) as [Hopen Hcat].
  split; [done|]. split; [done|]. eauto.
Qed.

Lemma getRooms_lists_live_rooms_witness :
  ∃ body,
    getRooms (storeOf Scenario.bobJoined) None None "general" "party"
    = Some (Json body) ∧
    Forall (fun r => isOpen r = true) (data body).
Proof.
  eexists. split; [vm_compute; reflexivity|].
  apply Forall_forall. intros r Hr.
  destruct (getRooms_lists_live_rooms (storeOf Scenario.bobJoined) None None
              "general" "party" _ ltac:(vm_compute; reflexivity))
    as (_ & _ & _ & Hall).
  by destruct (Hall r Hr) as [Hopen _].
Defined.

(** What the HTTP surface holds back of the socket ids is the [socketId]
    of the participant records, and only that.  [getRoom] and [getRooms]
    return each room with the participants' [socketId] blanked, the
    participants otherwise as stored; [createdBy] is returned as stored,
    and for a room made by [createRoom] it is the id of the creator's
    socket, whatever events followed; the messages of [getRoomMessages]
    are the stored documents, their [socketId] included. *)
Theorem http_blanks_participant_sockets_only db :
  (∀ id stored,
     findByRoomId db id = Some stored →
     ∃ r,
       getRoom db id = Json r ∧
       Room.participants r
       = (Participant.with_socketId "" <$> Room.participants stored) ∧
       Forall (fun p => Participant.socketId p = "") (Room.participants r) ∧
       Room.createdBy r = Room.createdBy stored) ∧
  (∀ page limit category search body r,
     getRooms db page limit category search = Some (Json body) →
     r ∈ data body →
     Forall (fun p => Participant.socketId p = "") (Room.participants r) ∧
     ∃ id stored,
       findByRoomId db id = Some stored ∧
       Room.createdBy r = Room.createdBy stored) ∧
  (∀ roomId page limit body m,
     getRoomMessages db roomId page limit = Json body →
     m ∈ data body → m ∈ messageDocs db) ∧
  (∀ env s d trace,
     noError (createRoom env s db d) →
     ∃ r,
       getRoom (runAll trace (storeOf (createRoom env s db d)))
         (Text.orElse (RoomData.id d) (generatedId env)) = Json r ∧
       Room.createdBy r = socketId s).
Proof.
  assert (∀ stored,
            Forall (fun p => Participant.socketId p = "")
                   (Room.participants (withoutSocketIds stored))) as Hblank.
  { intros stored. apply Forall_forall.
    intros p (q & -> & _)%list_elem_of_fmap. done. }
  split; [|split; [|split]].
  - intros id stored Hfind. unfold getRoom. rewrite Hfind.
    eexists. split; [done|]. split; [done|]. split; [apply Hblank|done].
  - intros page limit category search body r. unfold getRooms.
    destruct (roomFilter category search) as [keep|]; [|done]. simpl.
    destruct (_ && _); [done|]. intros [= <-]. simpl.
    intros (stored & -> & Hin)%list_elem_of_fmap. split; [apply Hblank|].
    apply limitTo_elem, subseteq_drop in Hin.
    rewrite merge_sort_Permutation in Hin.
    apply elem_of_filter_bool in Hin as [Hin _].
    apply list_elem_of_fmap in Hin as ([id r'] & -> & Hin%elem_of_map_to_list).
    exists id, r'. done.
  - intros roomId page limit body m. unfold getRoomMessages.
    destruct (findByRoomId db roomId); [|done].
    destruct (_ && _); [done|]. intros [= <-]. simpl. unfold findByRoom.
    intros Hin%limit_elem%subseteq_drop.
    by apply sortByCreatedDesc_elem, elem_of_filter_bool in Hin as [Hin _].
  - intros env s d trace (Hfresh & Hstore & _)%createRoom_noError.
    simpl in Hstore.
    destruct (runAll_keeps_room trace (storeOf (createRoom env s db d))
                (Text.orElse (RoomData.id d) (generatedId env))
                (newRoomData env s
                   (Text.orElse (RoomData.id d) (generatedId env)) d))
      as (stored & Hlater & Hsame).
    { rewrite Hstore. unfold findByRoomId. simpl. apply lookup_insert_eq. }
    unfold getRoom. rewrite Hlater. eexists. split; [done|]. simpl.
    by destruct Hsame as (_ & _ & _ & _ & _ & _ & _ & _ & _ & _ & _ & ->).
Qed.

Lemma http_blanks_participant_sockets_only_witness :
  ∃ r,
    getRoom (storeOf Scenario.bobJoined) "R1" = Json r ∧
    Forall (fun p => Participant.socketId p = "") (Room.participants r) ∧
    Room.createdBy r = "sock-A".
Proof.
  destruct (http_blanks_participant_sockets_only (storeOf Scenario.bobJoined))
    as [Hroom _].
  destruct (Hroom "R1"
              (Room.addParticipant 2000
                 (Participant.mk "B" "Bob" "bob" "" 2000 "sock-B")
                 (newRoomData (mkEnv 1000 "room_1000_k3j9x0q2a")
                    (sessionOf Scenario.aliceAuthenticated) "R1"
                    Scenario.roomR1)))
    as (r & Hget & _ & Hblank & Hcreator).
  - vm_compute. reflexivity.
  - exists r. split; [exact Hget|]. split; [exact Hblank|].
    rewrite Hcreator. reflexivity.
Defined.

(** ** Soft deletion and the queries *)

(** A message that [deleteMessage] has marked is returned by none of the
    queries: not by [findByRoom], not by [findRecentMessages], not by
    [searchMessages], whatever the other stored messages are; it is only
    marked, its text and its other fields stay. *)
Theorem deleted_message_is_never_returned now d all rid n skip term found :
  let m := MessageDoc.message (MessageDoc.deleteMessage now d) in
  Message.text m = Message.text (MessageDoc.message d) ∧
  MessageDoc.deletedAt (MessageDoc.deleteMessage now d) = Some now ∧
  (m ∉ findByRoom all rid n skip) ∧
  (m ∉ Message.findRecentMessages all rid n) ∧
  (Message.searchMessages all rid term n = Some found → m ∉ found).
Proof.
  simpl. split; [done|]. split; [done|].
  set (m := Message.mk _ _ _ _ _ _ _ _ _ _).
  assert (∀ l, m ∉ Message.sortByCreatedDesc (List.filter (Message.inRoom rid) l))
    as Hout.
  { intros l [_ Hin%inRoom_spec]%sortByCreatedDesc_elem%elem_of_filter_bool.
    by destruct Hin. }
  split; [|split].
  - intros Hin%limit_elem%subseteq_drop. by apply (Hout all).
  - intros Hin%limit_elem. by apply (Hout all).
  - unfold Message.searchMessages.
    destruct (Regex.compile (Text.chars term)) as [re|]; [|done]. simpl.
    intros [= <-] Hin%limit_elem%sortByCreatedDesc_elem%elem_of_filter_bool.
    destruct Hin as [_ [Hin%inRoom_spec _]%andb_true_iff]. by destruct Hin.
Qed.

(** ** Reactions and the other message methods *)

Lemma reactionsBy_others uid other (l : list Reaction.t) :
  other ≠ uid →
  List.filter (fun r => String.eqb (Reaction.uid r) other)
    (List.filter (fun r => negb (String.eqb (Reaction.uid r) uid)) l)
  = List.filter (fun r => String.eqb (Reaction.uid r) other) l.
Proof.
  intros Hne. induction l as [|r l IH]; simpl; [done|].
  destruct (String.eqb (Reaction.uid r) uid) eqn:E1; simpl.
  - apply String.eqb_eq in E1.
    destruct (String.eqb (Reaction.uid r) other) eqn:E2; [|done].
    apply String.eqb_eq in E2. congruence.
  - destruct (String.eqb (Reaction.uid r) other); simpl; by rewrite IH.
Qed.

Lemma reactionsBy_self uid (l : list Reaction.t) :
  List.filter (fun r => String.eqb (Reaction.uid r) uid)
    (List.filter (fun r => negb (String.eqb (Reaction.uid r) uid)) l)
  = [].
Proof.
  induction l as [|r l IH]; simpl; [done|].
  destruct (String.eqb (Reaction.uid r) uid) eqn:E; simpl; [done|].
  by rewrite E.
Qed.

Lemma reactionsBy_addReaction now user emoji d uid :
  MessageDoc.reactionsBy uid (MessageDoc.addReaction now user emoji d)
  = if String.eqb (User.uid user) uid then 1%nat
    else MessageDoc.reactionsBy uid d.
Proof.
  unfold MessageDoc.reactionsBy, MessageDoc.addReaction,
    MessageDoc.reactionsOfOthers. simpl.
  rewrite List.filter_app, length_app. simpl.
  destruct (String.eqb (User.uid user) uid) eqn:E; simpl.
  - apply String.eqb_eq in E as <-. by rewrite reactionsBy_self.
  - apply String.eqb_neq in E. rewrite reactionsBy_others by done. lia.
Qed.

Lemma reactionsBy_removeReaction userUid d uid :
  MessageDoc.reactionsBy uid (MessageDoc.removeReaction userUid d)
  = if String.eqb userUid uid then 0%nat else MessageDoc.reactionsBy uid d.
Proof.
  unfold MessageDoc.reactionsBy, MessageDoc.removeReaction,
    MessageDoc.reactionsOfOthers. simpl.
  destruct (String.eqb userUid uid) eqn:E.
  - apply String.eqb_eq in E as <-. by rewrite reactionsBy_self.
  - apply String.eqb_neq in E. by rewrite reactionsBy_others.
Qed.

(** Reacting replaces: after [addReaction], the message carries exactly one
    reaction of that user, the new one, placed last; the reactions of every
    other user are the ones that were there, in their order; and the
    number of reactions grows by one at most. *)
Theorem addReaction_replaces now user emoji d :
  let d' := MessageDoc.addReaction now user emoji d in
  MessageDoc.reactionsBy (User.uid user) d' = 1%nat ∧
  last (MessageDoc.reactions d')
  = Some (Reaction.mk (User.uid user) (User.displayName user) emoji now) ∧
  (∀ other, other ≠ User.uid user →
     List.filter (fun r => String.eqb (Reaction.uid r) other)
                 (MessageDoc.reactions d')
     = List.filter (fun r => String.eqb (Reaction.uid r) other)
                   (MessageDoc.reactions d)) ∧
  (MessageDoc.reactionCount d' ≤ S (MessageDoc.reactionCount d))%nat.
Proof.
  simpl. split.
  { rewrite reactionsBy_addReaction. by rewrite String.eqb_refl. }
  split; [apply last_snoc|]. split.
  - intros other Hne. unfold MessageDoc.reactionsOfOthers.
    rewrite List.filter_app, reactionsBy_others by done. simpl.
    destruct (String.eqb (User.uid user) other) eqn:E.
    + apply String.eqb_eq in E. congruence.
    + apply app_nil_r.
  - unfold MessageDoc.reactionCount. simpl. rewrite length_app. simpl.
    unfold MessageDoc.reactionsOfOthers.
    pose proof (length_filter_le
      (fun r => negb (String.eqb (Reaction.uid r) (User.uid user)))
      (MessageDoc.reactions d)). lia.
Qed.

(** A message that has at most one reaction per user keeps at most one
    reaction per user under every sequence of method calls; in particular a
    message that starts without reactions never has two of the same
    user. *)
Theorem reactions_stay_one_per_user calls d :
  (∀ uid, (MessageDoc.reactionsBy uid d ≤ 1)%nat) →
  ∀ uid, (MessageDoc.reactionsBy uid (MessageDoc.callAll calls d) ≤ 1)%nat.
Proof.
  unfold MessageDoc.callAll. revert d.
  induction calls as [|[now c] calls IH]; intros d Hd; simpl; [done|].
  apply IH. intros uid. specialize (Hd uid).
  destruct c; simpl; try done.
  - rewrite reactionsBy_addReaction. by destruct (String.eqb _ uid).
  - rewrite reactionsBy_removeReaction. destruct (String.eqb _ uid); lia.
Qed.

Lemma reactions_stay_one_per_user_witness :
  (MessageDoc.reactionsBy "B"
     (MessageDoc.callAll
        [(3100%Z, MessageDoc.AddReaction Scenario.bob "+1");
         (3200%Z, MessageDoc.AddReaction Scenario.alice "heart");
         (3300%Z, MessageDoc.AddReaction Scenario.bob "tada")]
        (MessageDoc.fresh
           (Message.mk "msg_3000_p0o9i8u7y" "R1" "hi" Scenario.bob "sock-B"
              text_msg false false false 3000%Z))) ≤ 1)%nat.
Proof.
  apply reactions_stay_one_per_user.
  intros uid. vm_compute. lia.
Defined.

(** No method call changes which message it is or undoes a deletion or an
    edit mark: under every sequence of calls the id, the room, the author,
    the socket, the type, the creation time and the reply reference stay,
    a deleted message stays deleted and an edited one stays edited. *)
Theorem method_calls_keep_the_message calls d :
  let m := MessageDoc.message d in
  let m' := MessageDoc.message (MessageDoc.callAll calls d) in
  Message.id m' = Message.id m ∧ Message.roomId m' = Message.roomId m ∧
  Message.user m' = Message.user m ∧ Message.socketId m' = Message.socketId m ∧
  Message.messageType m' = Message.messageType m ∧
  Message.createdAt m' = Message.createdAt m ∧
  MessageDoc.replyTo (MessageDoc.callAll calls d) = MessageDoc.replyTo d ∧
  (Message.isDeleted m = true → Message.isDeleted m' = true) ∧
  (Message.isEdited m = true → Message.isEdited m' = true).
Proof.
  unfold MessageDoc.callAll. revert d.
  induction calls as [|[now c] calls IH]; intros d; simpl; [done|].
  specialize (IH (MessageDoc.call now c d)). simpl in IH.
  destruct IH as (-> & -> & -> & -> & -> & -> & -> & Hdel & Hed).
  destruct c; simpl in *; repeat split; auto.
Qed.

(** A reaction can be taken back: when the user had not reacted before,
    [removeReaction] after [addReaction] leaves the reactions as they
    were; in any case it leaves what removing alone would leave. *)
Theorem reaction_can_be_taken_back now user emoji d :
  MessageDoc.reactions
    (MessageDoc.removeReaction (User.uid user)
       (MessageDoc.addReaction now user emoji d))
  = MessageDoc.reactions (MessageDoc.removeReaction (User.uid user) d) ∧
  (MessageDoc.reactionsBy (User.uid user) d = 0%nat →
   MessageDoc.reactions
     (MessageDoc.removeReaction (User.uid user)
        (MessageDoc.addReaction now user emoji d))
   = MessageDoc.reactions d).
Proof.
  assert (∀ uid (l : list Reaction.t),
            List.filter (fun r => negb (String.eqb (Reaction.uid r) uid))
              (List.filter (fun r => negb (String.eqb (Reaction.uid r) uid)) l)
            = List.filter (fun r => negb (String.eqb (Reaction.uid r) uid)) l)
    as Hidem.
  { intros uid l. induction l as [|r l IH]; simpl; [done|].
    destruct (String.eqb (Reaction.uid r) uid) eqn:E; simpl; [done|].
    by rewrite E, IH. }
  assert (MessageDoc.reactions
            (MessageDoc.removeReaction (User.uid user)
               (MessageDoc.addReaction now user emoji d))
          = MessageDoc.reactions (MessageDoc.removeReaction (User.uid user) d))
    as Hsame.
  { unfold MessageDoc.removeReaction, MessageDoc.addReaction,
      MessageDoc.reactionsOfOthers. simpl.
    rewrite List.filter_app, Hidem. simpl.
    rewrite String.eqb_refl. simpl. apply app_nil_r. }
  split; [exact Hsame|]. intros Hnone. rewrite Hsame.
  unfold MessageDoc.reactionsBy in Hnone.
  unfold MessageDoc.removeReaction, MessageDoc.reactionsOfOthers. simpl.
  induction (MessageDoc.reactions d) as [|r l IH]; simpl in *; [done|].
  destruct (String.eqb (Reaction.uid r) (User.uid user)); simpl in *; [done|].
  by rewrite IH.
Qed.

Lemma deleted_message_is_never_returned_witness :
  MessageDoc.message
    (MessageDoc.deleteMessage 3500
       (MessageDoc.fresh
          (Message.mk "msg_3000_p0o9i8u7y" "R1" "hi" Scenario.bob "sock-B"
             text_msg false false false 3000)))
  ∉ default []
      (Message.searchMessages
         (messageDocs (storeOf Scenario.bobWritesAfterEnd)) "R1" "hi" 20).
Proof.
  destruct (deleted_message_is_never_returned 3500
              (MessageDoc.fresh
                 (Message.mk "msg_3000_p0o9i8u7y" "R1" "hi" Scenario.bob "sock-B"
                    text_msg false false false 3000))
              (messageDocs (storeOf Scenario.bobWritesAfterEnd)) "R1" 20 0 "hi"
              (default []
                 (Message.searchMessages
                    (messageDocs (storeOf Scenario.bobWritesAfterEnd))
                    "R1" "hi" 20)))
    as (_ & _ & _ & _ & Hsearch).
  apply Hsearch. vm_compute. reflexivity.
Defined.

Lemma addReaction_replaces_witness :
  MessageDoc.reactionsBy "B"
    (MessageDoc.addReaction 3300 Scenario.bob "tada"
       (MessageDoc.addReaction 3100 Scenario.bob "+1"
          (MessageDoc.fresh
             (Message.mk "msg_3000_p0o9i8u7y" "R1" "hi" Scenario.bob "sock-B"
                text_msg false false false 3000))))
  = 1%nat.
Proof.
  apply (addReaction_replaces 3300 Scenario.bob "tada"
           (MessageDoc.addReaction 3100 Scenario.bob "+1"
              (MessageDoc.fresh
                 (Message.mk "msg_3000_p0o9i8u7y" "R1" "hi" Scenario.bob
                    "sock-B" text_msg false false false 3000)))).
Defined.
